(** * Pattern-driven extraction engine of letterexplorer

    Shallow embedding of [src/regex_parser.stable.py] (class [RegexParser])
    and of [src/research/markup_parser.py] (class [MarkupParser]), and the
    properties of the extraction semantics established on them.

    Python strings are sequences of Unicode code points; Python exceptions
    are the [Raise] results of a small error monad; Python dictionaries are
    insertion-ordered association lists.  The regular-expression engine
    (module [re]) and the Unicode tables of the interpreter are not part of
    the repository: they are the members of the class [Runtime], and every
    general statement holds for all runtimes.  [PyFrag] is a runtime that
    interprets a small fragment of [re], [PyNamed] the same fragment with
    named groups; they are used to evaluate the code on concrete
    documents. *)

From Stdlib Require Import List NArith ZArith Bool String Ascii Lia PeanoNat.
From Stdlib Require Import DecimalString.
Import ListNotations.
Local Open Scope list_scope.
Local Set Warnings "-register-all".

(** ** Python data *)

Module Py.

(** A character is a code point, a [str] a sequence of them. *)
Definition char := N.
Definition str := list char.

(** String literals of this file are UTF-8; [u] decodes them. *)
Fixpoint utf8_decode (bs : list N) : str :=
  match bs with
  | [] => []
  | b0 :: r0 =>
    if (b0 <? 128)%N then b0 :: utf8_decode r0
    else if (b0 <? 224)%N then
      match r0 with
      | b1 :: r1 =>
        N.lor (N.shiftl (N.land b0 31) 6) (N.land b1 63) :: utf8_decode r1
      | [] => []
      end
    else if (b0 <? 240)%N then
      match r0 with
      | b1 :: b2 :: r2 =>
        N.lor (N.shiftl (N.land b0 15) 12)
              (N.lor (N.shiftl (N.land b1 63) 6) (N.land b2 63))
          :: utf8_decode r2
      | _ => []
      end
    else
      match r0 with
      | b1 :: b2 :: b3 :: r3 =>
        N.lor (N.shiftl (N.land b0 7) 18)
              (N.lor (N.shiftl (N.land b1 63) 12)
                     (N.lor (N.shiftl (N.land b2 63) 6) (N.land b3 63)))
          :: utf8_decode r3
      | _ => []
      end
  end.

Definition u (s : string) : str :=
  utf8_decode (map N_of_ascii (list_ascii_of_string s)).

Fixpoint str_eqb (a b : str) : bool :=
  match a, b with
  | [], [] => true
  | x :: a', y :: b' => (x =? y)%N && str_eqb a' b'
  | _, _ => false
  end.

Definition mem (x : str) (l : list str) : bool := existsb (str_eqb x) l.

(** [s.startswith(p)] *)
Fixpoint startswith (s p : str) : bool :=
  match p, s with
  | [], _ => true
  | y :: p', x :: s' => (x =? y)%N && startswith s' p'
  | _ :: _, [] => false
  end.

(** [p in s] for strings *)
Fixpoint contains (s p : str) : bool :=
  startswith s p || match s with [] => false | _ :: s' => contains s' p end.

(** [s.replace(c, '')] for a one-character [c] *)
Definition remove_char (c : char) (s : str) : str :=
  filter (fun x => negb (x =? c)%N) s.

(** [s.split(sep)] for a one-character separator: one field more than
    there are separators, empty fields kept. *)
Fixpoint split_on (sep : char) (s : str) : list str :=
  match s with
  | [] => [[]]
  | c :: s' =>
    if (c =? sep)%N then [] :: split_on sep s'
    else match split_on sep s' with
         | f :: fs => (c :: f) :: fs
         | [] => [[c]]
         end
  end.

(** [sep.join(parts)] *)
Fixpoint join (sep : str) (parts : list str) : str :=
  match parts with
  | [] => []
  | [p] => p
  | p :: ps => p ++ sep ++ join sep ps
  end.

(** [s[i:j]] for offsets [0 <= i], [0 <= j] *)
Definition slice (s : str) (i j : nat) : str := firstn (j - i) (skipn i s).

Definition LF : char := 10%N.

(** Exceptions the modelled code can raise. *)
Inductive exn :=
| IndexError | AttributeError | TypeError | ValueError | ReError.

Inductive res (A : Type) :=
| Ok (a : A)
| Raise (e : exn).
Arguments Ok {A} a.
Arguments Raise {A} e.

Definition bind {A B} (c : res A) (k : A -> res B) : res B :=
  match c with
  | Ok a => k a
  | Raise e => Raise e
  end.

Declare Scope py_scope.
Delimit Scope py_scope with py.
Notation "x <- c ;; k" := (bind c (fun x => k))
  (at level 61, c at next level, right associativity) : py_scope.

(** [d.get(key, default)] on an optional entry *)
Definition getd {A} (o : option A) (d : A) : A :=
  match o with Some a => a | None => d end.

(** [l[i]] on a list *)
Definition index {A} (l : list A) (i : nat) : res A :=
  match nth_error l i with
  | Some x => Ok x
  | None => Raise IndexError
  end.

(** Values that extraction produces and JSON carries. *)
Inductive value :=
| VNone
| VBool (b : bool)
| VInt (z : Z)
| VStr (s : str)
| VList (l : list value)
| VTuple (l : list value)
| VDict (d : list (str * value)).

(** Truth value of an object, as tested by [if x:]. *)
Definition truthy (v : value) : bool :=
  match v with
  | VNone => false
  | VBool b => b
  | VInt z => negb (z =? 0)%Z
  | VStr [] | VList [] | VTuple [] | VDict [] => false
  | _ => true
  end.

(** Dictionaries keep insertion order; assignment to a present key keeps
    its position. *)
Section Dict.
Context {K V : Type} (eqb : K -> K -> bool).

Fixpoint dict_set (d : list (K * V)) (k : K) (v : V) : list (K * V) :=
  match d with
  | [] => [(k, v)]
  | (k', v') :: d' =>
    if eqb k' k then (k', v) :: d' else (k', v') :: dict_set d' k v
  end.

Fixpoint dict_get (d : list (K * V)) (k : K) : option V :=
  match d with
  | [] => None
  | (k', v') :: d' => if eqb k' k then Some v' else dict_get d' k
  end.
End Dict.

Definition dict := list (str * value).
Definition dset (d : dict) (k : str) (v : value) : dict := dict_set str_eqb d k v.
Definition dget (d : dict) (k : str) : option value := dict_get str_eqb d k.

(** Match objects of [re]: span, whole match, numbered groups (a group
    that did not take part is [None]) and named groups. *)
Record rmatch := {
  m_start : nat;
  m_end : nat;
  m_whole : str;
  m_groups : list (option str);
  m_named : list (str * option str)
}.

(** [match.group(n)]: [IndexError] for a group that does not exist. *)
Definition group (m : rmatch) (n : Z) : res (option str) :=
  if (n =? 0)%Z then Ok (Some (m_whole m))
  else if (0 <? n)%Z then
    match nth_error (m_groups m) (Z.to_nat n - 1) with
    | Some g => Ok g
    | None => Raise IndexError
    end
  else Raise IndexError.

Definition opt_value (o : option str) : value :=
  match o with Some s => VStr s | None => VNone end.

(** [match.groupdict()] *)
Definition groupdict (m : rmatch) : dict :=
  fold_left (fun d kv => dset d (fst kv) (opt_value (snd kv))) (m_named m) [].

Record re_flags := {
  IGNORECASE : bool;
  MULTILINE : bool;
  DOTALL : bool
}.

(** What the interpreter supplies.  [re_compile p f] is [re.compile(p, f)],
    [None] when [p] does not compile ([re.error]); [finditer r s] is the
    sequence of matches of [r.finditer(s)], in document order; [py_str] is
    [str()] of an object that is not a string; [py_int] is [int()] of a
    string.  An exception of [re] that is no [re.error] (a repeat count
    beyond the limit of the engine raises [OverflowError]) is no outcome
    of [re_compile]: what is stated of a call that compiles a pattern is
    stated for the patterns that [re] compiles or refuses with
    [re.error]. *)
Class Runtime := {
  isspace : char -> bool;
  isdigit : char -> bool;
  regex : Type;
  re_compile : str -> re_flags -> option regex;
  finditer : regex -> str -> list rmatch;
  py_str : value -> str;
  py_int : str -> res Z
}.

Section Methods.
Context {R : Runtime}.

(** [s.strip()] *)
Fixpoint lstrip (s : str) : str :=
  match s with
  | c :: s' => if isspace c then lstrip s' else s
  | [] => []
  end.
Definition rstrip (s : str) : str := rev (lstrip (rev s)).
Definition strip (s : str) : str := rstrip (lstrip s).

(** [s.split()]: fields separated by runs of whitespace, none empty. *)
Fixpoint split_ws_aux (cur : str) (s : str) : list str :=
  match s with
  | [] => match cur with [] => [] | _ => [rev cur] end
  | c :: s' =>
    if isspace c
    then match cur with
         | [] => split_ws_aux [] s'
         | _ => rev cur :: split_ws_aux [] s'
         end
    else split_ws_aux (c :: cur) s'
  end.
Definition split_ws (s : str) : list str := split_ws_aux [] s.

(** A token of [split()]: not empty and free of whitespace. *)
Definition is_token (t : str) : Prop :=
  t <> [] /\ Forall (fun c => isspace c = false) t.

(** [s.isdigit()] *)
Definition str_isdigit (s : str) : bool :=
  match s with [] => false | _ => forallb isdigit s end.

(** [r.search(s)]: the first match, if any. *)
Definition search (r : regex) (s : str) : option rmatch :=
  hd_error (finditer r s).

(** One item of [findall]: the whole match without groups, the group
    with one group, the tuple of groups otherwise; a group that did not
    take part counts as the empty string. *)
Definition findall_item (m : rmatch) : value :=
  let txt (g : option str) := match g with Some s => s | None => [] end in
  match m_groups m with
  | [] => VStr (m_whole m)
  | [g] => VStr (txt g)
  | gs => VTuple (map (fun g => VStr (txt g)) gs)
  end.

Definition findall (r : regex) (s : str) : list value :=
  map findall_item (finditer r s).
End Methods.

End Py.

(** ** [class RegexParser] of regex_parser.stable.py *)

Module RegexParser.
Import Py.
Local Open Scope py_scope.

(** A pattern descriptor of the JSON specification.  A key is absent
    ([None]) or holds a value of its type; a [flags] key that holds no
    list (JSON [null]) is outside the model. *)
Record pattern_info := {
  pattern : option str;
  flags : option (list str);
  extraction_method : option str;
  subsection_pattern : option str
}.

(** A table descriptor of the JSON specification. *)
Record table_info := {
  table_name : option value;
  table_number : option value;
  description : option value;
  t_extraction_method : option str;
  structure : option (list (str * pattern_info));
  t_pattern : option str;
  t_flags : option (list str);
  header_pattern : option str;
  row_names : option value;
  value_patterns : option (list (str * str))
}.

(** [self.patterns] *)
Record patterns := {
  metadata : option (list (str * pattern_info));
  technical_params : option (list (str * pattern_info));
  sections : option (list (str * pattern_info));
  tables : option (list table_info)
}.

Record ExtractionResult := {
  r_metadata : dict;
  r_technical_params : dict;
  r_sections : dict;
  r_tables : list dict
}.

Definition mk_flags (flags_list : list str) : re_flags :=
  {| IGNORECASE := mem (u "IGNORECASE") flags_list;
     MULTILINE := mem (u "MULTILINE") flags_list;
     DOTALL := mem (u "DOTALL") flags_list |}.

(** The descriptor [{'pattern': p, 'flags': f}] built inline by
    [extract_table]; [{'pattern': p}] when [f] is [None]. *)
Definition inline_info (p : str) (f : option (list str)) : pattern_info :=
  {| pattern := Some p; flags := f;
     extraction_method := None; subsection_pattern := None |}.

Section WithRuntime.
Context {R : Runtime}.

(** [extract_with_pattern] (lines 220-254).  [re.error] is caught and
    reported on the console; the function then returns [None]. *)
Definition extract_with_pattern (text : str) (pattern_info : pattern_info)
  : value :=
  let pattern := getd (pattern pattern_info) [] in
  let flags_list := getd (flags pattern_info) [] in
  match pattern with
  | [] => VNone
  | _ =>
    let flags := mk_flags flags_list in
    match re_compile pattern flags with
    | None => VNone
    | Some r =>
      if contains pattern (u "(?P<") then
        match search r text with
        | Some m => VDict (groupdict m)
        | None => VNone
        end
      else
        match findall r text with
        | [] => VNone
        | [x] => x
        | matches => VList matches
        end
    end
  end.

(** The loop shared by [extract_metadata] and
    [extract_technical_params] (lines 263-266 and 277-280). *)
Definition extract_fields (text : str) (items : list (str * pattern_info))
  : dict :=
  fold_left
    (fun (acc : dict) (kv : str * pattern_info) =>
       let result := extract_with_pattern text (snd kv) in
       if truthy result then dset acc (fst kv) result else acc)
    items [].

Definition extract_metadata (self : patterns) (text : str) : dict :=
  match metadata self with
  | None => []
  | Some items => extract_fields text items
  end.

Definition extract_technical_params (self : patterns) (text : str) : dict :=
  match technical_params self with
  | None => []
  | Some items => extract_fields text items
  end.

(** [result.strip()] on an extraction result: lists, tuples and
    dictionaries have no such method. *)
Definition result_strip (result : value) : res str :=
  match result with
  | VStr s => Ok (strip s)
  | _ => Raise AttributeError
  end.

(** [x if isinstance(x, str) else str(x)] *)
Definition text_of (x : value) : str :=
  match x with VStr s => s | _ => py_str x end.

Definition nonempty (s : str) : bool :=
  match s with [] => false | _ => true end.

(** [table_data[outer][k] = v] *)
Definition set_item_in (table_data : dict) (outer k : str) (v : value)
  : res dict :=
  match dget table_data outer with
  | Some (VDict d) => Ok (dset table_data outer (VDict (dset d k v)))
  | _ => Raise TypeError
  end.

Definition strs (l : list str) : value := VList (map VStr l).

(** *** Strategy 1, [structured] (lines 298-321) *)

Definition columns_of (elements_text : str) : list str :=
  map strip (filter (fun elem => nonempty (strip elem))
                    (split_ws elements_text)).

(** [val and (val[0].isdigit() or val.startswith('н'))] *)
Definition looks_numeric (val : str) : bool :=
  match val with
  | [] => false
  | c :: _ => isdigit c || startswith val (u "н")
  end.

Definition row_values (row_text : str) : list str :=
  fold_left
    (fun values val =>
       let val := strip val in
       if looks_numeric val then values ++ [val] else values)
    (split_ws row_text) [].

Definition extract_structured (text : str)
    (structure : list (str * pattern_info)) (table_data : dict) : res dict :=
  let table_data :=
    match dict_get str_eqb structure (u "elements") with
    | Some info =>
      let elements_result := extract_with_pattern text info in
      if truthy elements_result
      then dset table_data (u "columns")
                (strs (columns_of (text_of elements_result)))
      else table_data
    | None => table_data
    end in
  fold_left
    (fun (acc : res dict) (row_name : str) =>
       table_data <- acc ;;
       match dict_get str_eqb structure row_name with
       | Some info =>
         let row_result := extract_with_pattern text info in
         if truthy row_result
         then set_item_in table_data (u "rows") row_name
                          (strs (row_values (text_of row_result)))
         else Ok table_data
       | None => Ok table_data
       end)
    [u "recommended"; u "certificate"; u "espz"] (Ok table_data).

(** *** Strategy 2, [simple] (lines 324-337) *)
Definition extract_simple (result : value) (table_data : dict) : dict :=
  match result with
  | VTuple l => dset table_data (u "raw_data") (VList l)
  | _ => dset table_data (u "raw_data") result
  end.

(** *** Strategy 3, [structured_table_2] (lines 340-354) *)
Definition extract_table_2 (result : value) (table_data : dict) : res dict :=
  s <- result_strip result ;;
  let lines := split_on LF s in
  if 6 <=? List.length lines then
    l0 <- index lines 0 ;; l1 <- index lines 1 ;; l2 <- index lines 2 ;;
    let table_data :=
      dset table_data (u "headers") (strs [strip l0; strip l1; strip l2]) in
    l3 <- index lines 3 ;; l4 <- index lines 4 ;;
    l5 <- index lines 5 ;; l6 <- index lines 6 ;;
    l7 <- index lines 7 ;; l8 <- index lines 8 ;;
    Ok (dset table_data (u "values")
             (VList [strs [strip l3; strip l4];
                     strs [strip l5; strip l6];
                     strs [strip l7; strip l8]]))
  else Ok (dset table_data (u "raw_text") result).

(** *** Strategy 4, [key_value_table] (lines 357-378) *)

(** The [while i < len(lines)] loop; every iteration advances [i], so
    [len(lines) - i] iterations are enough and [fuel] counts them. *)
Fixpoint key_value_loop (fuel : nat) (lines : list str) (i : nat)
    (data : dict) : dict :=
  match fuel with
  | O => data
  | S fuel' =>
    if i <? List.length lines then
      if i + 1 <? List.length lines then
        let key := nth i lines [] in
        let value := nth (i + 1) lines [] in
        if negb (startswith value (u "N")) && negb (startswith value (u "Д"))
        then key_value_loop fuel' lines (i + 2) (dset data key (VStr value))
        else key_value_loop fuel' lines (i + 1) data
      else key_value_loop fuel' lines (i + 1) data
    else data
  end.

(** The pairing rule in the words of the specification: lines are taken
    two at a time as key and value; when the would-be value starts with a
    rejection marker, only the key is dropped and pairing resumes at the
    would-be value. *)
Definition rejected (value : str) : bool :=
  startswith value (u "N") || startswith value (u "Д").

Fixpoint pair_lines (lines : list str) (data : dict) : dict :=
  match lines with
  | key :: ((value :: rest) as tail) =>
    if rejected value then pair_lines tail data
    else pair_lines rest (dset data key (VStr value))
  | _ => data
  end.

Definition nonempty_lines (s : str) : list str :=
  map strip (filter (fun line => nonempty (strip line)) (split_on LF s)).

Definition extract_key_value (result : value) (table_data : dict)
  : res dict :=
  s <- result_strip result ;;
  let lines := nonempty_lines s in
  Ok (dset table_data (u "data")
           (VDict (key_value_loop (List.length lines) lines 0 []))).

(** *** Strategy 5, [structured_table_4] (lines 381-411) *)

Definition ch (a : ascii) : char := N_of_ascii a.

(** The test of lines 399-400; [int(line)] is only reached when
    [line.isdigit()] holds. *)
Definition is_data_line (line : str) : res bool :=
  if str_isdigit
       (remove_char (ch " ") (remove_char (ch "-") (remove_char (ch ".")
         (remove_char (ch ",") (remove_char (ch "+") line)))))
  then Ok true
  else if str_isdigit line
       then n <- py_int line ;; Ok (85 <=? n)%Z
       else Ok false.

Fixpoint table_4_loop (lines : list str) (header_lines : list str)
    (data_started : bool) (rows : list value)
  : res (list str * list value) :=
  match lines with
  | [] => Ok (header_lines, rows)
  | line :: rest =>
    let line := strip line in
    if negb (nonempty line) then
      table_4_loop rest header_lines data_started rows
    else
      d <- is_data_line line ;;
      let data_started := if d then true else data_started in
      if negb data_started then
        table_4_loop rest (header_lines ++ [line]) data_started rows
      else
        let parts := split_ws line in
        if 3 <=? List.length parts
        then table_4_loop rest header_lines data_started (rows ++ [strs parts])
        else table_4_loop rest header_lines data_started rows
    end.

Definition extract_table_4 (result : value) (table_data : dict) : res dict :=
  s <- result_strip result ;;
  let lines := split_on LF s in
  let table_data := dset table_data (u "headers") (VList []) in
  let table_data := dset table_data (u "rows") (VList []) in
  hr <- table_4_loop lines [] false [] ;;
  let table_data := dset table_data (u "rows") (VList (snd hr)) in
  Ok (dset table_data (u "headers") (strs (fst hr))).

(** *** Strategy 6, [structured_table_5] (lines 414-450) *)

(** [part.replace(',', '').replace('.', '').isdigit()] *)
Definition is_number (part : str) : bool :=
  str_isdigit (remove_char (ch ".") (remove_char (ch ",") part)).

Inductive active_list := Distances | MinValues | MaxValues.

Record table_5_lists := {
  distances : list str;
  min_values : list str;
  max_values : list str
}.

Definition append_to (which : active_list) (part : str) (l : table_5_lists)
  : table_5_lists :=
  match which with
  | Distances =>
    {| distances := distances l ++ [part];
       min_values := min_values l; max_values := max_values l |}
  | MinValues =>
    {| distances := distances l;
       min_values := min_values l ++ [part]; max_values := max_values l |}
  | MaxValues =>
    {| distances := distances l;
       min_values := min_values l; max_values := max_values l ++ [part] |}
  end.

Fixpoint table_5_loop (lines : list str) (current_list : option active_list)
    (l : table_5_lists) : table_5_lists :=
  match lines with
  | [] => l
  | line :: rest =>
    let line := strip line in
    if contains line (u "Полоса прокаливаемости") then
      table_5_loop rest current_list l
    else if str_eqb line (u "MM") then table_5_loop rest (Some Distances) l
    else if str_eqb line (u "min") then table_5_loop rest (Some MinValues) l
    else if str_eqb line (u "HRC") then table_5_loop rest current_list l
    else if str_eqb line (u "max") then table_5_loop rest (Some MaxValues) l
    else
      match current_list with
      | Some which =>
        if nonempty line then
          table_5_loop rest current_list
            (fold_left
               (fun l part => if is_number part then append_to which part l
                              else l)
               (split_ws line) l)
        else table_5_loop rest current_list l
      | None => table_5_loop rest current_list l
      end
  end.

Definition extract_table_5 (result : value) (table_data : dict) : res dict :=
  s <- result_strip result ;;
  let lines := split_on LF s in
  let table_data := dset table_data (u "data") (VDict []) in
  let l := table_5_loop lines None
             {| distances := []; min_values := []; max_values := [] |} in
  let table_data := dset table_data (u "distances_mm") (strs (distances l)) in
  let table_data := dset table_data (u "min_hrc") (strs (min_values l)) in
  Ok (dset table_data (u "max_hrc") (strs (max_values l))).

(** *** Strategy 7, [structured_table_6] (lines 453-482) *)

Definition table_6_parts (parts : list str) (current_row : list str)
    (data : list value) : list str * list value :=
  fold_left
    (fun (st : list str * list value) part =>
       let (current_row, data) := st in
       if is_number part then
         let current_row := current_row ++ [part] in
         if List.length current_row =? 2
         then ([], data ++
                   [VDict [(u "diameter_mm", VStr (nth 0 current_row []));
                           (u "compression_degree",
                            VStr (nth 1 current_row []))]])
         else (current_row, data)
       else st)
    parts (current_row, data).

Fixpoint table_6_loop (lines : list str) (current_row : list str)
    (data : list value) : list value :=
  match lines with
  | [] => data
  | line :: rest =>
    let line := strip line in
    if negb (nonempty line) || str_eqb line (u ";") then
      table_6_loop rest current_row data
    else if contains line (u "Диаметр") || contains line (u "Степень")
            || contains line (u "проката") || contains line (u "обжатия")
    then table_6_loop rest current_row data
    else
      let (current_row, data) :=
        table_6_parts (split_ws line) current_row data in
      table_6_loop rest current_row data
  end.

Definition extract_table_6 (result : value) (table_data : dict) : res dict :=
  s <- result_strip result ;;
  let lines := split_on LF s in
  Ok (dset table_data (u "data") (VList (table_6_loop lines [] []))).

(** *** Strategy 8, [text_block] (lines 485-494) *)
Definition extract_text_block (result : value) (table_data : dict) : dict :=
  dset table_data (u "raw_text") (VStr (text_of result)).

(** *** The older descriptor form (lines 497-522) *)
Definition extract_old (text : str) (table_info : table_info)
    (table_data : dict) : res dict :=
  let table_data :=
    match header_pattern table_info with
    | Some hp =>
      let header_result := extract_with_pattern text (inline_info hp None) in
      if truthy header_result then
        match header_result with
        | VList _ => dset table_data (u "columns") header_result
        | _ => dset table_data (u "columns") (VList [header_result])
        end
      else table_data
    | None => table_data
    end in
  let table_data :=
    match row_names table_info with
    | Some rn => dset table_data (u "rows") rn
    | None => table_data
    end in
  match value_patterns table_info with
  | Some vps =>
    fold_left
      (fun (acc : res dict) (kv : str * str) =>
         table_data <- acc ;;
         let result := extract_with_pattern text (inline_info (snd kv) None) in
         if truthy result
         then set_item_in table_data (u "data") (fst kv) result
         else Ok table_data)
      vps (Ok table_data)
  | None => Ok table_data
  end.

(** The identity fields and empty containers every table result starts
    from (lines 286-293). *)
Definition initial_table_data (table_info : table_info) : dict :=
  [ (u "table_name", getd (table_name table_info) (VStr (u "unknown")));
    (u "table_number", getd (table_number table_info) (VStr []));
    (u "description", getd (description table_info) (VStr []));
    (u "columns", VList []);
    (u "rows", VDict []);
    (u "data", VDict []) ].

(** The pattern descriptors a table descriptor can have [extract_table]
    evaluate. *)
Definition used_patterns (table_info : table_info) : list pattern_info :=
  map snd (getd (structure table_info) [])
  ++ match t_pattern table_info with
     | Some p => [inline_info p (Some (getd (t_flags table_info) []))]
     | None => []
     end
  ++ match header_pattern table_info with
     | Some hp => [inline_info hp None]
     | None => []
     end
  ++ map (fun kv : str * str => inline_info (snd kv) None)
         (getd (value_patterns table_info) []).

(** [extract_table] (lines 284-524): the chain of [if]/[elif] on the
    strategy name; a strategy whose key is missing falls through to the
    final [else]. *)
Definition extract_table (text : str) (table_info : table_info) : res dict :=
  let table_data := initial_table_data table_info in
  let extraction_method :=
    getd (t_extraction_method table_info) (u "structured") in
  let is_method (name : string) := str_eqb extraction_method (u name) in
  match (if is_method "structured"%string then structure table_info else None) with
  | Some structure => extract_structured text structure table_data
  | None =>
    match t_pattern table_info with
    | Some p =>
      let result :=
        extract_with_pattern text
          (inline_info p (Some (getd (t_flags table_info) []))) in
      let when_found (k : res dict) :=
        if truthy result then k else Ok table_data in
      if is_method "simple"%string then
        when_found (Ok (extract_simple result table_data))
      else if is_method "structured_table_2"%string then
        when_found (extract_table_2 result table_data)
      else if is_method "key_value_table"%string then
        when_found (extract_key_value result table_data)
      else if is_method "structured_table_4"%string then
        when_found (extract_table_4 result table_data)
      else if is_method "structured_table_5"%string then
        when_found (extract_table_5 result table_data)
      else if is_method "structured_table_6"%string then
        when_found (extract_table_6 result table_data)
      else if is_method "text_block"%string then
        when_found (Ok (extract_text_block result table_data))
      else extract_old text table_info table_data
    | None => extract_old text table_info table_data
    end
  end.

(** [extract_tables] (lines 526-537) *)
Fixpoint tables_loop (text : str) (infos : list table_info)
    (tables : list dict) : res (list dict) :=
  match infos with
  | [] => Ok tables
  | table_info :: rest =>
    table_data <- extract_table text table_info ;;
    tables_loop text rest (tables ++ [table_data])
  end.

Definition extract_tables (self : patterns) (text : str) : res (list dict) :=
  match tables self with
  | None => Ok []
  | Some infos => tables_loop text infos []
  end.

(** [extract_sections] (lines 539-580).  The subsection pass is not
    guarded: a pattern that does not compile, a body that is not a
    string, a missing group or a group that did not take part raise. *)
Definition group_strip (m : rmatch) (n : Z) : res str :=
  g <- group m n ;;
  match g with
  | Some s => Ok (strip s)
  | None => Raise AttributeError
  end.

Fixpoint subsections_loop (matches : list rmatch) (subsections : dict)
  : res dict :=
  match matches with
  | [] => Ok subsections
  | m :: rest =>
    subsection_number <- group_strip m 1 ;;
    subsection_content <- group_strip m 2 ;;
    subsections_loop rest
      (dset subsections subsection_number (VStr subsection_content))
  end.

Definition finditer_in (subsection_pattern : str) (result : value)
  : res (list rmatch) :=
  match re_compile subsection_pattern
          {| IGNORECASE := false; MULTILINE := true; DOTALL := true |} with
  | None => Raise ReError
  | Some r =>
    match result with
    | VStr s => Ok (finditer r s)
    | _ => Raise TypeError
    end
  end.

(** One iteration of the loop: [None] when the section is skipped
    ([continue]), otherwise the value stored under the section name. *)
Definition section_entry (text : str) (pattern_info : pattern_info)
  : res (option value) :=
  let extraction_method :=
    getd (extraction_method pattern_info) (u "simple") in
  let result := extract_with_pattern text pattern_info in
  if negb (truthy result) then Ok None
  else
    match (if str_eqb extraction_method (u "structured_subsections")
           then subsection_pattern pattern_info else None) with
    | Some subsection_pattern =>
      matches <- finditer_in subsection_pattern result ;;
      subsections <- subsections_loop matches [] ;;
      match subsections with
      | _ :: _ =>
        Ok (Some (VDict [(u "full_text", result);
                         (u "subsections", VDict subsections)]))
      | [] => Ok (Some result)
      end
    | None => Ok (Some result)
    end.

Fixpoint sections_loop (text : str) (items : list (str * pattern_info))
    (sections : dict) : res dict :=
  match items with
  | [] => Ok sections
  | (section_name, pattern_info) :: rest =>
    entry <- section_entry text pattern_info ;;
    sections_loop text rest
      (match entry with
       | Some v => dset sections section_name v
       | None => sections
       end)
  end.

Definition extract_sections (self : patterns) (text : str) : res dict :=
  match sections self with
  | None => Ok []
  | Some items => sections_loop text items []
  end.

(** [parse_document] (lines 582-593) *)
Definition parse_document (self : patterns) (text : str)
  : res ExtractionResult :=
  let metadata := extract_metadata self text in
  let technical_params := extract_technical_params self text in
  sections <- extract_sections self text ;;
  tables <- extract_tables self text ;;
  Ok {| r_metadata := metadata;
        r_technical_params := technical_params;
        r_sections := sections;
        r_tables := tables |}.
End WithRuntime.

End RegexParser.

(** ** [class MarkupParser] of research/markup_parser.py *)

Module MarkupParser.
Import Py.
Local Open Scope py_scope.

(** The value stored for a section (lines 241-244): the subsection keys
    are first groups of matches, which [re] reports as [None] when the
    group did not take part. *)
Record section_data := {
  full_text : str;
  subsections : list (option str * str)
}.

(** The dictionary a [section_data] stands for, with the key [None]
    written as JSON writes it. *)
Definition section_value (d : section_data) : value :=
  VDict [(u "full_text", VStr (full_text d));
         (u "subsections",
          VDict (map (fun kv : option str * str =>
                        (getd (fst kv) (u "null"), VStr (snd kv)))
                     (subsections d)))].

(** [self.result['extracted_data']] *)
Record extracted_data := {
  metadata : dict;
  technical_params : dict;
  sections : list (str * section_data);
  tables : list dict
}.

(** The parser object: the document and the result it accumulates.  The
    markup text is read by [parse] alone, which hands its lines to the
    methods below. *)
Record MarkupParser := {
  document_text : str;
  result : extracted_data
}.

Definition document_lines (self : MarkupParser) : list str :=
  split_on LF (document_text self).

Definition set_technical_param (self : MarkupParser) (key : str) (v : value)
  : MarkupParser :=
  {| document_text := document_text self;
     result :=
       {| metadata := metadata (result self);
          technical_params := dset (technical_params (result self)) key v;
          sections := sections (result self);
          tables := tables (result self) |} |}.

Definition opt_str_eqb (a b : option str) : bool :=
  match a, b with
  | Some x, Some y => str_eqb x y
  | None, None => true
  | _, _ => false
  end.

Definition set_section (self : MarkupParser) (name : str) (d : section_data)
  : MarkupParser :=
  {| document_text := document_text self;
     result :=
       {| metadata := metadata (result self);
          technical_params := technical_params (result self);
          sections := dict_set str_eqb (sections (result self)) name d;
          tables := tables (result self) |} |}.

(** [s.index(c)] *)
Fixpoint find_char (c : char) (s : str) : option nat :=
  match s with
  | [] => None
  | x :: s' => if (x =? c)%N then Some 0
               else match find_char c s' with
                    | Some n => Some (S n)
                    | None => None
                    end
  end.

Definition str_index (s : str) (c : char) : res nat :=
  match find_char c s with
  | Some n => Ok n
  | None => Raise ValueError
  end.

Definition COLON : char := 58%N.
Definition LBRACE : char := 123%N.
Definition RBRACE : char := 125%N.

(** The two parts of [s.split(':', 1)] when [s] contains a colon. *)
Definition before_colon (s : str) : str :=
  match find_char COLON s with Some n => firstn n s | None => s end.
Definition after_colon (s : str) : str :=
  match find_char COLON s with Some n => skipn (S n) s | None => [] end.

Definition has_char (c : char) (s : str) : bool :=
  match find_char c s with Some _ => true | None => false end.

(** [if value:] on an optional string *)
Definition truthy_opt (v : option str) : bool :=
  match v with Some (_ :: _) => true | _ => false end.

Definition all_flags : re_flags :=
  {| IGNORECASE := true; MULTILINE := true; DOTALL := true |}.

Fixpoint mapM {A B} (f : A -> res B) (l : list A) : res (list B) :=
  match l with
  | [] => Ok []
  | a :: l' => b <- f a ;; bs <- mapM f l' ;; Ok (b :: bs)
  end.

Section WithRuntime.
Context {R : Runtime}.

(** [' '.join(text.split())] *)
Definition normalize (text : str) : str := join [32%N] (split_ws text).

(** [_find_in_document] (lines 272-290) *)
Fixpoint find_in_lines (text_normalized : str) (lines : list str)
  : option str :=
  match lines with
  | [] => None
  | line :: rest =>
    let line_normalized := normalize line in
    if str_eqb text_normalized line_normalized then Some line_normalized
    else if startswith line_normalized text_normalized
         then Some text_normalized
         else find_in_lines text_normalized rest
  end.

Definition _find_in_document (self : MarkupParser) (text : str)
  : option str :=
  let text_normalized := normalize text in
  if contains (document_text self) text_normalized then Some text_normalized
  else find_in_lines text_normalized (document_lines self).

(** The selection of lines 315-322 (and again 329-334). *)
Definition select_group (group_num : Z) (m : rmatch) : res (option str) :=
  let groups := m_groups m in
  if (match groups with [] => false | _ => true end)
     && (0 <? group_num)%Z
     && (group_num <=? Z.of_nat (List.length groups))%Z
  then group m group_num
  else match groups with
       | _ :: _ => group m 1
       | [] => group m 0
       end.

(** The line-by-line passes: the first match of every line that has
    one. *)
Fixpoint lines_select (r : regex) (group_num : Z) (lines : list str)
  : res (list (option str)) :=
  match lines with
  | [] => Ok []
  | line :: rest =>
    match search r line with
    | Some m =>
      v <- select_group group_num m ;;
      vs <- lines_select r group_num rest ;;
      Ok (v :: vs)
    | None => lines_select r group_num rest
    end
  end.

Fixpoint lines_whole (r : regex) (lines : list str) : list (option str) :=
  match lines with
  | [] => []
  | line :: rest =>
    match search r line with
    | Some m => Some (m_whole m) :: lines_whole r rest
    | None => lines_whole r rest
    end
  end.

(** ... and the one that stops at the first line with a match. *)
Fixpoint lines_first (r : regex) (lines : list str) : list (option str) :=
  match lines with
  | [] => []
  | line :: rest =>
    match search r line with
    | Some m => [Some (m_whole m)]
    | None => lines_first r rest
    end
  end.

(** [_find_by_regex] (lines 292-365).  [re.error] is caught; what
    [int()] or [match.group()] raise is not. *)
Definition _find_by_regex (self : MarkupParser) (pattern label_part : str)
    (find_all : bool) : res (list (option str)) :=
  match re_compile pattern all_flags with
  | None => Ok []
  | Some regex =>
    if has_char COLON label_part then
      let group_num_str := strip (after_colon label_part) in
      group_num <- (if str_isdigit group_num_str
                    then py_int group_num_str else Ok 0%Z) ;;
      results <-
        mapM (select_group group_num) (finditer regex (document_text self)) ;;
      match results with
      | [] => lines_select regex group_num (document_lines self)
      | _ => Ok results
      end
    else if find_all then
      let results :=
        map (fun m => Some (m_whole m))
            (finditer regex (document_text self)) in
      match results with
      | [] => Ok (lines_whole regex (document_lines self))
      | _ => Ok results
      end
    else
      match search regex (document_text self) with
      | Some m => Ok [Some (m_whole m)]
      | None => Ok (lines_first regex (document_lines self))
      end
  end.

(** The key a label designates: the part before the colon, if any. *)
Definition param_key (label_part : str) : str :=
  if has_char COLON label_part then strip (before_colon label_part)
  else label_part.

(** The loop [for value in values[:1]] of [_parse_params] (lines
    154-163); both of its branches store [value] under the key. *)
Definition store_param (self : MarkupParser) (label_part : str)
    (values : list (option str)) : MarkupParser :=
  match firstn 1 values with
  | [Some ((_ :: _) as value)] =>
    set_technical_param self (param_key label_part) (VStr value)
  | _ => self
  end.

(** One iteration of the loop of [_parse_params] (lines 134-163). *)
Definition parse_params_line (self : MarkupParser) (line : str)
  : res MarkupParser :=
  if negb (has_char LBRACE line) || negb (has_char RBRACE line) then Ok self
  else
    let is_regex := startswith (strip line) (u "@REGEX") in
    let line := if is_regex then strip (skipn 6 (strip line)) else line in
    lb <- str_index line LBRACE ;;
    let text_part := strip (firstn lb line) in
    rb <- str_index line RBRACE ;;
    let label_part := strip (slice line (lb + 1) rb) in
    values <- (if is_regex
               then _find_by_regex self text_part label_part false
               else Ok [_find_in_document self text_part]) ;;
    Ok (store_param self label_part values).

Fixpoint _parse_params (self : MarkupParser) (content : list str)
  : res MarkupParser :=
  match content with
  | [] => Ok self
  | line :: rest =>
    self <- parse_params_line self line ;;
    _parse_params self rest
  end.

(** [_extract_text_between] (lines 421-442) *)
Fixpoint text_between_loop (start_marker end_marker : str)
    (lines : list str) (capturing : bool) (text_parts : list str)
  : list str :=
  match lines with
  | [] => text_parts
  | line :: rest =>
    let line_stripped := strip line in
    if contains line_stripped start_marker then
      text_between_loop start_marker end_marker rest true text_parts
    else if contains line_stripped end_marker && capturing then text_parts
    else if capturing then
      text_between_loop start_marker end_marker rest capturing
                        (text_parts ++ [line])
    else text_between_loop start_marker end_marker rest capturing text_parts
  end.

Definition _extract_text_between (self : MarkupParser)
    (start_marker end_marker : str) : str :=
  join [LF]
       (text_between_loop start_marker end_marker (document_lines self)
                          false []).

(** [_extract_subsections] (lines 444-472): [todo] are the matches
    still to visit, [i] the index of the first of them in [matches]. *)
Definition end_pos_at (section_text : str) (matches : list rmatch) (i : nat)
  : nat :=
  match nth_error matches (i + 1) with
  | Some next => m_start next
  | None => List.length section_text
  end.

(** What [re] promises about the matches of [finditer] on [text]: spans
    in document order that do not overlap and lie inside the text, and
    [group(0)] is the text of the span. *)
Fixpoint spans_from (text : str) (pos : nat) (ms : list rmatch) : bool :=
  match ms with
  | [] => true
  | m :: rest =>
    (pos <=? m_start m) && (m_start m <=? m_end m)
    && (m_end m <=? List.length text)
    && str_eqb (m_whole m) (slice text (m_start m) (m_end m))
    && spans_from text (m_end m) rest
  end.

Definition ordered_spans (text : str) (ms : list rmatch) : bool :=
  spans_from text 0 ms.

(** The region of match [i]: its label followed by the text up to the
    next label, before any stripping. *)
Definition region (section_text : str) (matches : list rmatch) (i : nat)
  : str :=
  match nth_error matches i with
  | Some m =>
    m_whole m
    ++ slice section_text (m_end m) (end_pos_at section_text matches i)
  | None => []
  end.

Fixpoint subsections_loop (section_text : str) (matches : list rmatch)
    (i : nat) (todo : list rmatch) (subsections : list (option str * str))
  : res (list (option str * str)) :=
  match todo with
  | [] => Ok subsections
  | m :: rest =>
    subsection_num <- group m 1 ;;
    let start_pos := m_end m in
    let end_pos := end_pos_at section_text matches i in
    let subsection_text := strip (slice section_text start_pos end_pos) in
    subsections_loop section_text matches (S i) rest
      (dict_set opt_str_eqb subsections subsection_num subsection_text)
  end.

Definition _extract_subsections (section_text pattern : str)
  : res (list (option str * str)) :=
  match re_compile pattern
          {| IGNORECASE := false; MULTILINE := true; DOTALL := false |} with
  | None => Ok []
  | Some regex =>
    let matches := finditer regex section_text in
    subsections_loop section_text matches 0 matches []
  end.

(** [_parse_section] (lines 239-270) *)
Definition section_markers (content : list str)
  : option str * option str * option str :=
  fold_left
    (fun (st : option str * option str * option str) line =>
       let '(start_marker, end_marker, subsection_pattern) := st in
       if startswith line (u "@START:")
       then (Some (strip (skipn 7 line)), end_marker, subsection_pattern)
       else if startswith line (u "@END:")
       then (start_marker, Some (strip (skipn 5 line)), subsection_pattern)
       else if startswith line (u "@SUBSECTIONS:")
       then (start_marker, end_marker, Some (strip (skipn 13 line)))
       else st)
    content (None, None, None).

Definition _parse_section (self : MarkupParser) (content : list str)
    (section_name : str) : res MarkupParser :=
  let '(start_marker, end_marker, subsection_pattern) :=
    section_markers content in
  match start_marker, end_marker with
  | Some ((_ :: _) as start_marker), Some ((_ :: _) as end_marker) =>
    let section_text := _extract_text_between self start_marker end_marker in
    match section_text with
    | [] => Ok self
    | _ =>
      subs <- (if truthy_opt subsection_pattern
               then _extract_subsections section_text
                      (getd subsection_pattern [])
               else Ok []) ;;
      Ok (set_section self section_name
            {| full_text := section_text; subsections := subs |})
    end
  | _, _ => Ok self
  end.
End WithRuntime.

End MarkupParser.

(** ** A runtime for concrete documents

    [PyFrag] fixes the interpreter's part on a fragment where it is easy
    to state: the whitespace table of [str.isspace], the digit characters
    below U+0660, and the regular expressions made of literal characters,
    [.], escaped punctuation, capture groups that are not nested and a
    leading [\A].  Such a pattern matches strings of one length only, so
    matching needs no backtracking.  A pattern outside the fragment is not
    interpreted: [compile] answers [None] for it. *)

Module PyFrag.
Import Py.

Definition py_isspace (c : char) : bool :=
  ((9 <=? c) && (c <=? 13) || (28 <=? c) && (c <=? 32)
   || (c =? 133) || (c =? 160) || (c =? 5760)
   || (8192 <=? c) && (c <=? 8202)
   || (c =? 8232) || (c =? 8233) || (c =? 8239) || (c =? 8287)
   || (c =? 12288))%N.

Definition py_isdigit (c : char) : bool :=
  ((48 <=? c) && (c <=? 57) || (c =? 178) || (c =? 179) || (c =? 185))%N.

Definition ascii_digit (c : char) : bool := ((48 <=? c) && (c <=? 57))%N.

(** [int(s)] for the strings on which [s.isdigit()] holds: the decimal
    value when all characters are ASCII digits, [ValueError] with a
    superscript digit. *)
Definition digits_int (s : str) : res Z :=
  match s with
  | [] => Raise ValueError
  | _ =>
    if forallb ascii_digit s
    then Ok (fold_left (fun acc c => acc * 10 + Z.of_N (c - 48))%Z s 0%Z)
    else Raise ValueError
  end.

(** [str()] of a value, for strings free of quotes, backslashes and
    control characters. *)
Fixpoint py_repr (v : value) : str :=
  match v with
  | VNone => u "None"
  | VBool true => u "True"
  | VBool false => u "False"
  | VInt z => u (NilZero.string_of_int (Z.to_int z))
  | VStr s => u "'" ++ s ++ u "'"
  | VList l => u "[" ++ join (u ", ") (map py_repr l) ++ u "]"
  | VTuple [x] => u "(" ++ py_repr x ++ u ",)"
  | VTuple l => u "(" ++ join (u ", ") (map py_repr l) ++ u ")"
  | VDict d =>
    u "{" ++ join (u ", ")
                  (map (fun kv : str * value =>
                          let (k, x) := kv in
                          u "'" ++ k ++ u "': " ++ py_repr x) d) ++ u "}"
  end.

Inductive atom :=
| Lit (c : char)
| Dot.

(** A compiled pattern: the characters to match and, for every group,
    its offset and length inside the match. *)
Record program := {
  anchored : bool;
  dotall : bool;
  atoms : list atom;
  groups : list (nat * nat)
}.

Definition is_alnum (c : char) : bool :=
  ((48 <=? c) && (c <=? 57) || (65 <=? c) && (c <=? 90)
   || (97 <=? c) && (c <=? 122))%N.

(** [^ $ * + ? { } [ ] |] are outside the fragment. *)
Definition is_meta (c : char) : bool :=
  existsb (N.eqb c) [94; 36; 42; 43; 63; 123; 125; 91; 93; 124]%N.

Fixpoint parse_atoms (p : str) (n : nat) (opened : option nat)
    (atoms_rev : list atom) (groups_rev : list (nat * nat))
  : option (list atom * list (nat * nat)) :=
  match p with
  | [] =>
    match opened with
    | None => Some (rev atoms_rev, rev groups_rev)
    | Some _ => None
    end
  | c :: p' =>
    if (c =? 40)%N then
      match opened with
      | None => parse_atoms p' n (Some n) atoms_rev groups_rev
      | Some _ => None
      end
    else if (c =? 41)%N then
      match opened with
      | Some st => parse_atoms p' n None atoms_rev ((st, n - st) :: groups_rev)
      | None => None
      end
    else if (c =? 46)%N then
      parse_atoms p' (S n) opened (Dot :: atoms_rev) groups_rev
    else if (c =? 92)%N then
      match p' with
      | e :: p'' =>
        if (e <? 128)%N && negb (is_alnum e)
        then parse_atoms p'' (S n) opened (Lit e :: atoms_rev) groups_rev
        else None
      | [] => None
      end
    else if is_meta c then None
    else parse_atoms p' (S n) opened (Lit c :: atoms_rev) groups_rev
  end.

(** Characters that [IGNORECASE] could relate to another one. *)
Definition maybe_cased (a : atom) : bool :=
  match a with
  | Lit c => ((65 <=? c) && (c <=? 90) || (97 <=? c) && (c <=? 122)
              || (128 <=? c))%N
  | Dot => false
  end.

Definition compile (p : str) (f : re_flags) : option program :=
  let (anch, body) :=
    match p with
    | 92%N :: 65%N :: body => (true, body)
    | _ => (false, p)
    end in
  match parse_atoms body 0 None [] [] with
  | Some (ats, gs) =>
    if IGNORECASE f && existsb maybe_cased ats then None
    else Some {| anchored := anch; dotall := DOTALL f;
                 atoms := ats; groups := gs |}
  | None => None
  end.

Fixpoint match_atoms (dot_all : bool) (ats : list atom) (s : str) : bool :=
  match ats, s with
  | [], _ => true
  | Lit c :: ats', x :: s' => (x =? c)%N && match_atoms dot_all ats' s'
  | Dot :: ats', x :: s' =>
    (dot_all || negb (x =? LF)%N) && match_atoms dot_all ats' s'
  | _ :: _, [] => false
  end.

Definition match_at (prog : program) (pos : nat) (s : str) : option rmatch :=
  if match_atoms (dotall prog) (atoms prog) s then
    let n := List.length (atoms prog) in
    let whole := firstn n s in
    Some {| m_start := pos; m_end := pos + n; m_whole := whole;
            m_groups :=
              map (fun g : nat * nat =>
                     Some (firstn (snd g) (skipn (fst g) whole)))
                  (groups prog);
            m_named := [] |}
  else None.

(** Leftmost matches from [pos] on; [s] is the text from [pos]. After an
    empty match the scan moves one character on. *)
Fixpoint scan (prog : program) (fuel pos : nat) (s : str) : list rmatch :=
  match fuel with
  | O => []
  | S fuel' =>
    match match_at prog pos s with
    | Some m =>
      let n := List.length (atoms prog) in
      m :: match n, s with
           | O, [] => []
           | O, _ :: s' => scan prog fuel' (S pos) s'
           | _, _ => scan prog fuel' (pos + n) (skipn n s)
           end
    | None =>
      match s with
      | [] => []
      | _ :: s' => scan prog fuel' (S pos) s'
      end
    end
  end.

Definition frag_finditer (prog : program) (s : str) : list rmatch :=
  if anchored prog
  then match match_at prog 0 s with Some m => [m] | None => [] end
  else scan prog (S (List.length s)) 0 s.

Definition runtime : Runtime :=
  {| isspace := py_isspace;
     isdigit := py_isdigit;
     regex := program;
     re_compile := compile;
     finditer := frag_finditer;
     py_str := py_repr;
     py_int := digits_int |}.

End PyFrag.

(** ** Concrete specifications and documents *)

Module Examples.
Import Py.

Definition NL : str := [LF].

(** A fixed-row table whose block has six lines. *)
Definition six_lines : str :=
  join NL [u "1"; u "2"; u "3"; u "4"; u "5"; u "6"].

Definition fixed_row_table : RegexParser.table_info :=
  {| RegexParser.table_name := Some (VStr (u "temperature"));
     RegexParser.table_number := Some (VStr (u "2"));
     RegexParser.description := None;
     RegexParser.t_extraction_method := Some (u "structured_table_2");
     RegexParser.structure := None;
     RegexParser.t_pattern := Some (u "1.2.3.4.5.6");
     RegexParser.t_flags := Some [u "DOTALL"];
     RegexParser.header_pattern := None;
     RegexParser.row_names := None;
     RegexParser.value_patterns := None |}.


Definition grade_text : str := u "марки 6856 и марки 6857".





Definition empty_result : MarkupParser.extracted_data :=
  {| MarkupParser.metadata := [];
     MarkupParser.technical_params := [];
     MarkupParser.sections := [];
     MarkupParser.tables := [] |}.

Definition parser_for (document : str) : MarkupParser.MarkupParser :=
  {| MarkupParser.document_text := document;
     MarkupParser.result := empty_result |}.

(** A section with two labelled subsections. *)
Definition section_text : str := u "#a x" ++ NL ++ u "#b y".
Definition label_pattern : str := u "#(.)".

(** The pattern [12] compiled with the flags of [_find_by_regex]. *)
Definition twelve : PyFrag.program :=
  {| PyFrag.anchored := false; PyFrag.dotall := true;
     PyFrag.atoms := [PyFrag.Lit 49%N; PyFrag.Lit 50%N]; PyFrag.groups := [] |}.

(** A document whose second line matches a pattern anchored with [\A]. *)
Definition anchored_document : str := u "x" ++ NL ++ u "12".
Definition anchored_pattern : str := u "\A12".

(** A section descriptor and a body without the subsection labels. *)
Definition intro_info : RegexParser.pattern_info :=
  {| RegexParser.pattern := Some (u "A(....)");
     RegexParser.flags := None;
     RegexParser.extraction_method := Some (u "structured_subsections");
     RegexParser.subsection_pattern := Some (u "#(.)(.)") |}.

Definition intro_spec : RegexParser.patterns :=
  {| RegexParser.metadata := None;
     RegexParser.technical_params := None;
     RegexParser.sections := Some [(u "intro", intro_info)];
     RegexParser.tables := None |}.

Definition intro_text : str := u "Abody и B".

(** A markup section whose subsection pattern finds nothing. *)
Definition plain_section_markup : list str :=
  [u "@START: A"; u "@END: B"; u "@SUBSECTIONS: #(.)"].
Definition plain_section_document : str :=
  join NL [u "A"; u "body"; u "B"].

(** The lines of the key/value example and a block that yields them. *)
Definition kv_lines : list str := [u "Вес"; u "120"; u "Длина"; u "N/A"].
Definition kv_block : str := join NL kv_lines.

Definition kv_table : RegexParser.table_info :=
  {| RegexParser.table_name := Some (VStr (u "sizes"));
     RegexParser.table_number := Some (VStr (u "3"));
     RegexParser.description := None;
     RegexParser.t_extraction_method := Some (u "key_value_table");
     RegexParser.structure := None;
     RegexParser.t_pattern := Some (u "T:(.................)");
     RegexParser.t_flags := Some [u "DOTALL"];
     RegexParser.header_pattern := None;
     RegexParser.row_names := None;
     RegexParser.value_patterns := None |}.

Definition row_text : str := u "0,42 0,25 Рекоменд".

(** A structured table whose [recommended] row captures [row_text]. *)
Definition composition_table : RegexParser.table_info :=
  {| RegexParser.table_name := Some (VStr (u "composition"));
     RegexParser.table_number := Some (VStr (u "1"));
     RegexParser.description := None;
     RegexParser.t_extraction_method := Some (u "structured");
     RegexParser.structure :=
       Some [(u "recommended",
              RegexParser.inline_info (u "R:(..................)") None)];
     RegexParser.t_pattern := None;
     RegexParser.t_flags := None;
     RegexParser.header_pattern := None;
     RegexParser.row_names := None;
     RegexParser.value_patterns := None |}.

End Examples.

(** ** The table strategies in the words of the specification

    Second definitions of what three strategies compute, stated on the
    list of lines of the captured block; the properties relate the loops
    of [extract_table] to them. *)

Module TableRules.
Import Py.

Section WithRuntime.
Context {R : Runtime}.

(** Tokens taken two at a time; a last token without partner is left
    out. *)
Fixpoint pairs (tokens : list str) : list (str * str) :=
  match tokens with
  | a :: b :: rest => (a, b) :: pairs rest
  | _ => []
  end.

(** Numeric-pair table: the lines that are neither empty, nor [;], nor
    contain a header word, give their numeric tokens. *)
Definition is_skipped_6 (line : str) : bool :=
  negb (RegexParser.nonempty line) || str_eqb line (u ";")
  || contains line (u "Диаметр") || contains line (u "Степень")
  || contains line (u "проката") || contains line (u "обжатия").

Definition numeric_tokens_6 (lines : list str) : list str :=
  flat_map
    (fun line =>
       if is_skipped_6 (strip line) then []
       else filter RegexParser.is_number (split_ws (strip line)))
    lines.

Definition record_6 (p : str * str) : value :=
  VDict [(u "diameter_mm", VStr (fst p));
         (u "compression_degree", VStr (snd p))].

(** Header/data split table: a line is a data line when it consists of
    digits once [+ , . -] and spaces are taken out. *)
Definition cleaned (line : str) : str :=
  remove_char (RegexParser.ch " ")
    (remove_char (RegexParser.ch "-")
       (remove_char (RegexParser.ch ".")
          (remove_char (RegexParser.ch ",")
             (remove_char (RegexParser.ch "+") line)))).

Definition is_numeric_line (line : str) : bool := str_isdigit (cleaned line).

Definition stripped_lines (lines : list str) : list str :=
  filter RegexParser.nonempty (map strip lines).

Fixpoint headers_of (lines : list str) : list str :=
  match lines with
  | [] => []
  | line :: rest =>
    if is_numeric_line line then [] else line :: headers_of rest
  end.

Fixpoint data_of (lines : list str) : list str :=
  match lines with
  | [] => []
  | line :: rest => if is_numeric_line line then lines else data_of rest
  end.

Definition rows_of (lines : list str) : list value :=
  map RegexParser.strs
      (filter (fun parts => 3 <=? List.length parts) (map split_ws lines)).

(** Three-list table: the lines that switch the active list. *)
Definition is_marker_5 (line : str) : bool :=
  str_eqb line (u "MM") || str_eqb line (u "min") || str_eqb line (u "max").
End WithRuntime.

End TableRules.
(** ** The fixed patterns of the code

    Four regular expressions are constants of the source.  What [re]
    answers for them is a function of the string alone; the class
    [FixedPatterns] names these functions. *)

Module PyFixed.
Import Py.

Class FixedPatterns := {
  (** [re.match(r'@ROW\s+(\w+):\s*(.+)', line)]: groups 1 and 2 of the
      match, [None] without match (markup_parser.py, line 214) *)
  match_row : str -> option (str * str);
  (** [re.search(r'\d|н\.б', s)] finds something (line 409) *)
  search_value : str -> bool;
  (** [re.match(r'[\d,\.]+$|н\.б\.?$', token)] matches (line 413) *)
  match_value_token : str -> bool;
  (** the matches, in document order, of the pattern of
      regex_parser.stable.py, line 204 (the quoted key pattern, a colon,
      optional whitespace and a quoted value free of quotes): start, end
      and group 1, the value, of each *)
  pattern_entries : str -> list (nat * nat * str)
}.

End PyFixed.

(** ** The rest of [class MarkupParser]: [_split_into_sections],
    [_parse_meta], [_find_table_row_values], [_parse_table], [parse] *)

Module MarkupCompiler.
Import Py PyFixed.
Local Open Scope py_scope.

(** The state of the loop of [_split_into_sections] (lines 52-54). *)
Record split_state := {
  sections : list (str * list str);
  current_section : option str;
  current_content : list str
}.

(** [if current_section: sections.append((current_section,
    current_content))] *)
Definition flush (st : split_state) : list (str * list str) :=
  match current_section st with
  | Some ((_ :: _) as name) => sections st ++ [(name, current_content st)]
  | _ => sections st
  end.

(** [s.endswith(p)] *)
Definition endswith (s p : str) : bool := startswith (rev s) (rev p).

(** [s.replace('.', ',')] *)
Definition dots_to_commas (s : str) : str :=
  map (fun c => if (c =? 46)%N then 44%N else c) s.

(** The mode of the loop of [_parse_table]: [None], ['columns'] or
    [('row', row_name, row_marker)]. *)
Inductive mode :=
| NoMode
| Columns
| Row (row_name row_marker : str).

Definition set_metadata (self : MarkupParser.MarkupParser) (key : str)
    (v : value) : MarkupParser.MarkupParser :=
  {| MarkupParser.document_text := MarkupParser.document_text self;
     MarkupParser.result :=
       {| MarkupParser.metadata :=
            dset (MarkupParser.metadata (MarkupParser.result self)) key v;
          MarkupParser.technical_params :=
            MarkupParser.technical_params (MarkupParser.result self);
          MarkupParser.sections :=
            MarkupParser.sections (MarkupParser.result self);
          MarkupParser.tables :=
            MarkupParser.tables (MarkupParser.result self) |} |}.

(** [self.result['extracted_data']['tables'].append(table_data)] *)
Definition append_table (self : MarkupParser.MarkupParser)
    (table_data : dict) : MarkupParser.MarkupParser :=
  {| MarkupParser.document_text := MarkupParser.document_text self;
     MarkupParser.result :=
       {| MarkupParser.metadata :=
            MarkupParser.metadata (MarkupParser.result self);
          MarkupParser.technical_params :=
            MarkupParser.technical_params (MarkupParser.result self);
          MarkupParser.sections :=
            MarkupParser.sections (MarkupParser.result self);
          MarkupParser.tables :=
            MarkupParser.tables (MarkupParser.result self)
            ++ [table_data] |} |}.

(** The table under construction (lines 167-174): the parts of
    [table_data] that [_parse_table] writes. *)
Record table_state := {
  table_number : str;
  columns : list str;
  rows : dict;
  table_mode : mode
}.

Section WithRuntime.
Context {R : Runtime} {F : FixedPatterns}.

(** One iteration of the loop of [_split_into_sections] (lines 56-83). *)
Definition split_step (st : split_state) (line : str) : split_state :=
  let line_stripped := strip line in
  if negb (RegexParser.nonempty line_stripped)
     || startswith line_stripped (u "#") then st
  else if startswith line_stripped (u "[")
          && negb (startswith line_stripped (u "[END]")) then
    {| sections := flush st;
       current_section := Some (removelast (tl line_stripped));
       current_content := [] |}
  else if str_eqb line_stripped (u "[END]") then
    {| sections := flush st;
       current_section := None;
       current_content := [] |}
  else
    match current_section st with
    | Some (_ :: _) =>
      {| sections := sections st;
         current_section := current_section st;
         current_content := current_content st ++ [line_stripped] |}
    | _ => st
    end.

Definition _split_into_sections (markup_text : str)
  : list (str * list str) :=
  sections
    (fold_left split_step (split_on LF markup_text)
       {| sections := []; current_section := None; current_content := [] |}).

(** The body of the loop [for value in values] of [_parse_meta] (lines
    111-130). *)
Definition store_meta (self : MarkupParser.MarkupParser) (label_part : str)
    (value : option str) : MarkupParser.MarkupParser :=
  match value with
  | Some ((_ :: _) as value) =>
    if MarkupParser.has_char MarkupParser.COLON label_part then
      set_metadata self (strip (MarkupParser.before_colon label_part))
                   (VStr value)
    else
      let key := label_part in
      match dget (MarkupParser.metadata (MarkupParser.result self)) key with
      | Some (VList existing) =>
        set_metadata self key (VList (existing ++ [VStr value]))
      | Some existing => set_metadata self key (VList [existing; VStr value])
      | None => set_metadata self key (VStr value)
      end
  | _ => self
  end.

(** One iteration of the loop of [_parse_meta] (lines 89-130). *)
Definition parse_meta_line (self : MarkupParser.MarkupParser) (line : str)
  : res MarkupParser.MarkupParser :=
  if negb (MarkupParser.has_char MarkupParser.LBRACE line)
     || negb (MarkupParser.has_char MarkupParser.RBRACE line) then Ok self
  else
    let is_regex := startswith (strip line) (u "@REGEX") in
    let line := if is_regex then strip (skipn 6 (strip line)) else line in
    lb <- MarkupParser.str_index line MarkupParser.LBRACE ;;
    let text_part := strip (firstn lb line) in
    rb <- MarkupParser.str_index line MarkupParser.RBRACE ;;
    let label_part := strip (slice line (lb + 1) rb) in
    values <- (if is_regex
               then MarkupParser._find_by_regex self text_part label_part
                      (str_eqb (strip label_part) (u "addressee"))
               else Ok [MarkupParser._find_in_document self text_part]) ;;
    Ok (fold_left (fun self value => store_meta self label_part value)
                  values self).

Fixpoint _parse_meta (self : MarkupParser.MarkupParser) (content : list str)
  : res MarkupParser.MarkupParser :=
  match content with
  | [] => Ok self
  | line :: rest =>
    self <- parse_meta_line self line ;;
    _parse_meta self rest
  end.

(** [_find_table_row_values] (lines 381-419) *)
Definition marker_found (marker line_stripped : str) : bool :=
  str_eqb line_stripped marker
  || startswith line_stripped (marker ++ u " ")
  || startswith line_stripped (marker ++ u ":")
  || endswith marker (u ":") && contains line_stripped marker.

Definition row_token (token : str) : str :=
  if negb (str_eqb token (u "н.б.")) && negb (str_eqb token (u "н.б"))
  then dots_to_commas token else token.

Definition row_tokens (line_stripped : str) (values : list str) : list str :=
  fold_left
    (fun values token =>
       if match_value_token token then values ++ [row_token token]
       else values)
    (split_ws line_stripped) values.

Fixpoint row_values_loop (marker : str) (lines : list str) (in_row : bool)
    (values : list str) : list str :=
  match lines with
  | [] => values
  | line :: rest =>
    let line_stripped := strip line in
    if marker_found marker line_stripped then
      row_values_loop marker rest true values
    else if in_row then
      if search_value line_stripped
      then row_values_loop marker rest in_row
             (row_tokens line_stripped values)
      else values
    else row_values_loop marker rest in_row values
  end.

Definition _find_table_row_values (self : MarkupParser.MarkupParser)
    (marker : str) : list str :=
  row_values_loop marker (MarkupParser.document_lines self) false [].

(** The table number a [@START:] marker designates (lines 183-201): the
    marker itself when it is a number or does not compile, otherwise the
    first match in a line with the word Таблица, if any. *)
Fixpoint first_table_match (r : regex) (lines : list str) : option str :=
  match lines with
  | [] => None
  | line_text :: rest =>
    if contains line_text (u "Таблица") then
      match search r line_text with
      | Some m => Some (m_whole m)
      | None => first_table_match r rest
      end
    else first_table_match r rest
  end.

Definition start_number (self : MarkupParser.MarkupParser) (marker : str)
    (table_number : str) : str :=
  if str_isdigit marker then marker
  else
    match re_compile marker
            {| IGNORECASE := false; MULTILINE := false; DOTALL := false |} with
    | None => marker
    | Some r =>
      match first_table_match r (MarkupParser.document_lines self) with
      | Some number => number
      | None => table_number
      end
    end.

(** One iteration of the loop of [_parse_table] (lines 179-235). *)
Definition table_step (self : MarkupParser.MarkupParser) (t : table_state)
    (line : str) : table_state :=
  let line := strip line in
  if startswith line (u "@START:") then
    {| table_number :=
         start_number self (strip (skipn 7 line)) (table_number t);
       columns := columns t; rows := rows t; table_mode := table_mode t |}
  else if startswith line (u "@END:") then t
  else if str_eqb line (u "@COLUMNS:") then
    {| table_number := table_number t; columns := columns t;
       rows := rows t; table_mode := Columns |}
  else if startswith line (u "@ROW") then
    match match_row line with
    | Some (row_name, row_marker) =>
      {| table_number := table_number t; columns := columns t;
         rows := rows t; table_mode := Row row_name row_marker |}
    | None => t
    end
  else
    match table_mode t with
    | Columns =>
      {| table_number := table_number t; columns := columns t ++ [line];
         rows := rows t; table_mode := table_mode t |}
    | Row row_name row_marker =>
      if contains line (u "{{") && contains line (u "values") then
        let values := _find_table_row_values self row_marker in
        {| table_number := table_number t; columns := columns t;
           rows := match values with
                   | [] => rows t
                   | _ => dset (rows t) row_name (RegexParser.strs values)
                   end;
           table_mode := NoMode |}
      else t
    | NoMode => t
    end.

Definition table_dict (table_name : str) (t : table_state) : dict :=
  [ (u "table_name", VStr table_name);
    (u "table_number", VStr (table_number t));
    (u "description", VStr []);
    (u "columns", RegexParser.strs (columns t));
    (u "rows", VDict (rows t));
    (u "data", VDict []) ].

Definition _parse_table (self : MarkupParser.MarkupParser)
    (content : list str) (table_name : str) : MarkupParser.MarkupParser :=
  append_table self
    (table_dict table_name
       (fold_left (table_step self) content
          {| table_number := []; columns := []; rows := [];
             table_mode := NoMode |})).

(** [section_type.split()[1] if len(section_type.split()) > 1 else
    'unknown'] *)
Definition second_word (section_type : str) : str :=
  match split_ws section_type with
  | _ :: name :: _ => name
  | _ => u "unknown"
  end.

(** The dispatch of [parse] on one section (lines 36-46). *)
Definition parse_section (self : MarkupParser.MarkupParser)
    (section : str * list str) : res MarkupParser.MarkupParser :=
  let (section_type, section_content) := section in
  if str_eqb section_type (u "META") then _parse_meta self section_content
  else if str_eqb section_type (u "PARAMS") then
    MarkupParser._parse_params self section_content
  else if startswith section_type (u "TABLE") then
    Ok (_parse_table self section_content (second_word section_type))
  else if startswith section_type (u "SECTION") then
    MarkupParser._parse_section self section_content
      (second_word section_type)
  else Ok self.

Fixpoint parse_sections (self : MarkupParser.MarkupParser)
    (sections : list (str * list str)) : res MarkupParser.MarkupParser :=
  match sections with
  | [] => Ok self
  | section :: rest =>
    self <- parse_section self section ;;
    parse_sections self rest
  end.

(** [parse] (lines 31-48): the parser object after the call; its
    [result] is what the call returns. *)
Definition parse (markup_text : str) (self : MarkupParser.MarkupParser)
  : res MarkupParser.MarkupParser :=
  parse_sections self (_split_into_sections markup_text).
End WithRuntime.

End MarkupCompiler.
(** ** Markup texts

    The text of a list of sections, as the markup format writes it: a
    bracketed header, the content lines and the closing line. *)

Module MarkupText.
Import Py.

Definition header (name : str) : str := u "[" ++ name ++ u "]".
Definition END : str := u "[END]".

Definition section_lines (section : str * list str) : list str :=
  header (fst section) :: snd section ++ [END].

Definition render (sections : list (str * list str)) : str :=
  join [LF] (flat_map section_lines sections).

(** The values of a list that [if value:] lets through. *)
Fixpoint found_values (values : list (option str)) : list str :=
  match values with
  | [] => []
  | Some ((_ :: _) as value) :: rest => value :: found_values rest
  | _ :: rest => found_values rest
  end.

(** The value a group selection designates in a match, by the fallback
    order of the specification: the whole match when the pattern has no
    group, group [i] when the match has a group of that number, group 1
    otherwise. *)
Definition selected (i : Z) (m : rmatch) : option str :=
  match m_groups m with
  | [] => Some (m_whole m)
  | first :: _ =>
    if (0 <? i)%Z && (i <=? Z.of_nat (List.length (m_groups m)))%Z
    then nth (Z.to_nat i - 1) (m_groups m) None
    else first
  end.

(** A value of a table row: a placeholder, or free of decimal points. *)
Definition row_value (v : str) : Prop :=
  v = u "н.б." \/ v = u "н.б" \/ ~ In 46%N v.

Section WithRuntime.
Context {R : Runtime}.

(** A content line that [_split_into_sections] keeps as it is: stripped,
    not empty, no comment, no bracket line. *)
Definition content_line (line : str) : Prop :=
  line <> [] /\ strip line = line /\ startswith line (u "#") = false
  /\ startswith line (u "[") = false /\ ~ In LF line.

Definition section_name (name : str) : Prop :=
  name <> [] /\ startswith (header name) END = false /\ ~ In LF name.

Definition well_formed (section : str * list str) : Prop :=
  section_name (fst section) /\ Forall content_line (snd section).

(** The first match of every line that has one. *)
Definition line_matches (r : regex) (lines : list str) : list rmatch :=
  flat_map (fun line => match search r line with
                        | Some m => [m]
                        | None => []
                        end)
           lines.

(** The lines a returned section may hold, among the lines [all] of the
    text. *)
Definition kept (all : list str) (line : str) : Prop :=
  line <> [] /\ startswith line (u "#") = false
  /\ line <> END /\ In line (map strip all).

Definition entry_kept (all : list str) (section : str * list str) : Prop :=
  fst section <> [] /\ Forall (kept all) (snd section).
End WithRuntime.

End MarkupText.
(** ** [RegexGenerator.generate_regex_patterns] of regex_parser.stable.py:
    what it does to the answer of the model before [json.loads] (lines
    184-204) *)

Module RegexGenerator.
Import Py PyFixed.

Definition QUOTE : char := 34%N.
Definition BACKSLASH : char := 92%N.

(** [s.find(c)] and [s.rfind(c)]: [-1] when [c] does not occur *)
Definition find (s : str) (c : char) : Z :=
  match MarkupParser.find_char c s with
  | Some n => Z.of_nat n
  | None => (-1)%Z
  end.

Definition rfind (s : str) (c : char) : Z :=
  match MarkupParser.find_char c (rev s) with
  | Some n => Z.of_nat (List.length s - 1 - n)
  | None => (-1)%Z
  end.

(** Lines 187-191: the JSON object inside a fenced answer. *)
Definition strip_fences (response : str) : str :=
  if contains response (u "```") then
    let json_start := find response MarkupParser.LBRACE in
    let json_end := (rfind response MarkupParser.RBRACE + 1)%Z in
    if negb (json_start =? -1)%Z && negb (json_end =? -1)%Z
    then slice response (Z.to_nat json_start) (Z.to_nat json_end)
    else response
  else response.

(** [pattern_value.replace(backslash, two backslashes)] (line 201) *)
Definition double_backslashes (pattern_value : str) : str :=
  flat_map (fun c => if (c =? BACKSLASH)%N then [BACKSLASH; BACKSLASH]
                     else [c])
           pattern_value.

(** [fix_pattern] (lines 198-202), on group 1 of the match: the key, a
    colon, one space and the value in quotes. *)
Definition fix_pattern (pattern_value : str) : str :=
  [QUOTE] ++ u "pattern" ++ [QUOTE] ++ u ": " ++ [QUOTE]
  ++ double_backslashes pattern_value ++ [QUOTE].

(** [re.sub] (line 204): the text between the matches is kept, every
    match is replaced. *)
Fixpoint sub_entries (text : str) (pos : nat)
    (entries : list (nat * nat * str)) : str :=
  match entries with
  | [] => skipn pos text
  | (start, stop, pattern_value) :: rest =>
    slice text pos start ++ fix_pattern pattern_value
    ++ sub_entries text stop rest
  end.

Section WithPatterns.
Context {F : FixedPatterns}.

(** The text handed to [json.loads]. *)
Definition repair (response : str) : str :=
  let response := strip_fences response in
  sub_entries response 0 (pattern_entries response).
End WithPatterns.

(** The number of backslashes of a string. *)
Definition backslashes (s : str) : nat :=
  List.length (filter (fun c => (c =? BACKSLASH)%N) s).

(** What [re] promises about the entries of a text: spans in document
    order that do not overlap and lie inside the text, each made of the
    quoted key, a colon, characters that are no backslashes, a quote, the
    value and a quote. *)
Fixpoint entries_from (text : str) (pos : nat)
    (entries : list (nat * nat * str)) : Prop :=
  match entries with
  | [] => True
  | (start, stop, pattern_value) :: rest =>
    pos <= start /\ stop <= List.length text
    /\ (exists gap,
           backslashes gap = 0
           /\ slice text start stop
              = [QUOTE] ++ u "pattern" ++ [QUOTE] ++ u ":" ++ gap
                ++ [QUOTE] ++ pattern_value ++ [QUOTE])
    /\ entries_from text stop rest
  end.

End RegexGenerator.
(** ** The fixed patterns, interpreted

    [PyFix.fixed] answers for the four patterns on strings whose digits
    and letters are Basic Latin or Russian; together with [PyFrag.runtime]
    it evaluates the code on concrete documents. *)

Module PyFix.
Import Py PyFixed.

(** [\d] and [\w] on Basic Latin and the Russian alphabet *)
Definition is_decimal (c : char) : bool := ((48 <=? c) && (c <=? 57))%N.

Definition is_word (c : char) : bool :=
  (is_decimal c || (65 <=? c) && (c <=? 90) || (97 <=? c) && (c <=? 122)
   || (c =? 95) || (1040 <=? c) && (c <=? 1103) || (c =? 1025)
   || (c =? 1105))%N.

Fixpoint take_while (p : char -> bool) (s : str) : str :=
  match s with
  | c :: s' => if p c then c :: take_while p s' else []
  | [] => []
  end.

Definition drop_while (p : char -> bool) (s : str) : str :=
  skipn (List.length (take_while p s)) s.

Definition not_lf (c : char) : bool := negb (c =? LF)%N.

(** Where [(.+)] starts after [\s*] has given back as little as needed:
    the last offset up to [n] at which a character other than a line
    feed stands. *)
Fixpoint best_start (s : str) (n : nat) : option nat :=
  let here := match nth_error s n with
              | Some c => not_lf c
              | None => false
              end in
  if here then Some n
  else match n with
       | O => None
       | S n' => best_start s n'
       end.

(** The pattern of rows: [@ROW], whitespace, a word, a colon, optional
    whitespace and the rest of the line. *)
Definition fix_match_row (line : str) : option (str * str) :=
  if startswith line (u "@ROW") then
    let rest := skipn 4 line in
    let spaces := take_while PyFrag.py_isspace rest in
    let rest := drop_while PyFrag.py_isspace rest in
    let row_name := take_while is_word rest in
    let rest := drop_while is_word rest in
    match spaces, row_name, rest with
    | _ :: _, _ :: _, c :: rest =>
      if (c =? MarkupParser.COLON)%N then
        match best_start rest
                (List.length (take_while PyFrag.py_isspace rest)) with
        | Some i => Some (row_name, take_while not_lf (skipn i rest))
        | None => None
        end
      else None
    | _, _, _ => None
    end
  else None.

(** A digit, or the placeholder without its last dot, somewhere. *)
Definition fix_search_value (s : str) : bool :=
  existsb is_decimal s || contains s (u "н.б").

(** [$]: the end of the string, or a line feed that ends it. *)
Definition at_end (s : str) : bool :=
  match s with
  | [] => true
  | [c] => (c =? LF)%N
  | _ => false
  end.

Definition is_number_char (c : char) : bool :=
  (is_decimal c || (c =? 44) || (c =? 46))%N.

Definition fix_match_value_token (token : str) : bool :=
  (RegexParser.nonempty (take_while is_number_char token)
   && at_end (drop_while is_number_char token))
  || (startswith token (u "н.б")
      && (at_end (skipn 3 token)
          || startswith (skipn 3 token) (u ".")
             && at_end (skipn 4 token))).

(** One entry at the head of [s]: its length and its value. *)
Definition entry_at (s : str) : option (nat * str) :=
  let key := [RegexGenerator.QUOTE] ++ u "pattern"
             ++ [RegexGenerator.QUOTE] ++ u ":" in
  if startswith s key then
    let rest := skipn (List.length key) s in
    let spaces := take_while PyFrag.py_isspace rest in
    match drop_while PyFrag.py_isspace rest with
    | q :: rest =>
      if (q =? RegexGenerator.QUOTE)%N then
        let value :=
          take_while (fun c => negb (c =? RegexGenerator.QUOTE)%N) rest in
        match skipn (List.length value) rest with
        | _ :: _ =>
          Some (List.length key + List.length spaces + 1
                + List.length value + 1, value)
        | [] => None
        end
      else None
    | [] => None
    end
  else None.

Fixpoint entries_scan (fuel : nat) (pos : nat) (s : str)
  : list (nat * nat * str) :=
  match fuel with
  | O => []
  | S fuel' =>
    match entry_at s with
    | Some (len, value) =>
      (pos, pos + len, value) :: entries_scan fuel' (pos + len) (skipn len s)
    | None =>
      match s with
      | [] => []
      | _ :: s' => entries_scan fuel' (pos + 1) s'
      end
    end
  end.

Definition fix_pattern_entries (s : str) : list (nat * nat * str) :=
  entries_scan (S (List.length s)) 0 s.

Definition fixed : FixedPatterns :=
  {| match_row := fix_match_row;
     search_value := fix_search_value;
     match_value_token := fix_match_value_token;
     pattern_entries := fix_pattern_entries |}.

End PyFix.

(** ** The fragment with named groups

    [PyNamed.runtime] reads [(?P<name>] as the parenthesis of a group
    that also carries a name, and hands the rest to [PyFrag]. *)

Module PyNamed.
Import Py.

(** Where the reader of a pattern stands: in plain text, after a
    backslash, in the characters [?P<] that follow the parenthesis of a
    named group, or in the name. *)
Inductive mode :=
| Plain
| Escaped
| Opening (left : nat)
| Name (name_rev : str).

(** The pattern without the names, and the names of its groups in the
    order of the groups ([None] for a group without a name). *)
Fixpoint unname (p : str) (m : mode) (out_rev : str)
    (names_rev : list (option str)) : str * list (option str) :=
  match p with
  | [] => (rev out_rev, rev names_rev)
  | c :: p' =>
    match m with
    | Escaped => unname p' Plain (c :: out_rev) names_rev
    | Opening (S (S n)) => unname p' (Opening (S n)) out_rev names_rev
    | Opening _ => unname p' (Name []) out_rev names_rev
    | Name name_rev =>
      if (c =? 62)%N
      then unname p' Plain out_rev (Some (rev name_rev) :: names_rev)
      else unname p' (Name (c :: name_rev)) out_rev names_rev
    | Plain =>
      if (c =? 92)%N then unname p' Escaped (c :: out_rev) names_rev
      else if (c =? 40)%N then
        if startswith p' (u "?P<")
        then unname p' (Opening 3) (c :: out_rev) names_rev
        else unname p' Plain (c :: out_rev) (None :: names_rev)
      else unname p' Plain (c :: out_rev) names_rev
    end
  end.

(** [match.groupdict()] before it is made a dictionary: the named groups
    with what they matched. *)
Fixpoint named_of (names : list (option str)) (groups : list (option str))
  : list (str * option str) :=
  match names, groups with
  | Some name :: names', g :: groups' => (name, g) :: named_of names' groups'
  | None :: names', _ :: groups' => named_of names' groups'
  | _, _ => []
  end.

Definition compile (p : str) (f : re_flags)
  : option (PyFrag.program * list (option str)) :=
  let (plain, names) := unname p Plain [] [] in
  match PyFrag.compile plain f with
  | Some prog => Some (prog, names)
  | None => None
  end.

Definition with_names (names : list (option str)) (m : rmatch) : rmatch :=
  {| m_start := m_start m; m_end := m_end m; m_whole := m_whole m;
     m_groups := m_groups m;
     m_named := named_of names (m_groups m) |}.

Definition named_finditer (r : PyFrag.program * list (option str))
    (s : str) : list rmatch :=
  map (with_names (snd r)) (PyFrag.frag_finditer (fst r) s).

Definition runtime : Runtime :=
  {| isspace := PyFrag.py_isspace;
     isdigit := PyFrag.py_isdigit;
     regex := PyFrag.program * list (option str);
     re_compile := compile;
     finditer := named_finditer;
     py_str := PyFrag.py_repr;
     py_int := PyFrag.digits_int |}.

End PyNamed.

(** ** Inputs of the further examples *)

Module MoreExamples.
Import Py.

(** A metadata group with a pattern that does not compile. *)
Definition with_bad_pattern : RegexParser.patterns :=
  {| RegexParser.metadata :=
       Some [(u "broken", RegexParser.inline_info (u "(68") None);
             (u "steel_grade", RegexParser.inline_info (u "68(..)") None)];
     RegexParser.technical_params := None;
     RegexParser.sections := None;
     RegexParser.tables := None |}.

Definition without_bad_pattern : RegexParser.patterns :=
  {| RegexParser.metadata :=
       Some [(u "steel_grade", RegexParser.inline_info (u "68(..)") None)];
     RegexParser.technical_params := None;
     RegexParser.sections := None;
     RegexParser.tables := None |}.

(** A section whose subsection pattern does not compile. *)
Definition bad_subsection_info : RegexParser.pattern_info :=
  {| RegexParser.pattern := Some (u "A(....)");
     RegexParser.flags := None;
     RegexParser.extraction_method := Some (u "structured_subsections");
     RegexParser.subsection_pattern := Some (u "(#") |}.

Definition bad_subsection_spec : RegexParser.patterns :=
  {| RegexParser.metadata := None;
     RegexParser.technical_params := None;
     RegexParser.sections := Some [(u "intro", bad_subsection_info)];
     RegexParser.tables := None |}.

(** Two plain sections. *)
Definition plain_sections_spec : RegexParser.patterns :=
  {| RegexParser.metadata := None;
     RegexParser.technical_params := None;
     RegexParser.sections :=
       Some [(u "intro", RegexParser.inline_info (u "A(....)") None);
             (u "outro", RegexParser.inline_info (u "Z(..)") None)];
     RegexParser.tables := None |}.

Definition plain_sections_as_metadata : RegexParser.patterns :=
  {| RegexParser.metadata :=
       RegexParser.sections plain_sections_spec;
     RegexParser.technical_params := None;
     RegexParser.sections := None;
     RegexParser.tables := None |}.

(** A specification with the two tables of the examples. *)
Definition two_tables_spec : RegexParser.patterns :=
  {| RegexParser.metadata := None;
     RegexParser.technical_params := None;
     RegexParser.sections := None;
     RegexParser.tables :=
       Some [Examples.kv_table; Examples.composition_table] |}.

(** Two markup sections, and a markup text whose last section is left
    open. *)
Definition two_sections : list (str * list str) :=
  [(u "META", [u "Дата: {date}"]);
   (u "TABLE sizes", [u "@COLUMNS:"; u "C"])].

Definition closed_markup : str :=
  join Examples.NL [u "[A]"; u "x"; u "[END]"; u "[B]"].
Definition open_tail : str := join Examples.NL [u "y {b}"; u "z"].

(** A document with the values of one table row. *)
Definition row_document : str :=
  join Examples.NL
       [u "Таблица 1"; u "Рекоменд:"; u "0.42 0.25 н.б."; u "конец"; u "1 2"].

(** A markup text with a table section for [row_document], and the
    parser after one and after two calls of [parse]. *)
Definition table_content : list str :=
  [u "@START: 1"; u "@COLUMNS:"; u "C"; u "@ROW rec: Рекоменд:";
   u "{{ values }}"].

Definition table_markup : str :=
  join Examples.NL
       ([u "# sizes"; u "[META]"; u "Таблица 1 {title}"; u "[END]";
         u "[TABLE sizes]"] ++ table_content ++ [u "[END]"]).

Definition parsed (self : MarkupParser.MarkupParser)
  : MarkupParser.MarkupParser :=
  match MarkupCompiler.parse (R := PyFrag.runtime) (F := PyFix.fixed)
          table_markup self with
  | Py.Ok self' => self'
  | Py.Raise _ => self
  end.

Definition parsed_once : MarkupParser.MarkupParser :=
  Eval vm_compute in parsed (Examples.parser_for row_document).

Definition parsed_twice : MarkupParser.MarkupParser :=
  Eval vm_compute in parsed parsed_once.

(** Answers of the model: a fenced object, a fenced answer cut short,
    and an entry with a pattern. *)
Definition fenced_answer : str := u "```json" ++ Examples.NL ++ u "{a}" ++ Examples.NL ++ u "```".
Definition cut_answer : str := u "```json" ++ Examples.NL ++ u "{a".
Definition entry_answer : str :=
  u "{" ++ [RegexGenerator.QUOTE] ++ u "pattern" ++ [RegexGenerator.QUOTE]
  ++ u ":  " ++ [RegexGenerator.QUOTE] ++ u "\d+\s" ++ [RegexGenerator.QUOTE]
  ++ u "}".


(** A structured table whose [recommended] row occurs twice in the
    document. *)
Definition repeated_row_table : RegexParser.table_info :=
  {| RegexParser.table_name := Some (VStr (u "composition"));
     RegexParser.table_number := Some (VStr (u "1"));
     RegexParser.description := None;
     RegexParser.t_extraction_method := Some (u "structured");
     RegexParser.structure :=
       Some [(u "recommended",
              RegexParser.inline_info (u "R:(.........)") None)];
     RegexParser.t_pattern := None;
     RegexParser.t_flags := None;
     RegexParser.header_pattern := None;
     RegexParser.row_names := None;
     RegexParser.value_patterns := None |}.

Definition repeated_row_text : str := u "R:0,42 0,25;R:0,30 0,10".



End MoreExamples.

(** * Properties *)

Import Py.
Local Open Scope py_scope.

(** ** Strings and dictionaries *)

Lemma str_eqb_eq (a b : str) : str_eqb a b = true <-> a = b.
Proof.
  revert b; induction a as [|x a IH]; intros [|y b]; simpl;
    try (split; [discriminate | discriminate]); try tauto.
  rewrite andb_true_iff, N.eqb_eq, IH.
  split; [intros [-> ->]; reflexivity | intros H; inversion H; auto].
Qed.

Lemma str_eqb_refl (a : str) : str_eqb a a = true.
Proof. apply str_eqb_eq; reflexivity. Qed.

Lemma str_eqb_neq (a b : str) : a <> b -> str_eqb a b = false.
Proof.
  intros H; destruct (str_eqb a b) eqn:E; [|reflexivity].
  apply str_eqb_eq in E; contradiction.
Qed.

Section DictFacts.
Context {K V : Type} (eqb : K -> K -> bool).
Hypothesis eqb_eq : forall a b, eqb a b = true <-> a = b.

Lemma dict_get_set_same (d : list (K * V)) k v :
  dict_get eqb (dict_set eqb d k v) k = Some v.
Proof.
  induction d as [|[k' v'] d IH]; simpl.
  - now rewrite (proj2 (eqb_eq k k) eq_refl).
  - destruct (eqb k' k) eqn:E; simpl; rewrite E; auto.
Qed.

Lemma dict_get_set_other (d : list (K * V)) k v k' :
  k <> k' -> dict_get eqb (dict_set eqb d k v) k' = dict_get eqb d k'.
Proof.
  intros Hne; induction d as [|[k0 v0] d IH]; simpl.
  - destruct (eqb k k') eqn:E; [apply eqb_eq in E; contradiction | reflexivity].
  - destruct (eqb k0 k) eqn:E; simpl.
    + apply eqb_eq in E; subst k0.
      destruct (eqb k k') eqn:E'; [apply eqb_eq in E'; contradiction | reflexivity].
    + destruct (eqb k0 k'); auto.
Qed.
End DictFacts.

Lemma dget_dset_same (d : dict) k v : dget (dset d k v) k = Some v.
Proof. apply dict_get_set_same, str_eqb_eq. Qed.

Lemma dget_dset_other (d : dict) k v k' :
  k <> k' -> dget (dset d k v) k' = dget d k'.
Proof. apply dict_get_set_other, str_eqb_eq. Qed.

(** ** Key/value pairing (strategy 4) *)

Lemma skipn_nth_cons {A} (l : list A) (i : nat) (d : A) :
  i < List.length l -> skipn i l = nth i l d :: skipn (S i) l.
Proof.
  revert i; induction l as [|x l IH]; intros [|i] H; simpl in *;
    try lia; auto.
  apply IH; lia.
Qed.

Lemma key_value_loop_pairs (fuel : nat) :
  forall (lines : list str) (i : nat) (data : dict),
    i <= List.length lines -> List.length lines - i <= fuel ->
    RegexParser.key_value_loop fuel lines i data
    = RegexParser.pair_lines (skipn i lines) data.
Proof.
  induction fuel as [|fuel IH]; intros lines i data Hi Hfuel.
  - assert (i = List.length lines) as -> by lia.
    now rewrite skipn_all.
  - cbn [RegexParser.key_value_loop].
    destruct (i <? List.length lines) eqn:E1.
    + apply Nat.ltb_lt in E1.
      rewrite (skipn_nth_cons lines i []) by assumption.
      destruct (i + 1 <? List.length lines) eqn:E2.
      * apply Nat.ltb_lt in E2.
        rewrite (skipn_nth_cons lines (S i) []) by lia.
        replace (i + 1) with (S i) by lia.
        cbn [RegexParser.pair_lines]. unfold RegexParser.rejected.
        rewrite <- negb_orb.
        destruct (startswith (nth (S i) lines []) (u "N")
                  || startswith (nth (S i) lines []) (u "Д")); cbn [negb].
        -- rewrite IH by lia.
           now rewrite (skipn_nth_cons lines (S i) []) by lia.
        -- rewrite IH by lia. now replace (i + 2) with (S (S i)) by lia.
      * apply Nat.ltb_ge in E2.
        rewrite IH by lia.
        replace (i + 1) with (S i) by lia.
        rewrite skipn_all2 by lia. reflexivity.
    + apply Nat.ltb_ge in E1.
      rewrite skipn_all2 by lia. reflexivity.
Qed.

(** C6. Key/value pairing: on the non-empty lines of the captured block
    the loop of [extract_table] computes exactly the pairing rule (lines
    taken pairwise as key and value; when the would-be value starts with a
    rejection marker only one line is consumed), the table's [data] is
    that map, and the lines Вес, 120, Длина, N/A give the single entry
    Вес: 120, also when [extract_table] captures them from a document. *)
Theorem key_value_pairing :
  (forall lines : list str,
      RegexParser.key_value_loop (List.length lines) lines 0 []
      = RegexParser.pair_lines lines [])
  /\ (forall (R : Runtime) (block : str) (table_data : dict),
         RegexParser.extract_key_value (VStr block) table_data
         = Ok (dset table_data (u "data")
                 (VDict (RegexParser.pair_lines
                           (RegexParser.nonempty_lines (strip block)) []))))
  /\ RegexParser.pair_lines Examples.kv_lines [] = [(u "Вес", VStr (u "120"))]
  /\ dget (RegexParser.initial_table_data Examples.kv_table) (u "data")
     = Some (VDict [])
  /\ RegexParser.extract_table (R := PyFrag.runtime)
       (u "T:" ++ Examples.kv_block) Examples.kv_table
     = Ok (dset (RegexParser.initial_table_data Examples.kv_table)
                (u "data") (VDict [(u "Вес", VStr (u "120"))])).
Proof.
  assert (forall lines : list str,
             RegexParser.key_value_loop (List.length lines) lines 0 []
             = RegexParser.pair_lines lines []) as Hloop.
  { intros lines.
    rewrite key_value_loop_pairs by lia. reflexivity. }
  split; [exact Hloop|]. split; [|split].
  - intros R block table_data.
    unfold RegexParser.extract_key_value, RegexParser.result_strip.
    cbn [bind]. now rewrite Hloop.
  - vm_compute. reflexivity.
  - split; vm_compute; reflexivity.
Qed.

(** ** Whitespace splitting and the numeric filter (strategy 1) *)

Section Tokens.
Context {R : Runtime}.

Lemma split_ws_aux_tokens (s : str) :
  forall cur, Forall (fun c => isspace c = false) cur ->
              Forall is_token (split_ws_aux cur s).
Proof.
  assert (forall cur : str, cur <> [] ->
            Forall (fun c => isspace c = false) cur -> is_token (rev cur))
    as Hrev.
  { intros cur Hne Hcur; split.
    - intros E. apply (f_equal (@rev char)) in E.
      rewrite rev_involutive in E. contradiction.
    - now apply Forall_rev. }
  induction s as [|c s IH]; intros cur Hcur; simpl.
  - destruct cur; constructor; [apply Hrev; [discriminate | assumption] | constructor].
  - destruct (isspace c) eqn:E.
    + destruct cur.
      * apply IH; constructor.
      * constructor; [apply Hrev; [discriminate | assumption] | apply IH; constructor].
    + apply IH; constructor; assumption.
Qed.

Lemma split_ws_tokens (s : str) : Forall is_token (split_ws s).
Proof. apply split_ws_aux_tokens; constructor. Qed.

Lemma lstrip_token (t : str) : is_token t -> lstrip t = t.
Proof.
  intros [Hne Hall]; destruct t as [|c t]; [contradiction|].
  simpl. inversion Hall as [|? ? Hc _]; now rewrite Hc.
Qed.

Lemma strip_token (t : str) : is_token t -> strip t = t.
Proof.
  intros Ht; unfold strip, rstrip.
  rewrite (lstrip_token t Ht).
  assert (is_token (rev t)) as Hr.
  { destruct Ht as [Hne Hall]; split.
    - intros E. apply (f_equal (@rev char)) in E.
      rewrite rev_involutive in E. contradiction.
    - now apply Forall_rev. }
  rewrite (lstrip_token _ Hr). apply rev_involutive.
Qed.

Lemma row_values_fold (l : list str) :
  Forall is_token l ->
  forall acc,
    fold_left
      (fun values val =>
         let val := strip val in
         if RegexParser.looks_numeric val then values ++ [val] else values)
      l acc
    = acc ++ filter RegexParser.looks_numeric l.
Proof.
  induction 1 as [|t l Ht _ IH]; intros acc; simpl.
  - now rewrite app_nil_r.
  - rewrite (strip_token t Ht), IH.
    destruct (RegexParser.looks_numeric t); [|reflexivity].
    now rewrite <- app_assoc.
Qed.

Lemma row_values_filter (row_text : str) :
  RegexParser.row_values row_text
  = filter RegexParser.looks_numeric (split_ws row_text).
Proof.
  unfold RegexParser.row_values.
  now rewrite (row_values_fold _ (split_ws_tokens row_text)).
Qed.
End Tokens.

Section StructuredRows.
Context {R : Runtime}.

Lemma set_item_in_rows (a b rows : dict) (row_name : str) (v : value) :
  dget a (u "rows") = Some (VDict rows) ->
  RegexParser.set_item_in a (u "rows") row_name v = Ok b ->
  dget b (u "rows") = Some (VDict (dset rows row_name v)).
Proof.
  intros Ha. unfold RegexParser.set_item_in. rewrite Ha.
  intros [= <-]. apply dget_dset_same.
Qed.

(** One iteration of the loop over the row names (lines 309-321). *)
Lemma row_step_rows (text : str)
    (structure : list (str * RegexParser.pattern_info)) (row_name : str)
    (a b ra : dict) :
  dget a (u "rows") = Some (VDict ra) ->
  match dict_get str_eqb structure row_name with
  | Some info =>
    if truthy (RegexParser.extract_with_pattern text info)
    then RegexParser.set_item_in a (u "rows") row_name
           (RegexParser.strs
              (RegexParser.row_values
                 (RegexParser.text_of
                    (RegexParser.extract_with_pattern text info))))
    else Ok a
  | None => Ok a
  end = Ok b ->
  exists rb,
    dget b (u "rows") = Some (VDict rb)
    /\ (forall k, k <> row_name -> dget rb k = dget ra k)
    /\ (forall info,
           dict_get str_eqb structure row_name = Some info ->
           truthy (RegexParser.extract_with_pattern text info) = true ->
           dget rb row_name
           = Some (RegexParser.strs
                     (RegexParser.row_values
                        (RegexParser.text_of
                           (RegexParser.extract_with_pattern text info))))).
Proof.
  intros Ha.
  destruct (dict_get str_eqb structure row_name) as [info|].
  - destruct (truthy (RegexParser.extract_with_pattern text info)) eqn:Et.
    + intros Hset. eexists. split; [|split].
      * exact (set_item_in_rows _ _ _ _ _ Ha Hset).
      * intros k Hk. now apply dget_dset_other.
      * intros info' [= <-] _. apply dget_dset_same.
    + intros [= <-]. exists ra. repeat split; [assumption|].
      intros info' [= <-]. congruence.
  - intros [= <-]. exists ra. repeat split; [assumption|discriminate].
Qed.

Lemma extract_structured_rows (text : str)
    (structure : list (str * RegexParser.pattern_info)) (d d' rows : dict)
    (row_name : str) (info : RegexParser.pattern_info) :
  dget d (u "rows") = Some (VDict rows) ->
  In row_name [u "recommended"; u "certificate"; u "espz"] ->
  dict_get str_eqb structure row_name = Some info ->
  truthy (RegexParser.extract_with_pattern text info) = true ->
  RegexParser.extract_structured text structure d = Ok d' ->
  exists rows',
    dget d' (u "rows") = Some (VDict rows')
    /\ dget rows' row_name
       = Some (RegexParser.strs
                 (RegexParser.row_values
                    (RegexParser.text_of
                       (RegexParser.extract_with_pattern text info)))).
Proof.
  intros Hrows Hname Hinfo Htruthy. unfold RegexParser.extract_structured.
  set (d0 := match dict_get str_eqb structure (u "elements") with
             | Some info => _ | None => d end).
  assert (dget d0 (u "rows") = Some (VDict rows)) as H0.
  { subst d0.
    destruct (dict_get str_eqb structure (u "elements")) as [elements|];
      [|assumption].
    destruct (truthy (RegexParser.extract_with_pattern text elements));
      [|assumption].
    rewrite dget_dset_other; [assumption|].
    intros E; vm_compute in E; discriminate E. }
  clearbody d0. cbn [fold_left bind].
  destruct (match dict_get str_eqb structure (u "recommended") with
            | Some info => _ | None => _ end) as [d1|] eqn:E1;
    [|discriminate].
  cbn [bind].
  destruct (match dict_get str_eqb structure (u "certificate") with
            | Some info => _ | None => _ end) as [d2|] eqn:E2;
    [|discriminate].
  cbn [bind]. intros E3.
  destruct (row_step_rows _ _ _ _ _ _ H0 E1) as (r1 & H1 & K1 & S1).
  destruct (row_step_rows _ _ _ _ _ _ H1 E2) as (r2 & H2 & K2 & S2).
  destruct (row_step_rows _ _ _ _ _ _ H2 E3) as (r3 & H3 & K3 & S3).
  exists r3. split; [exact H3|].
  cbn [In] in Hname. destruct Hname as [<- | [<- | [<- | []]]].
  - rewrite K3, K2 by (intros E; vm_compute in E; discriminate E).
    now apply S1.
  - rewrite K3 by (intros E; vm_compute in E; discriminate E).
    now apply S2.
  - now apply S3.
Qed.
End StructuredRows.

(** C7, as the code has it.  Structured-table numeric filter: whenever
    [extract_table] returns, the value list of a row whose pattern found
    something is the list of whitespace-separated tokens, restricted to
    the tokens that start with a digit or with the placeholder prefix н
    and in their original order, of the captured text when the result of
    the pattern is a string, and of [str()] of the result when it is a
    list, a tuple or a dictionary.  The result is the captured text when
    the pattern has no named group and at most one group and matches
    exactly once.
    The row text 0,42 0,25 Рекоменд gives 0,42 and 0,25, also as the
    [recommended] row of a table that [extract_table] captures from a
    document. *)
Theorem structured_row_filter :
  (forall (R : Runtime) (text : str) (table_info : RegexParser.table_info)
          (structure : list (str * RegexParser.pattern_info))
          (row_name : str) (info : RegexParser.pattern_info)
          (table_data : dict),
      getd (RegexParser.t_extraction_method table_info) (u "structured")
      = u "structured" ->
      RegexParser.structure table_info = Some structure ->
      In row_name [u "recommended"; u "certificate"; u "espz"] ->
      dict_get str_eqb structure row_name = Some info ->
      truthy (RegexParser.extract_with_pattern text info) = true ->
      RegexParser.extract_table text table_info = Ok table_data ->
      exists rows,
        dget table_data (u "rows") = Some (VDict rows)
        /\ dget rows row_name
           = Some (RegexParser.strs
                     (filter (fun token =>
                                match token with
                                | [] => false
                                | first :: _ =>
                                  isdigit first || startswith token (u "н")
                                end)
                             (split_ws
                                (RegexParser.text_of
                                   (RegexParser.extract_with_pattern
                                      text info))))))
  /\ (forall (R : Runtime) (text : str) (info : RegexParser.pattern_info)
             (p : str) (r : regex) (m : rmatch),
         RegexParser.pattern info = Some p ->
         p <> [] ->
         contains p (u "(?P<") = false ->
         re_compile p
           (RegexParser.mk_flags (getd (RegexParser.flags info) []))
         = Some r ->
         finditer r text = [m] ->
         List.length (m_groups m) <= 1 ->
         RegexParser.extract_with_pattern text info
         = VStr match m_groups m with
                | [] => m_whole m
                | g :: _ => getd g []
                end)
  /\ RegexParser.row_values (R := PyFrag.runtime) Examples.row_text
     = [u "0,42"; u "0,25"]
  /\ RegexParser.extract_table (R := PyFrag.runtime)
       (u "R:" ++ Examples.row_text) Examples.composition_table
     = Ok (dset (RegexParser.initial_table_data Examples.composition_table)
                (u "rows")
                (VDict [(u "recommended",
                         VList [VStr (u "0,42"); VStr (u "0,25")])])).
Proof.
  split; [|split; [|split]].
  - intros R text table_info structure row_name info table_data
           Hmethod Hstructure Hname Hinfo Htruthy.
    unfold RegexParser.extract_table. rewrite Hmethod, Hstructure.
    change (str_eqb (u "structured") (u "structured")) with true.
    cbv iota. intros Hreturn.
    assert (dget (RegexParser.initial_table_data table_info) (u "rows")
            = Some (VDict [])) as Hinit by reflexivity.
    destruct (extract_structured_rows text structure _ table_data []
                row_name info Hinit Hname Hinfo Htruthy Hreturn)
      as (rows & Hrows & Hrow).
    exists rows. split; [exact Hrows|].
    rewrite Hrow, row_values_filter. reflexivity.
  - intros R text info p r m Hp Hne Hnamed Hc Hm Hgroups.
    unfold RegexParser.extract_with_pattern. rewrite Hp; cbn [getd].
    destruct p as [|c p]; [contradiction|]. rewrite Hc, Hnamed.
    unfold findall. rewrite Hm. cbn [map]. unfold findall_item.
    destruct (m_groups m) as [|g [|g' gs]]; [reflexivity | | cbn in Hgroups; lia].
    now destruct g.
  - vm_compute. reflexivity.
  - vm_compute. reflexivity.
Qed.

Lemma structured_row_filter_witness :
  exists rows,
    dget (dset (RegexParser.initial_table_data Examples.composition_table)
               (u "rows")
               (VDict [(u "recommended",
                        VList [VStr (u "0,42"); VStr (u "0,25")])]))
         (u "rows")
    = Some (VDict rows)
    /\ dget rows (u "recommended")
       = Some (VList [VStr (u "0,42"); VStr (u "0,25")]).
Proof.
  destruct (proj1 structured_row_filter PyFrag.runtime
              (u "R:" ++ Examples.row_text) Examples.composition_table
              [(u "recommended",
                RegexParser.inline_info (u "R:(..................)") None)]
              (u "recommended")
              (RegexParser.inline_info (u "R:(..................)") None)
              (dset (RegexParser.initial_table_data
                       Examples.composition_table)
                    (u "rows")
                    (VDict [(u "recommended",
                             VList [VStr (u "0,42"); VStr (u "0,25")])])))
    as (rows & Hrows & Hrow).
  - reflexivity.
  - reflexivity.
  - left; reflexivity.
  - reflexivity.
  - vm_compute; reflexivity.
  - vm_compute; reflexivity.
  - exists rows. split; [exact Hrows|].
    rewrite Hrow. vm_compute. reflexivity.
Defined.

(** C7 as stated fails for a row whose pattern matches twice: the
    captured texts are 0,42 0,25 and 0,30 0,10, the tokens are taken from
    the printed list of both, and the row holds the two tokens that start
    with a digit there, each with the quote and the comma or bracket that
    follow it; the values 0,42 and 0,30 are lost. *)
Lemma repeated_row_is_tokenized_from_its_print :
  RegexParser.extract_with_pattern (R := PyFrag.runtime)
    MoreExamples.repeated_row_text
    (RegexParser.inline_info (u "R:(.........)") None)
  = VList [VStr (u "0,42 0,25"); VStr (u "0,30 0,10")]
  /\ RegexParser.extract_table (R := PyFrag.runtime)
       MoreExamples.repeated_row_text MoreExamples.repeated_row_table
     = Ok (dset (RegexParser.initial_table_data
                   MoreExamples.repeated_row_table)
                (u "rows")
                (VDict [(u "recommended",
                         VList [VStr (u "0,25',"); VStr (u "0,10']")])]))
  /\ [u "0,25',"; u "0,10']"]
     <> filter (RegexParser.looks_numeric (R := PyFrag.runtime))
               (split_ws (R := PyFrag.runtime) (u "0,42 0,25"))
  /\ [u "0,25',"; u "0,10']"]
     <> filter (RegexParser.looks_numeric (R := PyFrag.runtime))
               (split_ws (R := PyFrag.runtime)
                  (u "0,42 0,25" ++ u " " ++ u "0,30 0,10")).
Proof.
  repeat match goal with |- _ /\ _ => split end;
    vm_compute; try reflexivity; discriminate.
Qed.

(** ** Capture-group selection *)

Lemma group_in_range (m : rmatch) (i : Z) :
  (0 < i <= Z.of_nat (List.length (m_groups m)))%Z ->
  group m i = Ok (nth (Z.to_nat i - 1) (m_groups m) None).
Proof.
  intros Hi; unfold group.
  destruct (i =? 0)%Z eqn:E0; [apply Z.eqb_eq in E0; lia|].
  destruct (0 <? i)%Z eqn:E1; [|apply Z.ltb_ge in E1; lia].
  destruct (nth_error (m_groups m) (Z.to_nat i - 1)) eqn:E.
  - now rewrite (nth_error_nth _ _ _ E).
  - apply nth_error_None in E. lia.
Qed.

(** Capture-group selection on one match: without capture groups the
    whole match is selected; with groups and an index that is not
    positive or exceeds the number of groups, group 1; otherwise the
    group of that index. *)
Lemma select_group_fallback (i : Z) (m : rmatch) :
  (m_groups m = [] ->
   MarkupParser.select_group i m = Ok (Some (m_whole m)))
  /\ (m_groups m <> [] ->
      (i <= 0 \/ Z.of_nat (List.length (m_groups m)) < i)%Z ->
      MarkupParser.select_group i m = Ok (nth 0 (m_groups m) None))
  /\ (m_groups m <> [] ->
      (0 < i <= Z.of_nat (List.length (m_groups m)))%Z ->
      MarkupParser.select_group i m
      = Ok (nth (Z.to_nat i - 1) (m_groups m) None)).
Proof.
  unfold MarkupParser.select_group.
  split; [|split].
  - intros ->. reflexivity.
  - intros Hne Hi. destruct (m_groups m) as [|g gs] eqn:E; [contradiction|].
    cbn [andb].
    assert ((0 <? i)%Z && (i <=? Z.of_nat (List.length (g :: gs)))%Z = false)
      as ->.
    { apply andb_false_iff.
      destruct Hi; [left; apply Z.ltb_ge | right; apply Z.leb_gt]; assumption. }
    unfold group; cbn. now rewrite E.
  - intros Hne Hi. rewrite <- (group_in_range m i Hi).
    destruct (m_groups m) as [|g gs]; [contradiction|].
    destruct Hi as [H1 H2].
    apply Z.ltb_lt in H1. apply Z.leb_le in H2.
    cbn [andb]. now rewrite H1, H2.
Qed.

Lemma select_group_fallback_witness :
  MarkupParser.select_group 5
    {| m_start := 0; m_end := 2; m_whole := u "ab";
       m_groups := [Some (u "a"); Some (u "b")]; m_named := [] |}
  = Ok (Some (u "a")).
Proof.
  refine (proj1 (proj2 (select_group_fallback 5 _)) _ _).
  - simpl. discriminate.
  - simpl. lia.
Defined.

(** ** Field extraction of [RegexParser] *)

Section Fields.
Context {R : Runtime}.






(** A field whose result is not truthy leaves no trace in the map. *)
Lemma extract_fields_skip (text : str)
    (before after : list (str * RegexParser.pattern_info)) (key : str)
    (info : RegexParser.pattern_info) :
  truthy (RegexParser.extract_with_pattern text info) = false ->
  RegexParser.extract_fields text (before ++ (key, info) :: after)
  = RegexParser.extract_fields text (before ++ after).
Proof.
  intros H. unfold RegexParser.extract_fields.
  rewrite !fold_left_app. cbn [fold_left fst snd]. now rewrite H.
Qed.
End Fields.

(** ** What a technical-parameter field holds *)

Lemma store_param_first (R : Runtime) (self : MarkupParser.MarkupParser)
    (label_part value : str) (others : list (option str)) :
  value <> [] ->
  MarkupParser.store_param self label_part (Some value :: others)
  = MarkupParser.set_technical_param self
      (MarkupParser.param_key label_part) (VStr value).
Proof. destruct value; [contradiction | reflexivity]. Qed.

Lemma dict_set_forall {V : Type} (Q : str * V -> Prop)
    (d : list (str * V)) (k : str) (v : V) :
  Forall Q d -> Q (k, v) -> Forall Q (dict_set str_eqb d k v).
Proof.
  intros Hd Hq. induction d as [|[k' v'] d IH]; simpl.
  - constructor; [assumption | constructor].
  - inversion Hd as [|? ? Hhead Htail]; subst.
    destruct (str_eqb k' k) eqn:E.
    + apply str_eqb_eq in E. subst k'. constructor; assumption.
    + constructor; [assumption | now apply IH].
Qed.

Section Fields2.
Context {R : Runtime}.




End Fields2.




(** ** Empty selected values *)






(** ** Tables without any match *)

Lemma dict_get_in {V : Type} (d : list (str * V)) (k : str) (v : V) :
  dict_get str_eqb d k = Some v -> In v (map snd d).
Proof.
  induction d as [|[k' v'] d IH]; simpl; [discriminate|].
  destruct (str_eqb k' k); [intros H; inversion H; now left | auto].
Qed.

Section NoMatch.
Context {R : Runtime}.
Variables (text : str) (table_info : RegexParser.table_info).
Hypothesis no_match :
  Forall (fun info =>
            truthy (RegexParser.extract_with_pattern text info) = false)
         (RegexParser.used_patterns table_info).

Lemma value_patterns_no_match (vps : list (str * str)) (table_data : dict) :
  Forall (fun kv : str * str =>
            truthy (RegexParser.extract_with_pattern text
                      (RegexParser.inline_info (snd kv) None)) = false) vps ->
  fold_left
    (fun (acc : res dict) (kv : str * str) =>
       table_data <- acc ;;
       let result :=
         RegexParser.extract_with_pattern text
           (RegexParser.inline_info (snd kv) None) in
       if truthy result
       then RegexParser.set_item_in table_data (u "data") (fst kv) result
       else Ok table_data)
    vps (Ok table_data)
  = Ok table_data.
Proof.
  induction 1 as [|kv vps Hkv _ IH]; [reflexivity|].
  cbn [fold_left bind]. now rewrite Hkv.
Qed.

Lemma extract_structured_no_match
    (structure : list (str * RegexParser.pattern_info)) (table_data : dict) :
  RegexParser.structure table_info = Some structure ->
  RegexParser.extract_structured text structure table_data = Ok table_data.
Proof.
  intros Hs.
  assert (forall k info, dict_get str_eqb structure k = Some info ->
            truthy (RegexParser.extract_with_pattern text info) = false)
    as Hget.
  { intros k info Hk. apply dict_get_in in Hk.
    rewrite Forall_forall in no_match. apply no_match.
    unfold RegexParser.used_patterns. rewrite Hs. apply in_or_app. now left. }
  unfold RegexParser.extract_structured. cbn [fold_left bind].
  repeat match goal with
         | |- context [dict_get str_eqb structure ?k] =>
           let E := fresh "E" in
           destruct (dict_get str_eqb structure k) eqn:E;
             [rewrite (Hget _ _ E)|]
         end;
    reflexivity.
Qed.

Lemma extract_old_no_match (table_data : dict) :
  RegexParser.extract_old text table_info table_data
  = Ok (match RegexParser.row_names table_info with
        | Some names => dset table_data (u "rows") names
        | None => table_data
        end).
Proof.
  rewrite Forall_forall in no_match.
  unfold RegexParser.extract_old.
  assert (forall hp, RegexParser.header_pattern table_info = Some hp ->
            truthy (RegexParser.extract_with_pattern text
                      (RegexParser.inline_info hp None)) = false) as Hh.
  { intros hp E. apply no_match. unfold RegexParser.used_patterns.
    rewrite E. apply in_or_app; right. apply in_or_app; right.
    apply in_or_app; left. now left. }
  assert (forall vps, RegexParser.value_patterns table_info = Some vps ->
            Forall (fun kv : str * str =>
                      truthy (RegexParser.extract_with_pattern text
                                (RegexParser.inline_info (snd kv) None))
                      = false) vps) as Hv.
  { intros vps E. apply Forall_forall. intros kv Hin. apply no_match.
    unfold RegexParser.used_patterns. rewrite E.
    apply in_or_app; right. apply in_or_app; right. apply in_or_app; right.
    cbn [getd].
    apply (in_map (fun kv : str * str =>
                     RegexParser.inline_info (snd kv) None)) in Hin.
    exact Hin. }
  destruct (RegexParser.header_pattern table_info) as [hp|];
    [rewrite (Hh hp eq_refl)|];
    (destruct (RegexParser.value_patterns table_info) as [vps|];
     [rewrite (value_patterns_no_match vps _ (Hv vps eq_refl))|]);
    reflexivity.
Qed.

(** When none of the patterns of the descriptor has a match, every
    strategy returns the identity fields with the empty containers; the
    older descriptor form also copies the row names it was given. *)
Lemma extract_table_no_match :
  RegexParser.extract_table text table_info
  = Ok (RegexParser.initial_table_data table_info)
  \/ exists names,
      RegexParser.row_names table_info = Some names
      /\ RegexParser.extract_table text table_info
         = Ok (dset (RegexParser.initial_table_data table_info)
                    (u "rows") names).
Proof.
  assert (RegexParser.extract_old text table_info
            (RegexParser.initial_table_data table_info)
          = Ok (RegexParser.initial_table_data table_info)
          \/ exists names,
              RegexParser.row_names table_info = Some names
              /\ RegexParser.extract_old text table_info
                   (RegexParser.initial_table_data table_info)
                 = Ok (dset (RegexParser.initial_table_data table_info)
                            (u "rows") names)) as Hold.
  { rewrite extract_old_no_match.
    destruct (RegexParser.row_names table_info) as [names|];
      [right; exists names; split; reflexivity | left; reflexivity]. }
  unfold RegexParser.extract_table.
  destruct (str_eqb _ (u "structured")).
  - destruct (RegexParser.structure table_info) as [structure|] eqn:Es.
    + left. now apply extract_structured_no_match.
    + destruct (RegexParser.t_pattern table_info) as [p|] eqn:Ep;
        [|exact Hold].
      assert (truthy (RegexParser.extract_with_pattern text
                (RegexParser.inline_info p
                   (Some (getd (RegexParser.t_flags table_info) []))))
              = false) as Hp.
      { rewrite Forall_forall in no_match. apply no_match.
        unfold RegexParser.used_patterns. rewrite Ep.
        apply in_or_app; right. apply in_or_app; left. now left. }
      rewrite Hp.
      repeat match goal with
             | |- context [if str_eqb ?a ?b then _ else _] =>
               destruct (str_eqb a b); [left; reflexivity|]
             end.
      exact Hold.
  - destruct (RegexParser.t_pattern table_info) as [p|] eqn:Ep;
      [|exact Hold].
    assert (truthy (RegexParser.extract_with_pattern text
              (RegexParser.inline_info p
                 (Some (getd (RegexParser.t_flags table_info) []))))
            = false) as Hp.
    { rewrite Forall_forall in no_match. apply no_match.
      unfold RegexParser.used_patterns. rewrite Ep.
      apply in_or_app; right. apply in_or_app; left. now left. }
    rewrite Hp.
    repeat match goal with
           | |- context [if str_eqb ?a ?b then _ else _] =>
             destruct (str_eqb a b); [left; reflexivity|]
           end.
    exact Hold.
Qed.
End NoMatch.

(** The fixed-row table on a document without its block. *)
Example fixed_row_table_no_match :
  RegexParser.extract_table (R := PyFrag.runtime)
    (u "no table here") Examples.fixed_row_table
  = Ok (RegexParser.initial_table_data Examples.fixed_row_table).
Proof.
  destruct (extract_table_no_match (R := PyFrag.runtime)
              (u "no table here") Examples.fixed_row_table)
    as [H | [names [Hn _]]].
  - repeat constructor.
  - exact H.
  - discriminate Hn.
Qed.

(** ** The fixed-row table (strategy 3) *)

(** A block of six, seven or eight lines passes the test on the number
    of lines and then fails on [lines[6]], [lines[7]] or [lines[8]]. *)
Lemma extract_table_2_short_block (R : Runtime) (block : str)
    (table_data : dict) :
  6 <= List.length (split_on LF (strip block)) <= 8 ->
  RegexParser.extract_table_2 (VStr block) table_data = Raise IndexError.
Proof.
  intros [Hlo Hhi]. unfold RegexParser.extract_table_2.
  cbn [RegexParser.result_strip bind].
  destruct (split_on LF (strip block))
    as [|l0 [|l1 [|l2 [|l3 [|l4 [|l5 [|l6 [|l7 [|l8 rest]]]]]]]]];
    simpl in Hlo, Hhi; try lia; reflexivity.
Qed.

(** With nine lines or more the first three are the headers and the next
    six the three pairs of values; what follows is dropped. *)
Lemma extract_table_2_nine_lines (R : Runtime) (block : str)
    (table_data : dict) (l0 l1 l2 l3 l4 l5 l6 l7 l8 : str) (rest : list str) :
  split_on LF (strip block)
  = l0 :: l1 :: l2 :: l3 :: l4 :: l5 :: l6 :: l7 :: l8 :: rest ->
  RegexParser.extract_table_2 (VStr block) table_data
  = Ok (dset (dset table_data (u "headers")
                   (RegexParser.strs [strip l0; strip l1; strip l2]))
             (u "values")
             (VList [RegexParser.strs [strip l3; strip l4];
                     RegexParser.strs [strip l5; strip l6];
                     RegexParser.strs [strip l7; strip l8]])).
Proof.
  intros H. unfold RegexParser.extract_table_2.
  cbn [RegexParser.result_strip bind]. rewrite H. reflexivity.
Qed.

(** C1 fails on the code: the fixed-row strategy raises on a captured
    block of six lines.  The pattern of [fixed_row_table] captures the
    six lines of the document; [extract_table] sets the headers and then
    raises [IndexError] on the seventh line. *)
Theorem fixed_row_six_lines_raise :
  RegexParser.extract_with_pattern (R := PyFrag.runtime) Examples.six_lines
    (RegexParser.inline_info (u "1.2.3.4.5.6") (Some [u "DOTALL"]))
  = VStr Examples.six_lines
  /\ RegexParser.extract_table (R := PyFrag.runtime)
       Examples.six_lines Examples.fixed_row_table
     = Raise IndexError.
Proof. split; vm_compute; reflexivity. Qed.

(** The same table on a document that holds the block twice: the
    extraction result is the list of both blocks and [result.strip()]
    raises. *)
Example fixed_row_two_blocks_raise :
  RegexParser.extract_table (R := PyFrag.runtime)
    (Examples.six_lines ++ Examples.NL ++ Examples.six_lines)
    Examples.fixed_row_table
  = Raise AttributeError.
Proof. vm_compute; reflexivity. Qed.

(** ** The two-tier search of [_find_by_regex] *)

Lemma lines_whole_nil (R : Runtime) (r : regex) (lines : list str) :
  MarkupParser.lines_whole r lines = []
  <-> forall line, In line lines -> search r line = None.
Proof.
  induction lines as [|line rest IH]; simpl.
  - split; [intros _ ? [] | reflexivity].
  - destruct (search r line) eqn:E.
    + split; [discriminate|]. intros H.
      rewrite (H line (or_introl eq_refl)) in E. discriminate.
    + rewrite IH. split.
      * intros H l [<- | Hl]; auto.
      * intros H l Hl. apply H. now right.
Qed.

Lemma select_group_returns (i : Z) (m : rmatch) :
  exists v, MarkupParser.select_group i m = Ok v.
Proof.
  unfold MarkupParser.select_group.
  destruct (m_groups m) as [|g gs] eqn:E; cbn [andb].
  - eexists; reflexivity.
  - destruct ((0 <? i)%Z && (i <=? Z.of_nat (List.length (g :: gs)))%Z)
      eqn:Hi.
    + apply andb_true_iff in Hi as [H1 H2].
      apply Z.ltb_lt in H1. apply Z.leb_le in H2.
      rewrite group_in_range by (rewrite E; lia). eexists; reflexivity.
    + rewrite group_in_range by (rewrite E; simpl; lia).
      eexists; reflexivity.
Qed.

Lemma mapM_select_group (i : Z) (ms : list rmatch) :
  exists results,
    MarkupParser.mapM (MarkupParser.select_group i) ms = Ok results
    /\ List.length results = List.length ms.
Proof.
  induction ms as [|m ms [results [IH Hlen]]].
  - exists []. split; reflexivity.
  - destruct (select_group_returns i m) as [v Hv].
    exists (v :: results). cbn [MarkupParser.mapM]. rewrite Hv, IH.
    split; [reflexivity | simpl; now rewrite Hlen].
Qed.

Section GroupLabels.
Context {R : Runtime}.

Lemma select_group_selected (i : Z) (m : rmatch) :
  MarkupParser.select_group i m = Ok (MarkupText.selected i m).
Proof.
  unfold MarkupParser.select_group, MarkupText.selected.
  destruct (m_groups m) as [|g gs] eqn:E; cbn [andb]; [reflexivity|].
  destruct ((0 <? i)%Z && (i <=? Z.of_nat (List.length (g :: gs)))%Z)
    eqn:Hi.
  - apply andb_true_iff in Hi as [H1 H2].
    apply Z.ltb_lt in H1. apply Z.leb_le in H2.
    rewrite group_in_range by (rewrite E; lia). now rewrite E.
  - rewrite group_in_range by (rewrite E; simpl; lia). now rewrite E.
Qed.

Lemma mapM_selected (i : Z) (ms : list rmatch) :
  MarkupParser.mapM (MarkupParser.select_group i) ms
  = Ok (map (MarkupText.selected i) ms).
Proof.
  induction ms as [|m ms IH]; [reflexivity|].
  cbn [MarkupParser.mapM map]. now rewrite select_group_selected, IH.
Qed.

Lemma lines_select_selected (r : regex) (i : Z) (lines : list str) :
  MarkupParser.lines_select r i lines
  = Ok (map (MarkupText.selected i) (MarkupText.line_matches r lines)).
Proof.
  induction lines as [|line lines IH]; [reflexivity|].
  cbn [MarkupParser.lines_select MarkupText.line_matches flat_map].
  fold (MarkupText.line_matches r lines).
  destruct (search r line) as [m|]; [|exact IH].
  rewrite select_group_selected, IH. reflexivity.
Qed.

(** [_find_by_regex] with a label [key:number], once the pattern has
    compiled and the number has been read as [i]. *)
Lemma group_label_selects (self : MarkupParser.MarkupParser)
    (pattern label_part : str) (find_all : bool) (r : regex) (i : Z) :
  MarkupParser.has_char MarkupParser.COLON label_part = true ->
  re_compile pattern MarkupParser.all_flags = Some r ->
  (if str_isdigit (strip (MarkupParser.after_colon label_part))
   then py_int (strip (MarkupParser.after_colon label_part))
   else Ok 0%Z) = Ok i ->
  MarkupParser._find_by_regex self pattern label_part find_all
  = Ok match finditer r (MarkupParser.document_text self) with
       | [] =>
         map (MarkupText.selected i)
             (MarkupText.line_matches r (MarkupParser.document_lines self))
       | matches => map (MarkupText.selected i) matches
       end.
Proof.
  intros Hcolon Hc Hi. unfold MarkupParser._find_by_regex.
  rewrite Hc, Hcolon, Hi. cbn [bind]. rewrite mapM_selected. cbn [bind].
  destruct (finditer r (MarkupParser.document_text self)) as [|m ms];
    [apply lines_select_selected | reflexivity].
Qed.
End GroupLabels.

(** C8 fails on the code for a group number that [isdigit] accepts and
    [int] rejects.  For a label [key:number] and a pattern that has
    compiled, [_find_by_regex] reads the number with [int] when
    [isdigit] holds of it and takes 0 otherwise.  When this gives [i],
    every match yields the value the fallback order designates (the whole
    match without groups, group [i] when the match has it, group 1
    otherwise) and the call returns these values: those of the matches in
    the document or, without any, of the first match of every line that
    has one.  When [int] raises, the call raises with it before any match
    is looked at: so for the number ², which [isdigit] accepts. *)
Theorem group_number_guard_lets_int_raise :
  (forall (R : Runtime) (self : MarkupParser.MarkupParser)
          (pattern label_part : str) (find_all : bool) (r : regex) (i : Z),
      MarkupParser.has_char MarkupParser.COLON label_part = true ->
      re_compile pattern MarkupParser.all_flags = Some r ->
      (if str_isdigit (strip (MarkupParser.after_colon label_part))
       then py_int (strip (MarkupParser.after_colon label_part))
       else Ok 0%Z) = Ok i ->
      MarkupParser._find_by_regex self pattern label_part find_all
      = Ok match finditer r (MarkupParser.document_text self) with
           | [] =>
             map (MarkupText.selected i)
                 (MarkupText.line_matches r
                    (MarkupParser.document_lines self))
           | matches => map (MarkupText.selected i) matches
           end)
  /\ (forall (R : Runtime) (self : MarkupParser.MarkupParser)
             (pattern label_part : str) (find_all : bool) (r : regex)
             (e : exn),
         MarkupParser.has_char MarkupParser.COLON label_part = true ->
         re_compile pattern MarkupParser.all_flags = Some r ->
         str_isdigit (strip (MarkupParser.after_colon label_part)) = true ->
         py_int (strip (MarkupParser.after_colon label_part)) = Raise e ->
         MarkupParser._find_by_regex self pattern label_part find_all
         = Raise e)
  /\ (MarkupParser._find_by_regex (R := PyFrag.runtime)
        (Examples.parser_for (u "сталь 12 и 13")) (u "1(.)") (u "k:²") false
      = Raise ValueError
      /\ MarkupParser.parse_params_line (R := PyFrag.runtime)
           (Examples.parser_for (u "сталь 12 и 13"))
           (u "@REGEX 1(.) { k:² }")
         = Raise ValueError
      /\ MarkupParser._find_by_regex (R := PyFrag.runtime)
           (Examples.parser_for (u "сталь 12 и 13")) (u "1(.)") (u "k:7")
           false
         = Ok [Some (u "2"); Some (u "3")]
      /\ MarkupParser._find_by_regex (R := PyFrag.runtime)
           (Examples.parser_for Examples.anchored_document)
           (u "\A(1)(2)") (u "k:2") false
         = Ok [Some (u "2")]).
Proof.
  split; [|split].
  - intros R self pattern label_part find_all r i.
    apply group_label_selects.
  - intros R self pattern label_part find_all r e Hcolon Hc Hdigit Hint.
    unfold MarkupParser._find_by_regex.
    now rewrite Hc, Hcolon, Hdigit, Hint.
  - repeat match goal with |- _ /\ _ => split end; vm_compute; reflexivity.
Qed.

Lemma group_number_guard_lets_int_raise_witness :
  MarkupParser._find_by_regex (R := PyFrag.runtime)
    (Examples.parser_for (u "сталь 12 и 13")) (u "1(.)") (u "k:²") false
  = Raise ValueError.
Proof.
  refine (proj1 (proj2 group_number_guard_lets_int_raise) PyFrag.runtime
            (Examples.parser_for (u "сталь 12 и 13")) (u "1(.)") (u "k:²")
            false
            {| PyFrag.anchored := false; PyFrag.dotall := true;
               PyFrag.atoms := [PyFrag.Lit 49%N; PyFrag.Dot];
               PyFrag.groups := [(1, 1)] |}
            ValueError _ _ _ _);
    vm_compute; reflexivity.
Defined.

(** C4, as the code has it.  In all-occurrences mode the matches of the
    whole document, when there is at least one, are the result and the
    lines are not searched; when there is none, the result is the first
    match of every line that has one, which is empty exactly when no line
    has a match.  This holds for a label that designates no group (lines
    336-347) and, with the selected groups in place of the whole matches,
    for a label that designates one (lines 308-334). *)
Theorem all_occurrences_two_tier (R : Runtime)
    (self : MarkupParser.MarkupParser) (pattern label_part : str)
    (r : regex) :
  re_compile pattern MarkupParser.all_flags = Some r ->
  (MarkupParser.has_char MarkupParser.COLON label_part = false ->
   (finditer r (MarkupParser.document_text self) <> [] ->
    MarkupParser._find_by_regex self pattern label_part true
    = Ok (map (fun m => Some (m_whole m))
              (finditer r (MarkupParser.document_text self))))
   /\ (finditer r (MarkupParser.document_text self) = [] ->
       MarkupParser._find_by_regex self pattern label_part true
       = Ok (MarkupParser.lines_whole r (MarkupParser.document_lines self)))
   /\ (MarkupParser.lines_whole r (MarkupParser.document_lines self) = []
       <-> forall line, In line (MarkupParser.document_lines self) ->
                        search r line = None))
  /\ (forall (find_all : bool) (group_num : Z),
         MarkupParser.has_char MarkupParser.COLON label_part = true ->
         (if str_isdigit (strip (MarkupParser.after_colon label_part))
          then py_int (strip (MarkupParser.after_colon label_part))
          else Ok 0%Z) = Ok group_num ->
         exists results,
           MarkupParser.mapM (MarkupParser.select_group group_num)
             (finditer r (MarkupParser.document_text self)) = Ok results
           /\ List.length results
              = List.length (finditer r (MarkupParser.document_text self))
           /\ (finditer r (MarkupParser.document_text self) <> [] ->
               MarkupParser._find_by_regex self pattern label_part find_all
               = Ok results)
           /\ (finditer r (MarkupParser.document_text self) = [] ->
               MarkupParser._find_by_regex self pattern label_part find_all
               = MarkupParser.lines_select r group_num
                   (MarkupParser.document_lines self))).
Proof.
  intros Hc. unfold MarkupParser._find_by_regex. rewrite Hc. split.
  - intros Hlabel. rewrite Hlabel. split; [|split].
    + intros Hne. destruct (finditer r (MarkupParser.document_text self));
        [contradiction | reflexivity].
    + intros ->. reflexivity.
    + apply lines_whole_nil.
  - intros find_all group_num Hlabel Hnum. rewrite Hlabel, Hnum.
    cbn [bind].
    destruct (mapM_select_group group_num
                (finditer r (MarkupParser.document_text self)))
      as [results [Hres Hlen]].
    exists results. rewrite Hres. cbn [bind].
    split; [reflexivity|]. split; [assumption|]. split.
    + intros Hne. destruct results as [|v vs]; [|reflexivity].
      destruct (finditer r (MarkupParser.document_text self));
        [contradiction | discriminate].
    + intros Hnil. rewrite Hnil in Hlen.
      destruct results; [reflexivity | discriminate].
Qed.

Lemma all_occurrences_two_tier_witness :
  MarkupParser._find_by_regex (R := PyFrag.runtime)
    (Examples.parser_for (u "12 и 12")) (u "12") (u "addressee") true
  = Ok (map (fun m => Some (m_whole m))
            (finditer (Runtime := PyFrag.runtime) Examples.twelve
                      (u "12 и 12"))).
Proof.
  refine (proj1 (proj1 (all_occurrences_two_tier PyFrag.runtime
            (Examples.parser_for (u "12 и 12")) (u "12") (u "addressee")
            Examples.twelve _) _) _).
  - vm_compute; reflexivity.
  - vm_compute; reflexivity.
  - vm_compute; discriminate.
Defined.

(** C4 as stated fails: the pattern anchored with [\A] has no match in
    the whole document, and the line-by-line pass finds one in the second
    line, which becomes the result. *)
Lemma fallback_finds_a_match :
  exists r : PyFrag.program,
    re_compile (Runtime := PyFrag.runtime)
      Examples.anchored_pattern MarkupParser.all_flags = Some r
    /\ finditer (Runtime := PyFrag.runtime) r Examples.anchored_document = []
    /\ MarkupParser.lines_whole (R := PyFrag.runtime) r
         (MarkupParser.document_lines
            (Examples.parser_for Examples.anchored_document))
       = [Some (u "12")]
    /\ MarkupParser._find_by_regex (R := PyFrag.runtime)
         (Examples.parser_for Examples.anchored_document)
         Examples.anchored_pattern (u "addressee") true
       = Ok [Some (u "12")].
Proof.
  eexists. split; [vm_compute; reflexivity|].
  repeat split; vm_compute; reflexivity.
Qed.

(** ** Determinism of [parse_document] *)

(** ** Sections *)

Section SectionFacts.
Context {R : Runtime}.

Lemma sections_loop_absent (text : str)
    (items : list (str * RegexParser.pattern_info)) (name : str) :
  ~ In name (map fst items) ->
  forall acc result,
    RegexParser.sections_loop text items acc = Ok result ->
    dget result name = dget acc name.
Proof.
  induction items as [|[k info] rest IH]; intros Hnot acc result H.
  - inversion H; reflexivity.
  - cbn [RegexParser.sections_loop] in H.
    destruct (RegexParser.section_entry text info) as [entry | e];
      [|discriminate].
    cbn [bind] in H. apply IH in H; [|intros ?; apply Hnot; now right].
    rewrite H. destruct entry; [|reflexivity].
    apply dget_dset_other. intros ->. apply Hnot. now left.
Qed.

Lemma sections_loop_lookup (text : str)
    (items : list (str * RegexParser.pattern_info)) (name : str)
    (info : RegexParser.pattern_info) :
  NoDup (map fst items) -> In (name, info) items ->
  forall acc result,
    RegexParser.sections_loop text items acc = Ok result ->
    exists entry,
      RegexParser.section_entry text info = Ok entry
      /\ dget result name
         = match entry with Some v => Some v | None => dget acc name end.
Proof.
  induction items as [|[k i0] rest IH]; intros Hnd Hin acc result H;
    [contradiction|].
  inversion Hnd as [|? ? Hk Hrest]; subst.
  cbn [RegexParser.sections_loop] in H.
  destruct (RegexParser.section_entry text i0) as [entry | e] eqn:E;
    [|discriminate].
  cbn [bind] in H. destruct Hin as [Eq | Hin].
  - inversion Eq; subst k i0. exists entry. split; [assumption|].
    rewrite (sections_loop_absent text rest name Hk _ _ H).
    destruct entry; [apply dget_dset_same | reflexivity].
  - destruct (IH Hrest Hin _ _ H) as [entry' [E' Hget]].
    exists entry'. split; [assumption|]. rewrite Hget.
    destruct entry'; [reflexivity|]. destruct entry; [|reflexivity].
    apply dget_dset_other. intros ->. apply Hk.
    change name with (fst (name, info)). now apply in_map.
Qed.

Lemma section_entry_no_match (text : str) (info : RegexParser.pattern_info) :
  truthy (RegexParser.extract_with_pattern text info) = false ->
  RegexParser.section_entry text info = Ok None.
Proof. intros H. unfold RegexParser.section_entry. now rewrite H. Qed.

Lemma section_entry_no_subsections (text : str)
    (info : RegexParser.pattern_info) (subsection_pattern : str) :
  truthy (RegexParser.extract_with_pattern text info) = true ->
  RegexParser.extraction_method info = Some (u "structured_subsections") ->
  RegexParser.subsection_pattern info = Some subsection_pattern ->
  RegexParser.finditer_in subsection_pattern
    (RegexParser.extract_with_pattern text info) = Ok [] ->
  RegexParser.section_entry text info
  = Ok (Some (RegexParser.extract_with_pattern text info)).
Proof.
  intros Ht Hm Hs Hf. unfold RegexParser.section_entry.
  rewrite Ht, Hm, Hs. cbn [negb getd]. rewrite str_eqb_refl, Hf. reflexivity.
Qed.

Lemma section_entry_plain (text : str) (info : RegexParser.pattern_info) :
  truthy (RegexParser.extract_with_pattern text info) = true ->
  RegexParser.subsection_pattern info = None ->
  RegexParser.section_entry text info
  = Ok (Some (RegexParser.extract_with_pattern text info)).
Proof.
  intros Ht Hs. unfold RegexParser.section_entry.
  rewrite Ht, Hs. cbn [negb]. now destruct (str_eqb _ _).
Qed.
End SectionFacts.

(** C5, as the code has it.  A section whose body fails to match is
    absent from the sections map in both parsers.  When the body matches
    and the subsection pass finds no subsection, [RegexParser] stores the
    plain body, while [MarkupParser] stores the record of the full text
    and of an empty subsections map. *)
Theorem section_without_subsections :
  (forall (R : Runtime) (self : RegexParser.patterns) (text : str)
          (items : list (str * RegexParser.pattern_info)) (name : str)
          (info : RegexParser.pattern_info) (result : dict),
      RegexParser.sections self = Some items ->
      NoDup (map fst items) ->
      In (name, info) items ->
      RegexParser.extract_sections self text = Ok result ->
      (truthy (RegexParser.extract_with_pattern text info) = false ->
       dget result name = None)
      /\ (forall subsection_pattern : str,
             truthy (RegexParser.extract_with_pattern text info) = true ->
             RegexParser.extraction_method info
             = Some (u "structured_subsections") ->
             RegexParser.subsection_pattern info = Some subsection_pattern ->
             RegexParser.finditer_in subsection_pattern
               (RegexParser.extract_with_pattern text info) = Ok [] ->
             dget result name
             = Some (RegexParser.extract_with_pattern text info)))
  /\ (forall (R : Runtime) (self : MarkupParser.MarkupParser)
             (content : list str) (name start_marker end_marker : str)
             (subsection_pattern : option str),
         MarkupParser.section_markers content
         = (Some start_marker, Some end_marker, subsection_pattern) ->
         start_marker <> [] -> end_marker <> [] ->
         (MarkupParser._extract_text_between self start_marker end_marker = []
          -> MarkupParser._parse_section self content name = Ok self)
         /\ (MarkupParser._extract_text_between self start_marker end_marker
             <> [] ->
             (if MarkupParser.truthy_opt subsection_pattern
              then MarkupParser._extract_subsections
                     (MarkupParser._extract_text_between
                        self start_marker end_marker)
                     (getd subsection_pattern [])
              else Ok []) = Ok [] ->
             MarkupParser._parse_section self content name
             = Ok (MarkupParser.set_section self name
                     {| MarkupParser.full_text :=
                          MarkupParser._extract_text_between
                            self start_marker end_marker;
                        MarkupParser.subsections := [] |}))).
Proof.
  split.
  - intros R self text items name info result Hitems Hnd Hin Hres.
    unfold RegexParser.extract_sections in Hres. rewrite Hitems in Hres.
    destruct (sections_loop_lookup text items name info Hnd Hin _ _ Hres)
      as [entry [Hentry Hget]].
    split.
    + intros Hf. rewrite (section_entry_no_match text info Hf) in Hentry.
      inversion Hentry; subst. assumption.
    + intros sp Ht Hm Hs Hf.
      rewrite (section_entry_no_subsections text info sp Ht Hm Hs Hf)
        in Hentry.
      inversion Hentry; subst. assumption.
  - intros R self content name start_marker end_marker subsection_pattern
           Hmarkers Hs He.
    unfold MarkupParser._parse_section. rewrite Hmarkers.
    destruct start_marker as [|c1 s1]; [contradiction|].
    destruct end_marker as [|c2 s2]; [contradiction|].
    split.
    + intros ->. reflexivity.
    + intros Hne Hsub.
      destruct (MarkupParser._extract_text_between self (c1 :: s1) (c2 :: s2))
        as [|c t] eqn:E; [contradiction|].
      rewrite Hsub. reflexivity.
Qed.

Lemma section_without_subsections_witness :
  RegexParser.extract_sections (R := PyFrag.runtime)
    Examples.intro_spec Examples.intro_text
  = Ok [(u "intro", VStr (u "body"))]
  /\ dget [(u "intro", VStr (u "body"))] (u "intro")
     = Some (RegexParser.extract_with_pattern (R := PyFrag.runtime)
               Examples.intro_text Examples.intro_info).
Proof.
  split; [vm_compute; reflexivity|].
  refine (proj2 (proj1 section_without_subsections PyFrag.runtime
            Examples.intro_spec Examples.intro_text
            [(u "intro", Examples.intro_info)] (u "intro")
            Examples.intro_info
            [(u "intro", VStr (u "body"))] eq_refl _ _ _)
            (u "#(.)(.)") _ eq_refl eq_refl _).
  - repeat constructor; simpl; tauto.
  - left; reflexivity.
  - vm_compute; reflexivity.
  - vm_compute; reflexivity.
  - vm_compute; reflexivity.
Defined.

(** C5 as stated fails in [MarkupParser]: the body of the section is
    found, the subsection pattern has no match in it, and the section is
    stored as the dictionary of its full text and of an empty subsections
    map, not as the plain body text. *)
Lemma markup_section_keeps_subsections_key :
  exists self : MarkupParser.MarkupParser,
    MarkupParser._parse_section (R := PyFrag.runtime)
      (Examples.parser_for Examples.plain_section_document)
      Examples.plain_section_markup (u "intro") = Ok self
    /\ option_map MarkupParser.section_value
         (dict_get str_eqb
            (MarkupParser.sections (MarkupParser.result self)) (u "intro"))
       = Some (VDict [(u "full_text", VStr (u "body"));
                      (u "subsections", VDict [])])
    /\ option_map MarkupParser.section_value
         (dict_get str_eqb
            (MarkupParser.sections (MarkupParser.result self)) (u "intro"))
       <> Some (VStr (u "body")).
Proof.
  eexists. split; [vm_compute; reflexivity|].
  split; vm_compute; [reflexivity | discriminate].
Qed.

(** ** The fragment engine keeps the promise on spans *)

Lemma spans_from_earlier (text : str) (ms : list rmatch) (p p' : nat) :
  p' <= p ->
  MarkupParser.spans_from text p ms = true ->
  MarkupParser.spans_from text p' ms = true.
Proof.
  intros Hle. destruct ms as [|m ms]; [reflexivity|].
  cbn [MarkupParser.spans_from]. rewrite !andb_true_iff, !Nat.leb_le.
  intuition lia.
Qed.

Lemma match_atoms_length (d : bool) (ats : list PyFrag.atom) :
  forall s, PyFrag.match_atoms d ats s = true ->
            List.length ats <= List.length s.
Proof.
  induction ats as [|a ats IH]; intros s H; [simpl; lia|].
  destruct s as [|x s]; [destruct a; discriminate|].
  destruct a; cbn [PyFrag.match_atoms] in H;
    apply andb_true_iff in H as [_ H]; apply IH in H; simpl; lia.
Qed.

Lemma match_at_span (prog : PyFrag.program) (text : str) (pos : nat)
    (m : rmatch) :
  pos <= List.length text ->
  PyFrag.match_at prog pos (skipn pos text) = Some m ->
  m_start m = pos
  /\ m_end m = pos + List.length (PyFrag.atoms prog)
  /\ m_end m <= List.length text
  /\ m_whole m = slice text (m_start m) (m_end m).
Proof.
  intros Hpos H. unfold PyFrag.match_at in H.
  destruct (PyFrag.match_atoms _ _ _) eqn:E; [|discriminate].
  apply match_atoms_length in E. rewrite length_skipn in E.
  inversion H; subst m; cbn.
  repeat split; try lia. unfold slice. f_equal. lia.
Qed.

Lemma scan_spans (prog : PyFrag.program) (text : str) (fuel : nat) :
  forall pos,
    pos <= List.length text ->
    MarkupParser.spans_from text pos
      (PyFrag.scan prog fuel pos (skipn pos text)) = true.
Proof.
  induction fuel as [|fuel IH]; intros pos Hpos; [reflexivity|].
  cbn [PyFrag.scan].
  assert (forall x rest, skipn pos text = x :: rest ->
            rest = skipn (S pos) text /\ S pos <= List.length text)
    as Hstep.
  { intros x rest E. split.
    - rewrite <- (Nat.add_1_l pos), <- skipn_skipn, E. reflexivity.
    - apply (f_equal (@List.length char)) in E.
      rewrite length_skipn in E. simpl in E. lia. }
  destruct (PyFrag.match_at prog pos (skipn pos text)) as [m|] eqn:E.
  - destruct (match_at_span prog text pos m Hpos E)
      as [Hs [He [Hend Hwhole]]].
    cbn [MarkupParser.spans_from].
    rewrite Hwhole, str_eqb_refl, Hs, He.
    rewrite He in Hend.
    rewrite (proj2 (Nat.leb_le pos pos)) by lia.
    rewrite (proj2 (Nat.leb_le pos _)) by lia.
    rewrite (proj2 (Nat.leb_le _ (List.length text))) by lia.
    cbn [andb].
    destruct (List.length (PyFrag.atoms prog)) as [|n] eqn:En.
    + destruct (skipn pos text) as [|x rest] eqn:Es; [reflexivity|].
      destruct (Hstep x rest eq_refl) as [-> Hle].
      apply (spans_from_earlier text _ (S pos)); [lia|]. now apply IH.
    + rewrite skipn_skipn. rewrite (Nat.add_comm (S n) pos).
      apply IH. lia.
  - destruct (skipn pos text) as [|x rest] eqn:Es; [reflexivity|].
    destruct (Hstep x rest eq_refl) as [-> Hle].
    apply (spans_from_earlier text _ (S pos)); [lia|]. now apply IH.
Qed.

(** Every pattern of the fragment yields ordered spans on every text. *)
Lemma frag_finditer_ordered (prog : PyFrag.program) (text : str) :
  MarkupParser.ordered_spans text
    (finditer (Runtime := PyFrag.runtime) prog text) = true.
Proof.
  unfold MarkupParser.ordered_spans. cbn [finditer PyFrag.runtime].
  unfold PyFrag.frag_finditer. destruct (PyFrag.anchored prog).
  - destruct (PyFrag.match_at prog 0 text) as [m|] eqn:E; [|reflexivity].
    destruct (match_at_span prog text 0 m (Nat.le_0_l _) E)
      as [Hs [He [Hend Hwhole]]].
    cbn [MarkupParser.spans_from].
    rewrite Hwhole, str_eqb_refl.
    rewrite (proj2 (Nat.leb_le 0 _)) by lia.
    rewrite (proj2 (Nat.leb_le (m_start m) (m_end m))) by lia.
    rewrite (proj2 (Nat.leb_le _ (List.length text))) by lia.
    reflexivity.
  - apply (scan_spans prog text _ 0). lia.
Qed.

(** ** Subsection boundaries of [_extract_subsections] *)

Lemma opt_str_eqb_eq (a b : option str) :
  MarkupParser.opt_str_eqb a b = true <-> a = b.
Proof.
  destruct a as [x|], b as [y|]; simpl;
    try (split; [discriminate | discriminate]); try tauto.
  rewrite str_eqb_eq. split; [intros -> | intros H; inversion H]; reflexivity.
Qed.

Lemma slice_skipn (t : str) (a b : nat) :
  a <= b -> slice t a b ++ skipn b t = skipn a t.
Proof.
  intros H. unfold slice.
  replace (skipn b t) with (skipn (b - a) (skipn a t))
    by (rewrite skipn_skipn; f_equal; lia).
  apply firstn_skipn.
Qed.

Lemma slice_to_end (t : str) (a : nat) :
  slice t a (List.length t) = skipn a t.
Proof.
  unfold slice. apply firstn_all2. rewrite length_skipn. lia.
Qed.

Lemma group_one (m : rmatch) :
  m_groups m <> [] -> group m 1 = Ok (nth 0 (m_groups m) None).
Proof.
  intros H. rewrite group_in_range; [reflexivity|].
  destruct (m_groups m); [contradiction | simpl; lia].
Qed.

Section Boundaries.
Context {R : Runtime}.
Variables (section_text : str) (matches : list rmatch).

(** The stored body of the match of index [i]. *)
Let body (i : nat) (m : rmatch) : str :=
  strip (slice section_text (m_end m)
               (MarkupParser.end_pos_at section_text matches i)).

Let label (m : rmatch) : option str := nth 0 (m_groups m) None.

Lemma subsections_loop_lookup (todo : list rmatch) :
  Forall (fun m => m_groups m <> []) todo ->
  forall i acc,
  exists subsections,
    MarkupParser.subsections_loop section_text matches i todo acc
    = Ok subsections
    /\ (forall k m,
           nth_error todo k = Some m ->
           (forall k' m', k < k' -> nth_error todo k' = Some m' ->
                          label m' <> label m) ->
           dict_get MarkupParser.opt_str_eqb subsections (label m)
           = Some (body (i + k) m))
    /\ (forall key,
           (forall m, In m todo -> label m <> key) ->
           dict_get MarkupParser.opt_str_eqb subsections key
           = dict_get MarkupParser.opt_str_eqb acc key).
Proof.
  induction 1 as [|m0 rest Hg _ IH]; intros i acc.
  - exists acc. split; [reflexivity|]. split.
    + intros [|k] m Hk; discriminate.
    + reflexivity.
  - cbn [MarkupParser.subsections_loop]. rewrite (group_one m0 Hg).
    cbn [bind].
    destruct (IH (S i)
                (dict_set MarkupParser.opt_str_eqb acc (label m0) (body i m0)))
      as [subs [Hrun [Hlook Hframe]]].
    exists subs. split; [exact Hrun|]. split.
    + intros [|k] m Hk Hlater.
      * inversion Hk; subst m. rewrite Nat.add_0_r.
        rewrite Hframe.
        -- apply dict_get_set_same, opt_str_eqb_eq.
        -- intros m' Hin. apply In_nth_error in Hin as [k' Hk'].
           apply (Hlater (S k') m'); [lia | exact Hk'].
      * replace (i + S k) with (S i + k) by lia.
        apply Hlook; [exact Hk|].
        intros k' m' Hlt Hk'. apply (Hlater (S k') m'); [lia | exact Hk'].
    + intros key Hkey. rewrite Hframe.
      * apply dict_get_set_other; [apply opt_str_eqb_eq|].
        apply Hkey. now left.
      * intros m Hin. apply Hkey. now right.
Qed.

Lemma regions_rebuild (todo : list rmatch) :
  forall i pos,
    (forall k, nth_error todo k = nth_error matches (i + k)) ->
    MarkupParser.spans_from section_text pos todo = true ->
    List.concat (map (MarkupParser.region section_text matches)
                (seq i (List.length todo)))
    = match todo with
      | m :: _ => skipn (m_start m) section_text
      | [] => []
      end.
Proof.
  induction todo as [|m rest IH]; intros i pos Hsuffix Hspans;
    [reflexivity|].
  cbn [List.length seq map List.concat].
  cbn [MarkupParser.spans_from] in Hspans.
  repeat (apply andb_true_iff in Hspans as [Hspans ?]).
  apply Nat.leb_le in Hspans.
  match goal with H : (m_start m <=? m_end m) = true |- _ =>
    apply Nat.leb_le in H end.
  match goal with H : str_eqb _ _ = true |- _ => apply str_eqb_eq in H end.
  rewrite (IH (S i) (m_end m)); [| |assumption].
  2:{ intros k. replace (S i + k) with (i + S k) by lia.
      rewrite <- Hsuffix. reflexivity. }
  assert (nth_error matches i = Some m) as Hhere.
  { rewrite <- (Nat.add_0_r i), <- Hsuffix. reflexivity. }
  assert (nth_error matches (i + 1) = nth_error rest 0) as Hthere.
  { rewrite <- Hsuffix. reflexivity. }
  unfold MarkupParser.region, MarkupParser.end_pos_at.
  rewrite Hhere, Hthere.
  match goal with H : m_whole m = _ |- _ => rewrite H end.
  rewrite <- app_assoc.
  destruct rest as [|m' rest']; cbn [nth_error].
  - rewrite slice_to_end, app_nil_r.
    rewrite <- (slice_skipn section_text (m_start m) (m_end m)) by assumption.
    reflexivity.
  - assert (m_end m <= m_start m') as Hnext.
    { match goal with H : MarkupParser.spans_from _ _ _ = true |- _ =>
        cbn [MarkupParser.spans_from] in H;
        repeat (apply andb_true_iff in H as [H ?]);
        apply Nat.leb_le in H; exact H end. }
    rewrite (slice_skipn section_text (m_end m) (m_start m') Hnext).
    apply slice_skipn. assumption.
Qed.
End Boundaries.

(** C3, as the code has it.  For the matches of the subsection pattern
    in document order, the region of a label runs from the end of its
    match to the start of the next match, or to the end of the text for
    the last one; the stored body is that region stripped of the
    whitespace around it (the last body stored for a repeated label
    wins); and the text before the first label followed by every label
    and its unstripped region is the section text. *)
Theorem subsection_boundaries (R : Runtime) (section_text pattern : str)
    (r : regex) :
  re_compile pattern
    {| IGNORECASE := false; MULTILINE := true; DOTALL := false |} = Some r ->
  MarkupParser.ordered_spans section_text (finditer r section_text) = true ->
  Forall (fun m => m_groups m <> []) (finditer r section_text) ->
  exists subsections,
    MarkupParser._extract_subsections section_text pattern = Ok subsections
    /\ (forall i m,
           nth_error (finditer r section_text) i = Some m ->
           MarkupParser.end_pos_at section_text (finditer r section_text) i
           = match nth_error (finditer r section_text) (S i) with
             | Some next => m_start next
             | None => List.length section_text
             end
           /\ ((forall j m', i < j ->
                   nth_error (finditer r section_text) j = Some m' ->
                   nth 0 (m_groups m') None <> nth 0 (m_groups m) None) ->
               dict_get MarkupParser.opt_str_eqb subsections
                        (nth 0 (m_groups m) None)
               = Some (strip (slice section_text (m_end m)
                                (MarkupParser.end_pos_at section_text
                                   (finditer r section_text) i)))))
    /\ firstn (match finditer r section_text with
               | m :: _ => m_start m
               | [] => List.length section_text
               end) section_text
       ++ List.concat (map (MarkupParser.region section_text
                         (finditer r section_text))
                      (seq 0 (List.length (finditer r section_text))))
       = section_text.
Proof.
  intros Hc Hspans Hgroups.
  unfold MarkupParser._extract_subsections. rewrite Hc.
  destruct (subsections_loop_lookup section_text (finditer r section_text)
              (finditer r section_text) Hgroups 0 [])
    as [subs [Hrun [Hlook _]]].
  exists subs. split; [exact Hrun|]. split.
  - intros i m Hi. split.
    + unfold MarkupParser.end_pos_at. now replace (i + 1) with (S i) by lia.
    + intros Hlater. apply (Hlook i m Hi Hlater).
  - rewrite (regions_rebuild section_text (finditer r section_text)
               (finditer r section_text) 0 0 (fun k => eq_refl) Hspans).
    destruct (finditer r section_text) as [|m ms].
    + rewrite app_nil_r. apply firstn_all.
    + apply firstn_skipn.
Qed.

Lemma subsection_boundaries_witness :
  exists subsections,
    MarkupParser._extract_subsections (R := PyFrag.runtime)
      Examples.section_text Examples.label_pattern = Ok subsections
    /\ dict_get MarkupParser.opt_str_eqb subsections (Some (u "a"))
       = Some (u "x").
Proof.
  destruct (subsection_boundaries PyFrag.runtime Examples.section_text
              Examples.label_pattern
              {| PyFrag.anchored := false; PyFrag.dotall := false;
                 PyFrag.atoms := [PyFrag.Lit 35%N; PyFrag.Dot];
                 PyFrag.groups := [(1, 1)] |})
    as [subs [Hrun [Hlook _]]].
  - vm_compute; reflexivity.
  - vm_compute; reflexivity.
  - vm_compute. repeat constructor; discriminate.
  - exists subs. split; [exact Hrun|].
    vm_compute in Hrun. inversion Hrun. vm_compute. reflexivity.
Defined.

(** C3 as stated fails: the stored bodies are stripped.  Between the
    labels [#a] and [#b] lies the text [ x] and a line break; the body
    stored for [a] is [x], so it does not end at the start of the next
    label, and the labels and stored bodies do not rebuild the section
    text. *)
Lemma stored_bodies_are_stripped :
  MarkupParser._extract_subsections (R := PyFrag.runtime)
    Examples.section_text Examples.label_pattern
  = Ok [(Some (u "a"), u "x"); (Some (u "b"), u "y")]
  /\ slice Examples.section_text 2 5 = u " x" ++ Examples.NL
  /\ slice Examples.section_text 2 5 <> u "x"
  /\ u "#a" ++ u "x" ++ u "#b" ++ u "y" <> Examples.section_text.
Proof. repeat split; vm_compute; try reflexivity; discriminate. Qed.

(** In [RegexParser.extract_sections] a subsection body is the second
    group of the match, stripped, wherever the next label starts: here
    the body stored for [a] is [x] while the next label starts three
    characters further. *)
Lemma regex_parser_body_is_second_group :
  RegexParser.section_entry (R := PyFrag.runtime) (u "S#a xy;#b z")
    {| RegexParser.pattern := Some (u "S(..........)");
       RegexParser.flags := None;
       RegexParser.extraction_method := Some (u "structured_subsections");
       RegexParser.subsection_pattern := Some (u "#(.) (.)") |}
  = Ok (Some (VDict [(u "full_text", VStr (u "#a xy;#b z"));
                     (u "subsections",
                      VDict [(u "a", VStr (u "x")); (u "b", VStr (u "z"))])])).
Proof. vm_compute; reflexivity. Qed.

(** * Further properties of [RegexParser] *)

(** ** Fields *)

Section FieldEntries.
Context {R : Runtime}.

Lemma extract_with_pattern_unusable (text : str)
    (info : RegexParser.pattern_info) :
  RegexParser.pattern info = None
  \/ RegexParser.pattern info = Some []
  \/ (exists p,
         RegexParser.pattern info = Some p
         /\ re_compile p
              (RegexParser.mk_flags (getd (RegexParser.flags info) []))
            = None) ->
  RegexParser.extract_with_pattern text info = VNone.
Proof.
  unfold RegexParser.extract_with_pattern.
  intros [-> | [-> | [p [-> Hc]]]]; try reflexivity.
  cbn [getd]. destruct p; [reflexivity|]. now rewrite Hc.
Qed.

Lemma dict_set_keys_nodup {V : Type} (d : list (str * V)) (k : str) (v : V) :
  NoDup (map fst d) -> NoDup (map fst (dict_set str_eqb d k v)).
Proof.
  induction d as [|[k' v'] d IH]; intros Hnd; simpl.
  - constructor; [intros [] | constructor].
  - inversion Hnd as [|? ? Hk Hd]; subst.
    destruct (str_eqb k' k) eqn:E; simpl; [constructor; assumption|].
    constructor; [|now apply IH].
    intros Hin. apply Hk. clear IH Hnd Hd Hk.
    induction d as [|[k0 v0] d IHd]; simpl in *.
    + destruct Hin as [<- | []]. now rewrite str_eqb_refl in E.
    + destruct (str_eqb k0 k) eqn:E0; simpl in Hin; [exact Hin|].
      destruct Hin as [-> | Hin]; [now left | right; now apply IHd].
Qed.

Lemma fields_fold_entries (text : str)
    (all items : list (str * RegexParser.pattern_info)) :
  (forall kv, In kv items -> In kv all) ->
  forall acc : dict,
    NoDup (map fst acc) ->
    Forall (fun kv : str * value =>
              truthy (snd kv) = true
              /\ exists info,
                  In (fst kv, info) all
                  /\ snd kv = RegexParser.extract_with_pattern text info)
           acc ->
    let result :=
      fold_left
        (fun (acc : dict) (kv : str * RegexParser.pattern_info) =>
           let result := RegexParser.extract_with_pattern text (snd kv) in
           if truthy result then dset acc (fst kv) result else acc)
        items acc in
    NoDup (map fst result)
    /\ Forall (fun kv : str * value =>
                 truthy (snd kv) = true
                 /\ exists info,
                     In (fst kv, info) all
                     /\ snd kv = RegexParser.extract_with_pattern text info)
              result.
Proof.
  induction items as [|[k info] rest IH]; intros Hsub acc Hnd Hall;
    [split; assumption|].
  cbn [fold_left fst snd].
  apply IH; [intros kv Hin; apply Hsub; now right | |];
    destruct (truthy (RegexParser.extract_with_pattern text info)) eqn:E;
    try assumption.
  - now apply dict_set_keys_nodup.
  - apply dict_set_forall; [assumption|]. split; [exact E|].
    exists info. split; [apply Hsub; now left | reflexivity].
Qed.
End FieldEntries.

(** X1. A field whose pattern is missing, empty or does not compile is
    left out, and the rest of its group is extracted as if the field
    were not in the specification. *)
Theorem malformed_pattern_is_skipped (R : Runtime) (text : str)
    (before after : list (str * RegexParser.pattern_info)) (key : str)
    (info : RegexParser.pattern_info)
    (self without : RegexParser.patterns) :
  RegexParser.pattern info = None
  \/ RegexParser.pattern info = Some []
  \/ (exists p,
         RegexParser.pattern info = Some p
         /\ re_compile p
              (RegexParser.mk_flags (getd (RegexParser.flags info) []))
            = None) ->
  (RegexParser.metadata self = Some (before ++ (key, info) :: after) ->
   RegexParser.metadata without = Some (before ++ after) ->
   RegexParser.extract_metadata self text
   = RegexParser.extract_metadata without text)
  /\ (RegexParser.technical_params self
      = Some (before ++ (key, info) :: after) ->
      RegexParser.technical_params without = Some (before ++ after) ->
      RegexParser.extract_technical_params self text
      = RegexParser.extract_technical_params without text).
Proof.
  intros Hbad.
  assert (truthy (RegexParser.extract_with_pattern text info) = false) as Hf
    by now rewrite (extract_with_pattern_unusable text info Hbad).
  unfold RegexParser.extract_metadata, RegexParser.extract_technical_params.
  split; intros -> ->; apply extract_fields_skip; assumption.
Qed.

(** X2. The maps of [extract_metadata] and [extract_technical_params]
    have no repeated key and hold no [None] and no empty value: every
    entry is the truthy extraction result of a descriptor with its key. *)
Theorem field_maps_hold_found_values (R : Runtime)
    (self : RegexParser.patterns) (text : str) :
  let extracted (items : list (str * RegexParser.pattern_info))
                (result : dict) :=
    NoDup (map fst result)
    /\ Forall (fun kv : str * value =>
                 truthy (snd kv) = true
                 /\ exists info,
                     In (fst kv, info) items
                     /\ snd kv = RegexParser.extract_with_pattern text info)
              result in
  extracted (getd (RegexParser.metadata self) [])
            (RegexParser.extract_metadata self text)
  /\ extracted (getd (RegexParser.technical_params self) [])
               (RegexParser.extract_technical_params self text).
Proof.
  cbv zeta.
  unfold RegexParser.extract_metadata, RegexParser.extract_technical_params,
    RegexParser.extract_fields.
  split.
  - destruct (RegexParser.metadata self) as [items|]; cbn [getd].
    + apply fields_fold_entries; auto; constructor.
    + split; constructor.
  - destruct (RegexParser.technical_params self) as [items|]; cbn [getd].
    + apply fields_fold_entries; auto; constructor.
    + split; constructor.
Qed.

Lemma malformed_pattern_is_skipped_witness :
  RegexParser.extract_metadata (R := PyFrag.runtime)
    MoreExamples.with_bad_pattern Examples.grade_text
  = RegexParser.extract_metadata (R := PyFrag.runtime)
      MoreExamples.without_bad_pattern Examples.grade_text.
Proof.
  refine (proj1 (malformed_pattern_is_skipped PyFrag.runtime
            Examples.grade_text []
            [(u "steel_grade", RegexParser.inline_info (u "68(..)") None)]
            (u "broken") (RegexParser.inline_info (u "(68") None)
            MoreExamples.with_bad_pattern MoreExamples.without_bad_pattern _)
            eq_refl eq_refl).
  right; right. exists (u "(68"). split; vm_compute; reflexivity.
Defined.

(** ** Sections and tables as a whole *)

Section Composition.
Context {R : Runtime}.

Lemma section_entry_simple (text : str) (info : RegexParser.pattern_info) :
  RegexParser.subsection_pattern info = None ->
  RegexParser.section_entry text info
  = Ok (if truthy (RegexParser.extract_with_pattern text info)
        then Some (RegexParser.extract_with_pattern text info)
        else None).
Proof.
  intros Hs. unfold RegexParser.section_entry. rewrite Hs.
  destruct (truthy _); cbn [negb]; [|reflexivity].
  now destruct (str_eqb _ _).
Qed.

Lemma sections_loop_simple (text : str)
    (items : list (str * RegexParser.pattern_info)) :
  Forall (fun kv => RegexParser.subsection_pattern (snd kv) = None) items ->
  forall acc,
    RegexParser.sections_loop text items acc
    = Ok (fold_left
            (fun (acc : dict) (kv : str * RegexParser.pattern_info) =>
               let result := RegexParser.extract_with_pattern text (snd kv) in
               if truthy result then dset acc (fst kv) result else acc)
            items acc).
Proof.
  induction 1 as [|[name info] rest Hinfo _ IH]; intros acc; [reflexivity|].
  cbn [RegexParser.sections_loop fold_left fst snd].
  cbn [snd] in Hinfo. rewrite (section_entry_simple text info Hinfo).
  cbn [bind]. rewrite IH. now destruct (truthy _).
Qed.

Lemma sections_loop_raises (text : str)
    (before after : list (str * RegexParser.pattern_info)) (name : str)
    (info : RegexParser.pattern_info) (e : exn) :
  Forall (fun kv => RegexParser.subsection_pattern (snd kv) = None) before ->
  RegexParser.section_entry text info = Raise e ->
  forall acc,
    RegexParser.sections_loop text (before ++ (name, info) :: after) acc
    = Raise e.
Proof.
  induction 1 as [|[n i] rest Hi _ IH]; intros Hraise acc.
  - cbn [app RegexParser.sections_loop]. now rewrite Hraise.
  - cbn [app RegexParser.sections_loop]. cbn [snd] in Hi.
    rewrite (section_entry_simple text i Hi). cbn [bind]. now apply IH.
Qed.

Lemma tables_loop_spec (text : str) (infos : list RegexParser.table_info) :
  forall acc tables,
    RegexParser.tables_loop text infos acc = Ok tables
    <-> exists new,
        tables = acc ++ new
        /\ Forall2 (fun info table_data =>
                      RegexParser.extract_table text info = Ok table_data)
                   infos new.
Proof.
  induction infos as [|info rest IH]; intros acc tables;
    cbn [RegexParser.tables_loop].
  - split.
    + intros H; inversion H; subst. exists []. split;
        [now rewrite app_nil_r | constructor].
    + intros [new [-> Hnew]]. inversion Hnew. now rewrite app_nil_r.
  - destruct (RegexParser.extract_table text info) as [td|e] eqn:E;
      cbn [bind].
    + rewrite IH. split.
      * intros [new [-> Hnew]]. exists (td :: new). split.
        -- now rewrite <- app_assoc.
        -- constructor; assumption.
      * intros [new [-> Hnew]]. inversion Hnew as [|? td' ? new' Htd Hrest];
          subst. rewrite E in Htd. inversion Htd; subst td'.
        exists new'. split; [now rewrite <- app_assoc | assumption].
    + split; [discriminate|].
      intros [new [_ Hnew]]. inversion Hnew as [|? td' ? new' Htd Hrest];
        subst. rewrite E in Htd. discriminate.
Qed.
End Composition.

(** X3. Sections without a subsection pattern are extracted exactly
    like the fields of a metadata group: whenever [extract_sections]
    returns, the sections map is the map [extract_metadata] computes
    from the same descriptors. *)
Theorem plain_sections_are_fields (R : Runtime)
    (self as_metadata : RegexParser.patterns) (text : str)
    (items : list (str * RegexParser.pattern_info)) (sections : dict) :
  RegexParser.sections self = Some items ->
  RegexParser.metadata as_metadata = Some items ->
  Forall (fun kv => RegexParser.subsection_pattern (snd kv) = None) items ->
  RegexParser.extract_sections self text = Ok sections ->
  sections = RegexParser.extract_metadata as_metadata text.
Proof.
  intros Hs Hm Hplain.
  unfold RegexParser.extract_sections, RegexParser.extract_metadata,
    RegexParser.extract_fields.
  rewrite Hs, Hm, sections_loop_simple by assumption.
  now intros [= <-].
Qed.

Lemma plain_sections_are_fields_witness :
  [(u "intro", VStr (u "body")); (u "outro", VStr (u "ed"))]
  = RegexParser.extract_metadata (R := PyFrag.runtime)
      MoreExamples.plain_sections_as_metadata (u "Abody и Zed").
Proof.
  refine (plain_sections_are_fields PyFrag.runtime
            MoreExamples.plain_sections_spec
            MoreExamples.plain_sections_as_metadata (u "Abody и Zed") _
            [(u "intro", VStr (u "body")); (u "outro", VStr (u "ed"))]
            eq_refl eq_refl _ _).
  - repeat constructor.
  - vm_compute; reflexivity.
Defined.

(** X4. A subsection pattern that does not compile is not caught: when
    the body of its section is found, [extract_sections] and with it
    [parse_document] raise, whatever the other descriptors are (the
    sections before it are plain ones here). *)
Theorem invalid_subsection_pattern_aborts (R : Runtime)
    (self : RegexParser.patterns) (text : str)
    (before after : list (str * RegexParser.pattern_info)) (name : str)
    (info : RegexParser.pattern_info) (subsection_pattern : str) :
  RegexParser.sections self = Some (before ++ (name, info) :: after) ->
  Forall (fun kv => RegexParser.subsection_pattern (snd kv) = None) before ->
  truthy (RegexParser.extract_with_pattern text info) = true ->
  RegexParser.extraction_method info = Some (u "structured_subsections") ->
  RegexParser.subsection_pattern info = Some subsection_pattern ->
  re_compile subsection_pattern
    {| IGNORECASE := false; MULTILINE := true; DOTALL := true |} = None ->
  RegexParser.extract_sections self text = Raise ReError
  /\ RegexParser.parse_document self text = Raise ReError.
Proof.
  intros Hs Hbefore Ht Hm Hsp Hc.
  assert (RegexParser.extract_sections self text = Raise ReError) as Hraise.
  { unfold RegexParser.extract_sections. rewrite Hs.
    apply sections_loop_raises; [assumption|].
    unfold RegexParser.section_entry, RegexParser.finditer_in.
    rewrite Ht, Hm, Hsp. cbn [negb getd]. rewrite str_eqb_refl, Hc.
    reflexivity. }
  split; [exact Hraise|].
  unfold RegexParser.parse_document. now rewrite Hraise.
Qed.

Lemma invalid_subsection_pattern_aborts_witness :
  RegexParser.extract_sections (R := PyFrag.runtime)
    MoreExamples.bad_subsection_spec Examples.intro_text = Raise ReError
  /\ RegexParser.parse_document (R := PyFrag.runtime)
       MoreExamples.bad_subsection_spec Examples.intro_text = Raise ReError.
Proof.
  refine (invalid_subsection_pattern_aborts PyFrag.runtime
            MoreExamples.bad_subsection_spec Examples.intro_text [] []
            (u "intro") MoreExamples.bad_subsection_info (u "(#")
            eq_refl _ _ eq_refl eq_refl _).
  - constructor.
  - vm_compute; reflexivity.
  - vm_compute; reflexivity.
Defined.

(** X5. [extract_tables] returns exactly when every descriptor's
    [extract_table] returns, and then holds one table per descriptor, in
    the order of the specification. *)
Theorem one_table_per_descriptor (R : Runtime) (self : RegexParser.patterns)
    (text : str) (infos : list RegexParser.table_info) (tables : list dict) :
  RegexParser.tables self = Some infos ->
  (RegexParser.extract_tables self text = Ok tables
   <-> Forall2 (fun info table_data =>
                  RegexParser.extract_table text info = Ok table_data)
               infos tables).
Proof.
  intros Hinfos. unfold RegexParser.extract_tables. rewrite Hinfos.
  rewrite tables_loop_spec. split.
  - intros [new [-> Hnew]]. exact Hnew.
  - intros H. exists tables. split; [reflexivity | exact H].
Qed.

Lemma one_table_per_descriptor_witness :
  Forall2 (fun info table_data =>
             RegexParser.extract_table (R := PyFrag.runtime)
               (u "no table here") info = Ok table_data)
          [Examples.kv_table; Examples.composition_table]
          [RegexParser.initial_table_data Examples.kv_table;
           RegexParser.initial_table_data Examples.composition_table].
Proof.
  refine (proj1 (one_table_per_descriptor PyFrag.runtime
            MoreExamples.two_tables_spec (u "no table here")
            [Examples.kv_table; Examples.composition_table] _ eq_refl) _).
  vm_compute; reflexivity.
Defined.

(** ** What [extract_table] keeps and when it raises *)


Lemma data_key_is_not_identity_key (name k : str) :
  In name [u "columns"; u "rows"; u "data"; u "raw_data"; u "headers";
           u "values"; u "raw_text"; u "distances_mm"; u "min_hrc";
           u "max_hrc"] ->
  In k [u "table_name"; u "table_number"; u "description"] ->
  name <> k.
Proof.
  intros Hn Hk E. subst k. cbn [In] in Hn, Hk.
  repeat match goal with
         | H : _ \/ _ |- _ => destruct H as [H | H]
         | H : False |- _ => destruct H
         end;
    subst name; vm_compute in Hk; discriminate Hk.
Qed.

Section TableKeys.
Context {R : Runtime}.
Variable k : str.
Hypothesis identity :
  In k [u "table_name"; u "table_number"; u "description"].

Ltac data_key :=
  cbn [In]; repeat (first [left; reflexivity | right]).

Lemma dset_keeps (d : dict) (name : str) (v : value) :
  In name [u "columns"; u "rows"; u "data"; u "raw_data"; u "headers";
           u "values"; u "raw_text"; u "distances_mm"; u "min_hrc";
           u "max_hrc"] ->
  dget (dset d name v) k = dget d k.
Proof.
  intros Hn. apply dget_dset_other.
  now apply data_key_is_not_identity_key.
Qed.

Lemma set_item_in_keeps (d d' : dict) (outer key : str) (v : value) :
  In outer [u "columns"; u "rows"; u "data"; u "raw_data"; u "headers";
            u "values"; u "raw_text"; u "distances_mm"; u "min_hrc";
            u "max_hrc"] ->
  RegexParser.set_item_in d outer key v = Ok d' ->
  dget d' k = dget d k.
Proof.
  intros Hn. unfold RegexParser.set_item_in.
  destruct (dget d outer) as [[ | | | | | |inner]|]; try discriminate.
  intros H; inversion H; subst. now apply dset_keeps.
Qed.

Lemma extract_structured_keeps (text : str)
    (structure : list (str * RegexParser.pattern_info)) (d d' : dict) :
  RegexParser.extract_structured text structure d = Ok d' ->
  dget d' k = dget d k.
Proof.
  unfold RegexParser.extract_structured. cbn [fold_left bind].
  set (d0 := match dict_get str_eqb structure (u "elements") with
             | Some info => _
             | None => d
             end).
  assert (dget d0 k = dget d k) as H0.
  { subst d0. destruct (dict_get str_eqb structure (u "elements"));
      [|reflexivity].
    destruct (truthy _); [|reflexivity]. apply dset_keeps. data_key. }
  rewrite <- H0. clearbody d0. clear H0.
  assert (forall (row_name : str) (a b : dict),
             match dict_get str_eqb structure row_name with
             | Some info =>
               if truthy (RegexParser.extract_with_pattern text info)
               then RegexParser.set_item_in a (u "rows") row_name
                      (RegexParser.strs
                         (RegexParser.row_values
                            (RegexParser.text_of
                               (RegexParser.extract_with_pattern text info))))
               else Ok a
             | None => Ok a
             end = Ok b ->
             dget b k = dget a k) as Hrow.
  { intros row_name a b.
    destruct (dict_get str_eqb structure row_name); [|now intros [= ->]].
    destruct (truthy _); [|now intros [= ->]].
    apply set_item_in_keeps. data_key. }
  destruct (match dict_get str_eqb structure (u "recommended") with
            | Some info => _ | None => _ end) as [d1|] eqn:E1;
    [|discriminate].
  cbn [bind].
  destruct (match dict_get str_eqb structure (u "certificate") with
            | Some info => _ | None => _ end) as [d2|] eqn:E2;
    [|discriminate].
  cbn [bind]. intros E3.
  rewrite (Hrow _ _ _ E3), (Hrow _ _ _ E2), (Hrow _ _ _ E1). reflexivity.
Qed.

Lemma value_patterns_keep (text : str) (vps : list (str * str)) :
  forall d d',
    fold_left
      (fun (acc : res dict) (kv : str * str) =>
         table_data <- acc ;;
         let result :=
           RegexParser.extract_with_pattern text
             (RegexParser.inline_info (snd kv) None) in
         if truthy result
         then RegexParser.set_item_in table_data (u "data") (fst kv) result
         else Ok table_data)
      vps (Ok d) = Ok d' ->
    dget d' k = dget d k.
Proof.
  induction vps as [|kv vps IH]; intros d d'; cbn [fold_left bind].
  - now intros [= ->].
  - destruct (truthy _).
    + destruct (RegexParser.set_item_in d (u "data") (fst kv) _)
        as [d1|e] eqn:E.
      * intros H. rewrite (IH _ _ H).
        apply (set_item_in_keeps d d1 (u "data") _ _ ltac:(data_key) E).
      * intros H. exfalso. clear - H.
        induction vps as [|kv' vps IHv]; [discriminate|]. now apply IHv.
    + apply IH.
Qed.

Lemma extract_old_keeps (text : str) (table_info : RegexParser.table_info)
    (d d' : dict) :
  RegexParser.extract_old text table_info d = Ok d' ->
  dget d' k = dget d k.
Proof.
  unfold RegexParser.extract_old.
  set (d1 := match RegexParser.header_pattern table_info with
             | Some hp => _ | None => d end).
  assert (dget d1 k = dget d k) as H1.
  { subst d1. destruct (RegexParser.header_pattern table_info);
      [|reflexivity].
    destruct (truthy _); [|reflexivity].
    destruct (RegexParser.extract_with_pattern _ _);
      apply dset_keeps; data_key. }
  set (d2 := match RegexParser.row_names table_info with
             | Some rn => _ | None => d1 end).
  assert (dget d2 k = dget d k) as H2.
  { subst d2. destruct (RegexParser.row_names table_info);
      [|exact H1]. rewrite dset_keeps by data_key. exact H1. }
  clearbody d2. clear H1. clearbody d1.
  destruct (RegexParser.value_patterns table_info) as [vps|].
  - intros H. now rewrite (value_patterns_keep _ _ _ _ H).
  - now intros [= <-].
Qed.

Lemma strategies_keep (result : value) (d d' : dict) :
  (RegexParser.extract_table_2 result d = Ok d' -> dget d' k = dget d k)
  /\ (RegexParser.extract_key_value result d = Ok d' -> dget d' k = dget d k)
  /\ (RegexParser.extract_table_4 result d = Ok d' -> dget d' k = dget d k)
  /\ (RegexParser.extract_table_5 result d = Ok d' -> dget d' k = dget d k)
  /\ (RegexParser.extract_table_6 result d = Ok d' -> dget d' k = dget d k)
  /\ dget (RegexParser.extract_simple result d) k = dget d k
  /\ dget (RegexParser.extract_text_block result d) k = dget d k.
Proof.
  repeat split.
  - unfold RegexParser.extract_table_2.
    destruct (RegexParser.result_strip result) as [s|]; [|discriminate].
    cbn [bind]. destruct (6 <=? _).
    + repeat match goal with
             | |- context [index ?l ?i] =>
               destruct (index l i); [|discriminate]; cbn [bind]
             end.
      intros [= <-]. now rewrite !dset_keeps by data_key.
    + intros [= <-]. now rewrite dset_keeps by data_key.
  - unfold RegexParser.extract_key_value.
    destruct (RegexParser.result_strip result); [|discriminate].
    cbn [bind]. intros [= <-]. now rewrite dset_keeps by data_key.
  - unfold RegexParser.extract_table_4.
    destruct (RegexParser.result_strip result); [|discriminate].
    cbn [bind]. destruct (RegexParser.table_4_loop _ _ _ _);
      [|discriminate].
    cbn [bind]. intros [= <-]. now rewrite !dset_keeps by data_key.
  - unfold RegexParser.extract_table_5.
    destruct (RegexParser.result_strip result); [|discriminate].
    cbn [bind]. intros [= <-]. now rewrite !dset_keeps by data_key.
  - unfold RegexParser.extract_table_6.
    destruct (RegexParser.result_strip result); [|discriminate].
    cbn [bind]. intros [= <-]. now rewrite dset_keeps by data_key.
  - unfold RegexParser.extract_simple.
    destruct result; now rewrite dset_keeps by data_key.
  - unfold RegexParser.extract_text_block.
    now rewrite dset_keeps by data_key.
Qed.

Lemma extract_table_keeps (text : str) (table_info : RegexParser.table_info)
    (table_data : dict) :
  RegexParser.extract_table text table_info = Ok table_data ->
  dget table_data k = dget (RegexParser.initial_table_data table_info) k.
Proof.
  unfold RegexParser.extract_table.
  destruct (if str_eqb _ (u "structured") then _ else None).
  - apply extract_structured_keeps.
  - destruct (RegexParser.t_pattern table_info) as [p|];
      [|apply extract_old_keeps].
    set (result := RegexParser.extract_with_pattern text _).
    destruct (strategies_keep result
                (RegexParser.initial_table_data table_info) table_data)
      as [H2 [Hkv [H4 [H5 [H6 [Hs Ht]]]]]].
    repeat match goal with
           | |- context [if str_eqb ?a ?b then _ else _] =>
             destruct (str_eqb a b);
               [destruct (truthy result);
                [first [assumption
                       | intros [= <-]; first [exact Hs | exact Ht]]
                | now intros [= <-]]|]
           end.
    apply extract_old_keeps.
Qed.
End TableKeys.

(** X6. Whenever [extract_table] returns, the identity fields of the
    result are the ones it started from: the name, number and
    description of the descriptor, or their defaults; no strategy
    overwrites them. *)
Theorem identity_fields_are_kept (R : Runtime) (text : str)
    (table_info : RegexParser.table_info) (table_data : dict) :
  RegexParser.extract_table text table_info = Ok table_data ->
  dget table_data (u "table_name")
  = Some (getd (RegexParser.table_name table_info) (VStr (u "unknown")))
  /\ dget table_data (u "table_number")
     = Some (getd (RegexParser.table_number table_info) (VStr []))
  /\ dget table_data (u "description")
     = Some (getd (RegexParser.description table_info) (VStr [])).
Proof.
  intros H. repeat split.
  - rewrite (extract_table_keeps (u "table_name")
               ltac:(cbn [In]; auto) _ _ _ H). reflexivity.
  - rewrite (extract_table_keeps (u "table_number")
               ltac:(cbn [In]; auto) _ _ _ H). reflexivity.
  - rewrite (extract_table_keeps (u "description")
               ltac:(cbn [In]; auto) _ _ _ H). reflexivity.
Qed.

Lemma identity_fields_are_kept_witness :
  dget (dset (RegexParser.initial_table_data Examples.kv_table)
             (u "data") (VDict [(u "Вес", VStr (u "120"))]))
       (u "table_name")
  = Some (getd (RegexParser.table_name Examples.kv_table)
               (VStr (u "unknown"))).
Proof.
  refine (proj1 (identity_fields_are_kept PyFrag.runtime
            (u "T:" ++ Examples.kv_block) Examples.kv_table _ _)).
  vm_compute; reflexivity.
Defined.



(** ** The line-based strategies *)

Section Pairs.
Context {R : Runtime}.

Lemma table_6_parts_pairs (parts : list str) :
  forall (current_row : list str) (data : list value),
    List.length current_row <= 1 ->
    List.length (fst (RegexParser.table_6_parts parts current_row data)) <= 1
    /\ forall later : list str,
        snd (RegexParser.table_6_parts parts current_row data)
        ++ map TableRules.record_6
             (TableRules.pairs
                (fst (RegexParser.table_6_parts parts current_row data)
                 ++ later))
        = data
          ++ map TableRules.record_6
               (TableRules.pairs
                  (current_row ++ filter RegexParser.is_number parts
                   ++ later)).
Proof.
  unfold RegexParser.table_6_parts.
  induction parts as [|part parts IH]; intros cr data Hlen;
    cbn [fold_left filter].
  - split; [assumption | reflexivity].
  - destruct (RegexParser.is_number part) eqn:E; [|now apply IH].
    destruct cr as [|a [|b cr]]; [| |simpl in Hlen; lia].
    + cbn [app List.length Nat.eqb].
      destruct (IH [part] data (le_n 1)) as [H1 H2].
      split; [exact H1|]. intros later. now rewrite H2.
    + cbn [app List.length Nat.eqb nth].
      destruct (IH [] (data ++ [TableRules.record_6 (a, part)])
                  (Nat.le_0_l 1)) as [H1 H2].
      split; [exact H1|]. intros later.
      unfold TableRules.record_6 in H2 at 3. cbn [fst snd] in H2.
      rewrite H2. cbn [app TableRules.pairs map].
      now rewrite <- app_assoc.
Qed.

Lemma table_6_loop_pairs (lines : list str) :
  forall (current_row : list str) (data : list value),
    List.length current_row <= 1 ->
    RegexParser.table_6_loop lines current_row data
    = data
      ++ map TableRules.record_6
           (TableRules.pairs
              (current_row ++ TableRules.numeric_tokens_6 lines)).
Proof.
  induction lines as [|line lines IH]; intros cr data Hlen.
  - cbn [RegexParser.table_6_loop TableRules.numeric_tokens_6 flat_map].
    rewrite app_nil_r.
    destruct cr as [|a [|b cr]]; [| |simpl in Hlen; lia];
      cbn [TableRules.pairs map]; now rewrite app_nil_r.
  - cbn [RegexParser.table_6_loop TableRules.numeric_tokens_6 flat_map].
    fold (TableRules.numeric_tokens_6 lines).
    unfold TableRules.is_skipped_6.
    destruct (negb (RegexParser.nonempty (strip line))
              || str_eqb (strip line) (u ";")); cbn [orb];
      [now apply IH|].
    destruct (contains (strip line) (u "Диаметр")
              || contains (strip line) (u "Степень")
              || contains (strip line) (u "проката")
              || contains (strip line) (u "обжатия")); [now apply IH|].
    destruct (table_6_parts_pairs (split_ws (strip line)) cr data Hlen)
      as [H1 H2].
    destruct (RegexParser.table_6_parts (split_ws (strip line)) cr data)
      as [cr' data'].
    cbn [fst snd] in H1, H2.
    rewrite (IH cr' data' H1), H2. reflexivity.
Qed.
End Pairs.

(** X9. Numeric-pair table: the records of [data] are the numeric tokens
    of the block taken two at a time across line breaks, in order, the
    first of each pair as diameter and the second as compression degree;
    empty lines, lines [;] and lines with a header word give no token,
    and a last token without partner is dropped. *)
Theorem numeric_pair_table (R : Runtime) (block : str) (table_data : dict) :
  RegexParser.extract_table_6 (VStr block) table_data
  = Ok (dset table_data (u "data")
          (VList (map TableRules.record_6
                    (TableRules.pairs
                       (TableRules.numeric_tokens_6
                          (split_on LF (strip block))))))).
Proof.
  unfold RegexParser.extract_table_6. cbn [RegexParser.result_strip bind].
  rewrite table_6_loop_pairs by (simpl; lia). reflexivity.
Qed.

Lemma pair_lines_two (key value : str) (rest : list str) (data : dict) :
  RegexParser.pair_lines (key :: value :: rest) data
  = if RegexParser.rejected value
    then RegexParser.pair_lines (value :: rest) data
    else RegexParser.pair_lines rest (dset data key (VStr value)).
Proof. reflexivity. Qed.

(** X10. Key/value table: every entry of [data] comes from two
    adjacent lines of the block, the key directly before its value, and
    no stored value starts with a rejection marker. *)
Theorem key_value_entries_are_adjacent_lines (lines : list str) :
  Forall (fun kv : str * value =>
            exists value before after,
              snd kv = VStr value
              /\ lines = before ++ fst kv :: value :: after
              /\ RegexParser.rejected value = false)
         (RegexParser.key_value_loop (List.length lines) lines 0 []).
Proof.
  rewrite key_value_loop_pairs by lia. cbn [skipn].
  assert (forall (rest : list str) (seen : list str) (data : dict),
             lines = seen ++ rest ->
             Forall (fun kv : str * value =>
                       exists value before after,
                         snd kv = VStr value
                         /\ lines = before ++ fst kv :: value :: after
                         /\ RegexParser.rejected value = false) data ->
             Forall (fun kv : str * value =>
                       exists value before after,
                         snd kv = VStr value
                         /\ lines = before ++ fst kv :: value :: after
                         /\ RegexParser.rejected value = false)
                    (RegexParser.pair_lines rest data)) as H.
  { intros rest. remember (List.length rest) as n eqn:Hn.
    revert rest Hn.
    induction n as [n IH] using lt_wf_ind. intros rest Hn seen data Hl Hd.
    destruct rest as [|key [|value rest']]; try exact Hd.
    rewrite pair_lines_two.
    destruct (RegexParser.rejected value) eqn:E.
    - apply (IH (List.length (value :: rest'))) with (seen := seen ++ [key]);
        [simpl in *; lia | reflexivity | | exact Hd].
      now rewrite <- app_assoc.
    - apply (IH (List.length rest')) with (seen := seen ++ [key; value]);
        [simpl in *; lia | reflexivity | |].
      + now rewrite <- app_assoc.
      + apply dict_set_forall; [exact Hd|].
        exists value, seen, rest'. cbn [fst snd]. auto. }
  apply (H lines [] []); [reflexivity | constructor].
Qed.

Section HeaderData.
Context {R : Runtime}.
Hypothesis punctuation_is_no_digit :
  Forall (fun c => isdigit c = false)
         [RegexParser.ch " "; RegexParser.ch "-"; RegexParser.ch ".";
          RegexParser.ch ","; RegexParser.ch "+"].

Lemma remove_char_digits (c : char) (s : str) :
  isdigit c = false -> forallb isdigit s = true -> remove_char c s = s.
Proof.
  intros Hc. unfold remove_char.
  induction s as [|x s IH]; [reflexivity|]. cbn [forallb filter].
  intros H. apply andb_true_iff in H as [Hx Hs].
  destruct (x =? c)%N eqn:E.
  - apply N.eqb_eq in E. subst x. rewrite Hc in Hx. discriminate.
  - cbn [negb]. now rewrite IH.
Qed.

Lemma cleaned_digits (line : str) :
  str_isdigit line = true -> TableRules.cleaned line = line.
Proof.
  intros H.
  assert (forallb isdigit line = true) as Hall
    by (destruct line; [discriminate | exact H]).
  assert (forall c,
             In c [RegexParser.ch " "; RegexParser.ch "-"; RegexParser.ch ".";
                   RegexParser.ch ","; RegexParser.ch "+"] ->
             isdigit c = false) as Hp
    by (apply Forall_forall; exact punctuation_is_no_digit).
  assert (isdigit (RegexParser.ch " ") = false) as H1
    by (apply Hp; cbn [In]; auto 6).
  assert (isdigit (RegexParser.ch "-") = false) as H2
    by (apply Hp; cbn [In]; auto 6).
  assert (isdigit (RegexParser.ch ".") = false) as H3
    by (apply Hp; cbn [In]; auto 6).
  assert (isdigit (RegexParser.ch ",") = false) as H4
    by (apply Hp; cbn [In]; auto 6).
  assert (isdigit (RegexParser.ch "+") = false) as H5
    by (apply Hp; cbn [In]; auto 6).
  unfold TableRules.cleaned.
  now rewrite (remove_char_digits _ line H5 Hall),
    (remove_char_digits _ line H4 Hall), (remove_char_digits _ line H3 Hall),
    (remove_char_digits _ line H2 Hall), (remove_char_digits _ line H1 Hall).
Qed.

Lemma is_data_line_value (line : str) :
  RegexParser.is_data_line line = Ok (TableRules.is_numeric_line line).
Proof.
  unfold RegexParser.is_data_line, TableRules.is_numeric_line.
  fold (TableRules.cleaned line).
  destruct (str_isdigit (TableRules.cleaned line)) eqn:E; [reflexivity|].
  destruct (str_isdigit line) eqn:E'; [|reflexivity].
  rewrite (cleaned_digits line E') in E. congruence.
Qed.

Lemma stripped_lines_cons (line : str) (rest : list str) :
  TableRules.stripped_lines (line :: rest)
  = if RegexParser.nonempty (strip line)
    then strip line :: TableRules.stripped_lines rest
    else TableRules.stripped_lines rest.
Proof.
  unfold TableRules.stripped_lines. cbn [map filter].
  now destruct (RegexParser.nonempty (strip line)).
Qed.

Lemma rows_of_cons (line : str) (rest : list str) :
  TableRules.rows_of (line :: rest)
  = (if 3 <=? List.length (split_ws line)
     then [RegexParser.strs (split_ws line)] else [])
    ++ TableRules.rows_of rest.
Proof.
  unfold TableRules.rows_of. cbn [map filter].
  now destruct (3 <=? List.length (split_ws line)).
Qed.

Lemma table_4_loop_started (lines : list str) :
  forall (header_lines : list str) (rows : list value),
    RegexParser.table_4_loop lines header_lines true rows
    = Ok (header_lines,
          rows ++ TableRules.rows_of (TableRules.stripped_lines lines)).
Proof.
  induction lines as [|line lines IH]; intros h rows.
  - cbn. now rewrite app_nil_r.
  - cbn [RegexParser.table_4_loop]. rewrite stripped_lines_cons.
    destruct (RegexParser.nonempty (strip line)); cbn [negb];
      [|apply IH].
    rewrite is_data_line_value. cbn [bind].
    replace (if TableRules.is_numeric_line (strip line) then true else true)
      with true by now destruct (TableRules.is_numeric_line (strip line)).
    cbn [negb]. rewrite rows_of_cons.
    destruct (3 <=? List.length (split_ws (strip line)));
      rewrite IH; [now rewrite <- app_assoc | reflexivity].
Qed.

Lemma table_4_loop_headers (lines : list str) :
  forall (header_lines : list str) (rows : list value),
    RegexParser.table_4_loop lines header_lines false rows
    = Ok (header_lines
          ++ TableRules.headers_of (TableRules.stripped_lines lines),
          rows ++ TableRules.rows_of
                    (TableRules.data_of (TableRules.stripped_lines lines))).
Proof.
  induction lines as [|line lines IH]; intros h rows.
  - cbn. now rewrite !app_nil_r.
  - cbn [RegexParser.table_4_loop]. rewrite stripped_lines_cons.
    destruct (RegexParser.nonempty (strip line)); cbn [negb];
      [|apply IH].
    rewrite is_data_line_value. cbn [bind].
    cbn [TableRules.headers_of TableRules.data_of].
    destruct (TableRules.is_numeric_line (strip line)); cbn [negb].
    + rewrite app_nil_r, rows_of_cons.
      destruct (3 <=? List.length (split_ws (strip line)));
        rewrite table_4_loop_started;
        [now rewrite <- app_assoc | reflexivity].
    + rewrite IH. now rewrite <- app_assoc.
Qed.
End HeaderData.

(** X11. Header/data split table, the test for a data line: a line is
    a data line exactly when it consists of digits once [+ , . -] and
    spaces are removed.  The second test of the code, a bare integer of
    at least 85, never decides anything and [int()] never raises,
    because a line of digits already passes the first test. *)
Theorem data_line_threshold_is_dead (R : Runtime) (line : str) :
  Forall (fun c => isdigit c = false)
         [RegexParser.ch " "; RegexParser.ch "-"; RegexParser.ch ".";
          RegexParser.ch ","; RegexParser.ch "+"] ->
  RegexParser.is_data_line line
  = Ok (str_isdigit
          (remove_char (RegexParser.ch " ")
             (remove_char (RegexParser.ch "-")
                (remove_char (RegexParser.ch ".")
                   (remove_char (RegexParser.ch ",")
                      (remove_char (RegexParser.ch "+") line)))))).
Proof. intros H. now rewrite is_data_line_value. Qed.

Lemma data_line_threshold_is_dead_witness :
  RegexParser.is_data_line (R := PyFrag.runtime) (u "12")
  = Ok (str_isdigit (R := PyFrag.runtime)
          (remove_char (RegexParser.ch " ")
             (remove_char (RegexParser.ch "-")
                (remove_char (RegexParser.ch ".")
                   (remove_char (RegexParser.ch ",")
                      (remove_char (RegexParser.ch "+") (u "12"))))))).
Proof.
  refine (data_line_threshold_is_dead PyFrag.runtime (u "12") _).
  repeat constructor.
Defined.

(** X12. Header/data split table: of the non-empty stripped lines of
    the block, those before the first data line are the headers; every
    line from the first data line on, numeric or not, is tokenized, and
    the lines with at least three tokens are the rows. *)
Theorem header_data_split (R : Runtime) (block : str) (table_data : dict) :
  Forall (fun c => isdigit c = false)
         [RegexParser.ch " "; RegexParser.ch "-"; RegexParser.ch ".";
          RegexParser.ch ","; RegexParser.ch "+"] ->
  RegexParser.extract_table_4 (VStr block) table_data
  = Ok (dset
          (dset
             (dset (dset table_data (u "headers") (VList []))
                   (u "rows") (VList []))
             (u "rows")
             (VList (TableRules.rows_of
                       (TableRules.data_of
                          (TableRules.stripped_lines
                             (split_on LF (strip block)))))))
          (u "headers")
          (RegexParser.strs
             (TableRules.headers_of
                (TableRules.stripped_lines (split_on LF (strip block)))))).
Proof.
  intros H. unfold RegexParser.extract_table_4.
  cbn [RegexParser.result_strip bind].
  rewrite (table_4_loop_headers H). reflexivity.
Qed.

Lemma header_data_split_witness :
  RegexParser.extract_table_4 (R := PyFrag.runtime)
    (VStr (join Examples.NL [u "D мм"; u "85 1 2"; u "итого 3 4"; u "90"]))
    []
  = Ok [(u "headers", VList [VStr (u "D мм")]);
        (u "rows", VList [VList [VStr (u "85"); VStr (u "1"); VStr (u "2")];
                          VList [VStr (u "итого"); VStr (u "3");
                                 VStr (u "4")]])].
Proof.
  rewrite (header_data_split PyFrag.runtime _ []
             ltac:(repeat constructor)).
  vm_compute. reflexivity.
Defined.

Section ThreeLists.
Context {R : Runtime}.

(** What the three lists may hold: numeric tokens of lines of the
    block. *)
Let from_block (lines : list str) (token : str) : Prop :=
  RegexParser.is_number token = true
  /\ exists line, In line lines /\ In token (split_ws (strip line)).

Let collected (lines : list str) (l : RegexParser.table_5_lists) : Prop :=
  Forall (from_block lines) (RegexParser.distances l)
  /\ Forall (from_block lines) (RegexParser.min_values l)
  /\ Forall (from_block lines) (RegexParser.max_values l).

Lemma append_to_collected (lines : list str) (which : RegexParser.active_list)
    (part : str) (l : RegexParser.table_5_lists) :
  from_block lines part -> collected lines l ->
  collected lines (RegexParser.append_to which part l).
Proof.
  intros Hp [Hd [Hmin Hmax]].
  assert (forall xs, Forall (from_block lines) xs ->
                     Forall (from_block lines) (xs ++ [part])) as Happ
    by (intros xs Hxs; apply Forall_app; split;
        [assumption | constructor; [assumption | constructor]]).
  destruct which; repeat split; cbn; auto.
Qed.

Lemma parts_collected (lines : list str) (line : str)
    (which : RegexParser.active_list) (parts : list str) :
  In line lines ->
  (forall part, In part parts -> In part (split_ws (strip line))) ->
  forall l,
    collected lines l ->
    collected lines
      (fold_left
         (fun l part =>
            if RegexParser.is_number part
            then RegexParser.append_to which part l else l)
         parts l).
Proof.
  intros Hline. induction parts as [|part parts IH]; intros Hsub l Hl;
    [exact Hl|].
  cbn [fold_left]. apply IH; [intros p Hp; apply Hsub; now right|].
  destruct (RegexParser.is_number part) eqn:E; [|exact Hl].
  apply append_to_collected; [|exact Hl].
  split; [exact E|]. exists line. split; [exact Hline|].
  apply Hsub. now left.
Qed.

Lemma table_5_loop_collected (all lines : list str) :
  (forall line, In line lines -> In line all) ->
  forall current l,
    collected all l ->
    collected all (RegexParser.table_5_loop lines current l).
Proof.
  induction lines as [|line lines IH]; intros Hsub current l Hl; [exact Hl|].
  assert (forall line', In line' lines -> In line' all) as Hrest
    by (intros ? ?; apply Hsub; now right).
  cbn [RegexParser.table_5_loop].
  repeat match goal with
         | |- context [if ?b then _ else _] =>
           lazymatch b with
           | RegexParser.nonempty _ => fail
           | _ => destruct b; [now apply IH|]
           end
         end.
  destruct current as [which|]; [|now apply IH].
  destruct (RegexParser.nonempty (strip line)); [|now apply IH].
  apply IH; [assumption|].
  apply (parts_collected all line); auto. apply Hsub. now left.
Qed.

Lemma table_5_loop_no_marker (lines : list str) (l : RegexParser.table_5_lists) :
  Forall (fun line => TableRules.is_marker_5 (strip line) = false) lines ->
  RegexParser.table_5_loop lines None l = l.
Proof.
  induction 1 as [|line lines Hline _ IH]; [reflexivity|].
  cbn [RegexParser.table_5_loop].
  unfold TableRules.is_marker_5 in Hline.
  apply orb_false_iff in Hline as [Hline Hmax].
  apply orb_false_iff in Hline as [Hmm Hmin].
  rewrite Hmm, Hmin, Hmax.
  destruct (contains _ _); [exact IH|].
  destruct (str_eqb _ (u "HRC")); exact IH.
Qed.
End ThreeLists.

(** X13. Three-list table: each of the three lists holds only numeric
    tokens of lines of the block, and a block without a line [MM], [min]
    or [max] leaves all three empty, whatever numbers it contains. *)
Theorem three_lists_hold_marked_numbers (R : Runtime) (lines : list str) :
  let result :=
    RegexParser.table_5_loop lines None
      {| RegexParser.distances := []; RegexParser.min_values := [];
         RegexParser.max_values := [] |} in
  Forall (fun token =>
            RegexParser.is_number token = true
            /\ exists line, In line lines /\ In token (split_ws (strip line)))
         (RegexParser.distances result ++ RegexParser.min_values result
          ++ RegexParser.max_values result)
  /\ (Forall (fun line => TableRules.is_marker_5 (strip line) = false) lines
      -> result
         = {| RegexParser.distances := []; RegexParser.min_values := [];
              RegexParser.max_values := [] |}).
Proof.
  cbv zeta. split.
  - destruct (table_5_loop_collected lines lines (fun _ H => H) None
                {| RegexParser.distances := []; RegexParser.min_values := [];
                   RegexParser.max_values := [] |})
      as [Hd [Hmin Hmax]].
    + repeat split; constructor.
    + apply Forall_app; split; [exact Hd|].
      apply Forall_app; split; assumption.
  - apply table_5_loop_no_marker.
Qed.

Lemma three_lists_hold_marked_numbers_witness :
  RegexParser.table_5_loop (R := PyFrag.runtime)
    [u "1,5 3"; u "HRC"; u "40 45"] None
    {| RegexParser.distances := []; RegexParser.min_values := [];
       RegexParser.max_values := [] |}
  = {| RegexParser.distances := []; RegexParser.min_values := [];
       RegexParser.max_values := [] |}.
Proof.
  refine (proj2 (three_lists_hold_marked_numbers PyFrag.runtime
                   [u "1,5 3"; u "HRC"; u "40 45"]) _).
  repeat constructor.
Defined.

(** * Further properties of [MarkupParser] *)

(** ** Literal lookup and marker search *)

Lemma startswith_refl (s : str) : startswith s s = true.
Proof.
  induction s as [|c s IH]; [reflexivity|].
  cbn [startswith]. now rewrite N.eqb_refl, IH.
Qed.

Section Lookup.
Context {R : Runtime}.

Lemma find_in_lines_value (text_normalized : str) (lines : list str) :
  MarkupParser.find_in_lines text_normalized lines
  = if existsb (fun line =>
                  startswith (MarkupParser.normalize line) text_normalized)
               lines
    then Some text_normalized else None.
Proof.
  induction lines as [|line lines IH]; [reflexivity|].
  cbn [MarkupParser.find_in_lines existsb].
  destruct (str_eqb text_normalized (MarkupParser.normalize line)) eqn:E.
  - apply str_eqb_eq in E. rewrite <- E, startswith_refl. reflexivity.
  - destruct (startswith (MarkupParser.normalize line) text_normalized);
      [reflexivity | exact IH].
Qed.


End Lookup.

(** X14. [_find_in_document] answers with the query itself, its
    whitespace collapsed, never with text of the document: the answer is
    the normalized query when it occurs in the document or starts a
    normalized line, and [None] otherwise. *)
Theorem find_in_document_answers_the_query (R : Runtime)
    (self : MarkupParser.MarkupParser) (text : str) :
  MarkupParser._find_in_document self text
  = if contains (MarkupParser.document_text self)
                (MarkupParser.normalize text)
       || existsb (fun line =>
                     startswith (MarkupParser.normalize line)
                                (MarkupParser.normalize text))
                  (MarkupParser.document_lines self)
    then Some (MarkupParser.normalize text)
    else None.
Proof.
  unfold MarkupParser._find_in_document.
  destruct (contains _ _); [reflexivity|].
  cbn [orb]. apply find_in_lines_value.
Qed.



(** X16. In first-only mode with a label that designates no group,
    whatever [_find_by_regex] returns holds at most one value.  It
    returns the empty list when the pattern raises [re.error], and when
    the pattern compiles it returns the first match in the document or,
    without one, the first match of the first line that has one. *)
Theorem first_only_returns_at_most_one (R : Runtime)
    (self : MarkupParser.MarkupParser) (pattern label_part : str) :
  MarkupParser.has_char MarkupParser.COLON label_part = false ->
  (forall results,
      MarkupParser._find_by_regex self pattern label_part false = Ok results ->
      List.length results <= 1)
  /\ (re_compile pattern MarkupParser.all_flags = None ->
      MarkupParser._find_by_regex self pattern label_part false = Ok [])
  /\ (forall r,
         re_compile pattern MarkupParser.all_flags = Some r ->
         MarkupParser._find_by_regex self pattern label_part false
         = Ok match search r (MarkupParser.document_text self) with
              | Some m => [Some (m_whole m)]
              | None =>
                match MarkupText.line_matches r
                        (MarkupParser.document_lines self) with
                | m :: _ => [Some (m_whole m)]
                | [] => []
                end
              end).
Proof.
  intros Hlabel.
  assert (forall r lines,
             MarkupParser.lines_first r lines
             = match MarkupText.line_matches r lines with
               | m :: _ => [Some (m_whole m)]
               | [] => []
               end) as Hfirst.
  { intros r lines. induction lines as [|line lines IH]; [reflexivity|].
    cbn [MarkupParser.lines_first MarkupText.line_matches flat_map].
    fold (MarkupText.line_matches r lines).
    destruct (search r line); [reflexivity | exact IH]. }
  assert (forall r,
             re_compile pattern MarkupParser.all_flags = Some r ->
             MarkupParser._find_by_regex self pattern label_part false
             = Ok match search r (MarkupParser.document_text self) with
                  | Some m => [Some (m_whole m)]
                  | None =>
                    match MarkupText.line_matches r
                            (MarkupParser.document_lines self) with
                    | m :: _ => [Some (m_whole m)]
                    | [] => []
                    end
                  end) as Hcompiled.
  { intros r Hc. unfold MarkupParser._find_by_regex.
    rewrite Hc, Hlabel.
    destruct (search r (MarkupParser.document_text self));
      [reflexivity | now rewrite Hfirst]. }
  split; [|split].
  - intros results.
    destruct (re_compile pattern MarkupParser.all_flags) as [r|] eqn:Hc.
    + rewrite (Hcompiled r eq_refl). intros [= <-].
      destruct (search r (MarkupParser.document_text self));
        [simpl; lia|].
      destruct (MarkupText.line_matches r _); simpl; lia.
    + unfold MarkupParser._find_by_regex. rewrite Hc.
      intros [= <-]. simpl; lia.
  - intros Hc. unfold MarkupParser._find_by_regex. now rewrite Hc.
  - exact Hcompiled.
Qed.

Lemma first_only_returns_at_most_one_witness :
  MarkupParser._find_by_regex (R := PyFrag.runtime)
    (Examples.parser_for (u "12 и 12")) (u "12") (u "date") false
  = Ok [Some (u "12")].
Proof.
  rewrite (proj2 (proj2 (first_only_returns_at_most_one PyFrag.runtime
                           (Examples.parser_for (u "12 и 12")) (u "12")
                           (u "date") eq_refl))
             Examples.twelve eq_refl).
  vm_compute; reflexivity.
Defined.

(** * Properties of the markup compiler *)

(** ** Splitting a markup text into sections *)

Lemma split_on_cons (sep : char) (s : str) :
  exists field fields, split_on sep s = field :: fields.
Proof.
  induction s as [|c s IH]; cbn [split_on]; [now eexists; eexists|].
  destruct (c =? sep)%N; [now eexists; eexists|].
  destruct IH as (f & fs & ->). now eexists; eexists.
Qed.

Lemma split_on_app (sep : char) (a b : str) :
  split_on sep (a ++ sep :: b) = split_on sep a ++ split_on sep b.
Proof.
  induction a as [|c a IH]; cbn [app split_on].
  - now rewrite N.eqb_refl.
  - destruct (c =? sep)%N; [now rewrite IH|].
    rewrite IH. destruct (split_on_cons sep a) as (f & fs & ->). reflexivity.
Qed.

Lemma split_on_field (sep : char) (s : str) :
  ~ In sep s -> split_on sep s = [s].
Proof.
  induction s as [|c s IH]; intros Hs; [reflexivity|].
  cbn [split_on]. destruct (c =? sep)%N eqn:E.
  - apply N.eqb_eq in E. exfalso. apply Hs. now left.
  - rewrite IH; [reflexivity|]. intros H. apply Hs. now right.
Qed.

Lemma split_on_join (sep : char) (fields : list str) :
  fields <> [] -> Forall (fun field => ~ In sep field) fields ->
  split_on sep (join [sep] fields) = fields.
Proof.
  induction fields as [|p ps IH]; intros Hne Hall; [congruence|].
  inversion Hall as [|? ? Hp Hps]; subst.
  destruct ps as [|q ps]; [now apply split_on_field|].
  change (join [sep] (p :: q :: ps)) with (p ++ sep :: join [sep] (q :: ps)).
  rewrite split_on_app, split_on_field, IH by (assumption || discriminate).
  reflexivity.
Qed.

Lemma startswith_nil (s : str) : startswith s [] = true.
Proof. now destruct s. Qed.

Section Splitting.
Context {R : Runtime}.

Lemma lstrip_keeps (c : char) (s : str) :
  isspace c = false -> lstrip (c :: s) = c :: s.
Proof. intros H. cbn [lstrip]. now rewrite H. Qed.

Lemma strip_keeps (c d : char) (s : str) :
  isspace c = false -> isspace d = false ->
  strip (c :: s ++ [d]) = c :: s ++ [d].
Proof.
  intros Hc Hd. unfold strip, rstrip. rewrite lstrip_keeps by assumption.
  replace (rev (c :: s ++ [d])) with (d :: rev s ++ [c])
    by (cbn [rev]; now rewrite rev_app_distr).
  rewrite lstrip_keeps by assumption. cbn [rev].
  now rewrite rev_app_distr, rev_involutive.
Qed.

Lemma strip_header (name : str) :
  isspace 91%N = false -> isspace 93%N = false ->
  strip (MarkupText.header name) = MarkupText.header name.
Proof. intros Hl Hr. now apply strip_keeps. Qed.

Lemma split_step_header (st : MarkupCompiler.split_state) (name : str) :
  isspace 91%N = false -> isspace 93%N = false ->
  startswith (MarkupText.header name) MarkupText.END = false ->
  MarkupCompiler.split_step st (MarkupText.header name)
  = {| MarkupCompiler.sections := MarkupCompiler.flush st;
       MarkupCompiler.current_section := Some name;
       MarkupCompiler.current_content := [] |}.
Proof.
  intros Hl Hr Hend. unfold MarkupCompiler.split_step.
  rewrite strip_header by assumption.
  change (u "[END]") with MarkupText.END. rewrite Hend.
  unfold MarkupText.header. change (u "[") with [91%N].
  change (u "]") with [93%N]. cbn [app].
  change (RegexParser.nonempty (91%N :: name ++ [93%N])) with true.
  change (startswith (91%N :: name ++ [93%N]) (u "#")) with false.
  cbn [startswith]. rewrite N.eqb_refl, startswith_nil.
  cbn [negb orb andb tl]. now rewrite removelast_last.
Qed.

Lemma split_step_end (st : MarkupCompiler.split_state) :
  isspace 91%N = false -> isspace 93%N = false ->
  MarkupCompiler.split_step st MarkupText.END
  = {| MarkupCompiler.sections := MarkupCompiler.flush st;
       MarkupCompiler.current_section := None;
       MarkupCompiler.current_content := [] |}.
Proof.
  intros Hl Hr. unfold MarkupCompiler.split_step.
  change MarkupText.END with (MarkupText.header (u "END")).
  rewrite strip_header by assumption. reflexivity.
Qed.

Lemma not_a_header (line : str) :
  startswith line (u "[") = false ->
  startswith line (u "[END]") = false /\ str_eqb line (u "[END]") = false.
Proof.
  change (u "[END]") with (91%N :: u "END]"). change (u "[") with [91%N].
  destruct line as [|c line]; [now split|].
  cbn [startswith str_eqb]. rewrite startswith_nil, andb_true_r.
  now intros ->.
Qed.

Lemma split_step_content (st : MarkupCompiler.split_state) (c : char)
    (name line : str) :
  MarkupCompiler.current_section st = Some (c :: name) ->
  MarkupText.content_line line ->
  MarkupCompiler.split_step st line
  = {| MarkupCompiler.sections := MarkupCompiler.sections st;
       MarkupCompiler.current_section := MarkupCompiler.current_section st;
       MarkupCompiler.current_content :=
         MarkupCompiler.current_content st ++ [line] |}.
Proof.
  intros Hcur (Hne & Hstrip & Hcomment & Hbracket & _).
  unfold MarkupCompiler.split_step. rewrite Hstrip, Hcomment, Hbracket.
  destruct (not_a_header line Hbracket) as [_ ->].
  destruct line; [congruence|]. cbn [RegexParser.nonempty negb orb andb].
  now rewrite Hcur.
Qed.

Lemma fold_content (content : list str) :
  forall (st : MarkupCompiler.split_state) (c : char) (name : str),
    MarkupCompiler.current_section st = Some (c :: name) ->
    Forall MarkupText.content_line content ->
    fold_left MarkupCompiler.split_step content st
    = {| MarkupCompiler.sections := MarkupCompiler.sections st;
         MarkupCompiler.current_section := Some (c :: name);
         MarkupCompiler.current_content :=
           MarkupCompiler.current_content st ++ content |}.
Proof.
  induction content as [|line content IH]; intros st c name Hcur Hall.
  - cbn [fold_left]. rewrite app_nil_r, <- Hcur. now destruct st.
  - inversion Hall as [|? ? Hline Hrest]; subst. cbn [fold_left].
    rewrite (split_step_content st c name line Hcur Hline).
    rewrite (IH _ c name) by (cbn; assumption).
    cbn. now rewrite <- app_assoc.
Qed.

Lemma fold_sections (secs : list (str * list str)) :
  isspace 91%N = false -> isspace 93%N = false ->
  Forall MarkupText.well_formed secs ->
  forall done,
    fold_left MarkupCompiler.split_step
      (flat_map MarkupText.section_lines secs)
      {| MarkupCompiler.sections := done;
         MarkupCompiler.current_section := None;
         MarkupCompiler.current_content := [] |}
    = {| MarkupCompiler.sections := done ++ secs;
         MarkupCompiler.current_section := None;
         MarkupCompiler.current_content := [] |}.
Proof.
  intros Hl Hr. induction secs as [|[name content] secs IH];
    intros Hall done.
  - cbn. now rewrite app_nil_r.
  - inversion Hall as [|? ? [(Hne & Hend & _) Hcontent] Hrest]; subst.
    cbn [fst snd] in *. cbn [flat_map]. rewrite fold_left_app.
    change (MarkupText.section_lines (name, content))
      with (MarkupText.header name :: content ++ [MarkupText.END]).
    cbn [fold_left].
    rewrite split_step_header by assumption.
    rewrite fold_left_app. destruct name as [|c name]; [congruence|].
    rewrite (fold_content content _ c name) by (reflexivity || assumption).
    cbn [fold_left]. rewrite split_step_end by assumption.
    cbn. rewrite IH by assumption. now rewrite <- app_assoc.
Qed.

Lemma header_line_feed (name : str) :
  ~ In LF name -> ~ In LF (MarkupText.header name).
Proof.
  intros Hn. unfold MarkupText.header. change (u "[") with [91%N].
  change (u "]") with [93%N]. cbn [app]. intros [H|H]; [discriminate|].
  apply in_app_or in H. destruct H as [H|[H|[]]]; [auto | discriminate].
Qed.

Lemma section_lines_line_feed (secs : list (str * list str)) :
  Forall MarkupText.well_formed secs ->
  Forall (fun line => ~ In LF line) (flat_map MarkupText.section_lines secs).
Proof.
  induction 1 as [|[name content] secs [(_ & _ & Hn) Hc] _ IH];
    [constructor|].
  cbn [fst snd] in *. cbn [flat_map].
  change (MarkupText.section_lines (name, content))
    with (MarkupText.header name :: content ++ [MarkupText.END]).
  rewrite <- app_comm_cons.
  constructor; [now apply header_line_feed|].
  rewrite <- app_assoc. apply Forall_app. split.
  - eapply Forall_impl; [|exact Hc]. now intros l (_ & _ & _ & _ & H).
  - constructor; [|exact IH]. intros [H|[H|[H|[H|[H|[]]]]]]; discriminate.
Qed.

(** X17. Splitting is a left inverse of writing: a markup text made of
    sections with a name and content lines that are stripped, not empty,
    no comments and no bracket lines, each closed by its end line, splits
    into exactly these sections, in order. *)
Theorem sections_round_trip (secs : list (str * list str)) :
  isspace 91%N = false -> isspace 93%N = false ->
  Forall MarkupText.well_formed secs ->
  MarkupCompiler._split_into_sections (MarkupText.render secs) = secs.
Proof.
  intros Hl Hr Hall. unfold MarkupCompiler._split_into_sections.
  assert (split_on LF (MarkupText.render secs)
          = flat_map MarkupText.section_lines secs
          \/ secs = []) as [E | ->].
  { destruct secs as [|s secs]; [now right|]. left.
    apply split_on_join; [discriminate|].
    now apply section_lines_line_feed. }
  - rewrite E, fold_sections by assumption. reflexivity.
  - reflexivity.
Qed.

Lemma flush_entries (P : str * list str -> Prop)
    (st : MarkupCompiler.split_state) :
  Forall P (MarkupCompiler.sections st) ->
  (forall c name,
      MarkupCompiler.current_section st = Some (c :: name) ->
      P (c :: name, MarkupCompiler.current_content st)) ->
  Forall P (MarkupCompiler.flush st).
Proof.
  intros Hs Hc. unfold MarkupCompiler.flush.
  destruct (MarkupCompiler.current_section st) as [[|c name]|];
    try exact Hs.
  apply Forall_app. split; [exact Hs|]. constructor; [|constructor].
  now apply Hc.
Qed.

Lemma split_step_plain (st : MarkupCompiler.split_state) (line : str) :
  startswith (strip line) (u "[") = false ->
  MarkupCompiler.sections (MarkupCompiler.split_step st line)
  = MarkupCompiler.sections st.
Proof.
  intros H. unfold MarkupCompiler.split_step. rewrite H.
  destruct (not_a_header _ H) as [_ ->]. cbn [andb].
  destruct (negb (RegexParser.nonempty (strip line))
            || startswith (strip line) (u "#")); [reflexivity|].
  now destruct (MarkupCompiler.current_section st) as [[|? ?]|].
Qed.

Lemma fold_plain (lines : list str) :
  Forall (fun line => startswith (strip line) (u "[") = false) lines ->
  forall st,
    MarkupCompiler.sections (fold_left MarkupCompiler.split_step lines st)
    = MarkupCompiler.sections st.
Proof.
  induction 1 as [|line lines Hline _ IH]; intros st; [reflexivity|].
  cbn [fold_left]. rewrite IH. now apply split_step_plain.
Qed.

(** X18. A section is recorded when the next bracket line is read, not
    before: whatever follows the last bracket line of a markup text,
    content of a section left open included, does not reach the
    result. *)
Theorem text_after_last_bracket_line_is_dropped (head tail : str) :
  Forall (fun line => startswith (strip line) (u "[") = false)
         (split_on LF tail) ->
  MarkupCompiler._split_into_sections (head ++ [LF] ++ tail)
  = MarkupCompiler._split_into_sections head.
Proof.
  intros Htail. unfold MarkupCompiler._split_into_sections.
  cbn [app]. rewrite split_on_app, fold_left_app.
  now apply fold_plain.
Qed.

Lemma split_step_kept (all : list str) (st : MarkupCompiler.split_state)
    (line : str) :
  In line all ->
  Forall (MarkupText.entry_kept all) (MarkupCompiler.sections st) ->
  Forall (MarkupText.kept all) (MarkupCompiler.current_content st) ->
  Forall (MarkupText.entry_kept all)
         (MarkupCompiler.sections (MarkupCompiler.split_step st line))
  /\ Forall (MarkupText.kept all)
            (MarkupCompiler.current_content
               (MarkupCompiler.split_step st line)).
Proof.
  intros Hin Hs Hc.
  assert (Forall (MarkupText.entry_kept all) (MarkupCompiler.flush st)) as Hflush.
  { apply flush_entries; [exact Hs|]. intros c name _. split;
      [discriminate | exact Hc]. }
  unfold MarkupCompiler.split_step.
  destruct (RegexParser.nonempty (strip line)) eqn:Ene;
    cbn [negb orb]; [|now split].
  destruct (startswith (strip line) (u "#")) eqn:Ecomment; [now split|].
  destruct (startswith (strip line) (u "[")
            && negb (startswith (strip line) (u "[END]")));
    [now split|].
  destruct (str_eqb (strip line) (u "[END]")) eqn:Eend; [now split|].
  destruct (MarkupCompiler.current_section st) as [[|c name]|];
    try now split.
  cbn. split; [exact Hs|]. apply Forall_app. split; [exact Hc|].
  constructor; [|constructor]. repeat split.
  - intros E. now rewrite E in Ene.
  - exact Ecomment.
  - intros E. rewrite E in Eend. unfold MarkupText.END in Eend.
    now rewrite str_eqb_refl in Eend.
  - now apply in_map.
Qed.

Lemma fold_kept (all lines : list str) :
  (forall line, In line lines -> In line all) ->
  forall st,
    Forall (MarkupText.entry_kept all) (MarkupCompiler.sections st) ->
    Forall (MarkupText.kept all) (MarkupCompiler.current_content st) ->
    Forall (MarkupText.entry_kept all)
           (MarkupCompiler.sections
              (fold_left MarkupCompiler.split_step lines st)).
Proof.
  induction lines as [|line lines IH]; intros Hsub st Hs Hc; [exact Hs|].
  cbn [fold_left].
  destruct (split_step_kept all st line) as [Hs' Hc'];
    [apply Hsub; now left | assumption | assumption |].
  apply IH; [|assumption|assumption].
  intros l Hl. apply Hsub. now right.
Qed.

(** X19. Every section that [_split_into_sections] returns has a name
    that is not empty, and each of its content lines is a stripped line
    of the markup text that is not empty, is no comment and is not the
    end line. *)
Theorem sections_hold_named_content (markup_text : str) :
  Forall (fun section : str * list str =>
            fst section <> []
            /\ Forall (fun line =>
                         line <> [] /\ startswith line (u "#") = false
                         /\ line <> MarkupText.END
                         /\ In line (map strip (split_on LF markup_text)))
                      (snd section))
         (MarkupCompiler._split_into_sections markup_text).
Proof.
  unfold MarkupCompiler._split_into_sections.
  apply (fold_kept (split_on LF markup_text)); [auto | constructor ..].
Qed.

End Splitting.

Lemma sections_round_trip_witness :
  MarkupCompiler._split_into_sections (R := PyFrag.runtime)
    (MarkupText.render MoreExamples.two_sections)
  = MoreExamples.two_sections.
Proof.
  refine (sections_round_trip (R := PyFrag.runtime)
            MoreExamples.two_sections _ _ _); try reflexivity.
  repeat constructor; vm_compute; try reflexivity; try discriminate;
    intuition discriminate.
Defined.

Lemma text_after_last_bracket_line_is_dropped_witness :
  MarkupCompiler._split_into_sections (R := PyFrag.runtime)
    (MoreExamples.closed_markup ++ [LF] ++ MoreExamples.open_tail)
  = [(u "A", [u "x"])].
Proof.
  refine (eq_trans
            (text_after_last_bracket_line_is_dropped (R := PyFrag.runtime)
               MoreExamples.closed_markup MoreExamples.open_tail _)
            _).
  - repeat constructor.
  - reflexivity.
Defined.

(** ** Metadata values *)

Section MetaValues.
Context {R : Runtime}.

Lemma metadata_set (self : MarkupParser.MarkupParser) (key : str)
    (v : value) :
  dget (MarkupParser.metadata
          (MarkupParser.result (MarkupCompiler.set_metadata self key v))) key
  = Some v.
Proof. apply dget_dset_same. Qed.

Lemma store_meta_skips (self : MarkupParser.MarkupParser) (label : str)
    (value : option str) :
  MarkupParser.truthy_opt value = false ->
  MarkupCompiler.store_meta self label value = self.
Proof. now destruct value as [[|? ?]|]. Qed.

Lemma plain_fold_list (label : str) (values : list (option str)) :
  MarkupParser.has_char MarkupParser.COLON label = false ->
  forall (self : MarkupParser.MarkupParser) (existing : list value),
    dget (MarkupParser.metadata (MarkupParser.result self)) label
    = Some (VList existing) ->
    dget (MarkupParser.metadata
            (MarkupParser.result
               (fold_left
                  (fun self value => MarkupCompiler.store_meta self label value)
                  values self))) label
    = Some (VList (existing
                   ++ map VStr (MarkupText.found_values values))).
Proof.
  intros Hplain. induction values as [|value values IH];
    intros self existing Hget.
  - cbn. now rewrite app_nil_r.
  - cbn [fold_left]. destruct value as [[|c value]|];
      try (cbn [MarkupText.found_values]; now apply IH).
    cbn [MarkupText.found_values map].
    unfold MarkupCompiler.store_meta at 2. rewrite Hplain, Hget.
    rewrite (IH _ (existing ++ [VStr (c :: value)]))
      by apply metadata_set.
    now rewrite <- app_assoc.
Qed.

Lemma plain_fold_scalar (label : str) (values : list (option str)) :
  MarkupParser.has_char MarkupParser.COLON label = false ->
  forall (self : MarkupParser.MarkupParser) (existing : value),
    (forall l, existing <> VList l) ->
    dget (MarkupParser.metadata (MarkupParser.result self)) label
    = Some existing ->
    dget (MarkupParser.metadata
            (MarkupParser.result
               (fold_left
                  (fun self value => MarkupCompiler.store_meta self label value)
                  values self))) label
    = Some match MarkupText.found_values values with
           | [] => existing
           | more => VList (existing :: map VStr more)
           end.
Proof.
  intros Hplain. induction values as [|value values IH];
    intros self existing Hscalar Hget; [exact Hget|].
  cbn [fold_left]. destruct value as [[|c value]|];
    try (cbn [MarkupText.found_values]; now apply IH).
  cbn [MarkupText.found_values].
  unfold MarkupCompiler.store_meta at 2. rewrite Hplain, Hget.
  assert (forall self',
             self' = MarkupCompiler.set_metadata self label
                       (VList [existing; VStr (c :: value)]) ->
             dget (MarkupParser.metadata
                     (MarkupParser.result
                        (fold_left
                           (fun self value =>
                              MarkupCompiler.store_meta self label value)
                           values self'))) label
             = Some (VList (existing :: map VStr
                              ((c :: value)
                               :: MarkupText.found_values values)))) as Hnext.
  { intros self' ->.
    now rewrite (plain_fold_list label values Hplain _
                   [existing; VStr (c :: value)]) by apply metadata_set. }
  destruct existing; try (now apply Hnext).
  exfalso. now apply (Hscalar l).
Qed.

(** X20. A label without a colon collects: when the metadata have no
    entry under the label, the loop over the values found for it leaves
    no entry if none of them is true, the value itself if one is, and the
    list of the true values, in order, if there are more. *)
Theorem plain_label_collects_values (self : MarkupParser.MarkupParser)
    (label : str) (values : list (option str)) :
  MarkupParser.has_char MarkupParser.COLON label = false ->
  dget (MarkupParser.metadata (MarkupParser.result self)) label = None ->
  dget (MarkupParser.metadata
          (MarkupParser.result
             (fold_left
                (fun self value => MarkupCompiler.store_meta self label value)
                values self))) label
  = match MarkupText.found_values values with
    | [] => None
    | [value] => Some (VStr value)
    | found => Some (VList (map VStr found))
    end.
Proof.
  intros Hplain. revert self.
  induction values as [|value values IH]; intros self Hget; [exact Hget|].
  cbn [fold_left]. destruct value as [[|c value]|];
    try (cbn [MarkupText.found_values]; now apply IH).
  cbn [MarkupText.found_values].
  unfold MarkupCompiler.store_meta at 2. rewrite Hplain, Hget.
  rewrite (plain_fold_scalar label values Hplain _ (VStr (c :: value)))
    by (discriminate || apply metadata_set).
  now destruct (MarkupText.found_values values).
Qed.

Lemma colon_fold (label : str) (values : list (option str)) :
  MarkupParser.has_char MarkupParser.COLON label = true ->
  forall (self : MarkupParser.MarkupParser),
    dget (MarkupParser.metadata
            (MarkupParser.result
               (fold_left
                  (fun self value => MarkupCompiler.store_meta self label value)
                  values self)))
         (strip (MarkupParser.before_colon label))
    = match rev (MarkupText.found_values values) with
      | [] => dget (MarkupParser.metadata (MarkupParser.result self))
                   (strip (MarkupParser.before_colon label))
      | value :: _ => Some (VStr value)
      end.
Proof.
  intros Hcolon. induction values as [|value values IH]; intros self;
    [reflexivity|].
  cbn [fold_left]. destruct value as [[|c value]|];
    try (cbn [MarkupText.found_values]; now apply IH).
  cbn [MarkupText.found_values rev]. rewrite IH.
  unfold MarkupCompiler.store_meta. rewrite Hcolon, metadata_set.
  now destruct (rev (MarkupText.found_values values)).
Qed.

(** X21. A label with a colon overwrites: of the values found for it,
    the last true one is what the metadata hold under the key before the
    colon, whatever they held before; the earlier ones are lost. *)
Theorem group_label_keeps_last_value (self : MarkupParser.MarkupParser)
    (label : str) (values : list (option str)) (found : list str)
    (value : str) :
  MarkupParser.has_char MarkupParser.COLON label = true ->
  MarkupText.found_values values = found ++ [value] ->
  dget (MarkupParser.metadata
          (MarkupParser.result
             (fold_left
                (fun self value => MarkupCompiler.store_meta self label value)
                values self)))
       (strip (MarkupParser.before_colon label))
  = Some (VStr value).
Proof.
  intros Hcolon Hfound. rewrite colon_fold by assumption.
  now rewrite Hfound, rev_app_distr.
Qed.

End MetaValues.

Lemma plain_label_collects_values_witness :
  dget (MarkupParser.metadata
          (MarkupParser.result
             (fold_left
                (fun self value =>
                   MarkupCompiler.store_meta (R := PyFrag.runtime) self
                     (u "addressee") value)
                [Some (u "Иванов"); None; Some []; Some (u "Петров")]
                (Examples.parser_for (u "text")))))
       (u "addressee")
  = Some (VList [VStr (u "Иванов"); VStr (u "Петров")]).
Proof.
  refine (plain_label_collects_values (R := PyFrag.runtime)
            (Examples.parser_for (u "text")) (u "addressee")
            [Some (u "Иванов"); None; Some []; Some (u "Петров")] _ _);
    reflexivity.
Defined.

Lemma group_label_keeps_last_value_witness :
  dget (MarkupParser.metadata
          (MarkupParser.result
             (fold_left
                (fun self value =>
                   MarkupCompiler.store_meta (R := PyFrag.runtime) self
                     (u "date : 1") value)
                [Some (u "01.02"); None; Some (u "03.04")]
                (Examples.parser_for (u "text")))))
       (u "date")
  = Some (VStr (u "03.04")).
Proof.
  refine (group_label_keeps_last_value (R := PyFrag.runtime)
            (Examples.parser_for (u "text")) (u "date : 1")
            [Some (u "01.02"); None; Some (u "03.04")] [u "01.02"]
            (u "03.04") _ _);
    reflexivity.
Defined.

(** ** Table rows *)

Lemma dots_to_commas_free (s : str) :
  ~ In 46%N (MarkupCompiler.dots_to_commas s).
Proof.
  unfold MarkupCompiler.dots_to_commas. intros H.
  apply in_map_iff in H. destruct H as (c & Hc & _).
  destruct (c =? 46)%N eqn:E; [discriminate|].
  apply N.eqb_neq in E. congruence.
Qed.

Lemma row_token_value (token : str) :
  MarkupText.row_value (MarkupCompiler.row_token token).
Proof.
  unfold MarkupCompiler.row_token, MarkupText.row_value.
  destruct (str_eqb token (u "н.б.")) eqn:E1;
    [apply str_eqb_eq in E1; now left|].
  destruct (str_eqb token (u "н.б")) eqn:E2;
    [apply str_eqb_eq in E2; right; now left|].
  right. right. apply dots_to_commas_free.
Qed.

Section TableRows.
Context {R : Runtime} {F : PyFixed.FixedPatterns}.

Lemma row_tokens_fold (tokens values : list str) :
  fold_left
    (fun values token =>
       if PyFixed.match_value_token token
       then values ++ [MarkupCompiler.row_token token] else values)
    tokens values
  = values
    ++ map MarkupCompiler.row_token
         (filter PyFixed.match_value_token tokens).
Proof.
  revert values. induction tokens as [|token tokens IH]; intros values.
  - cbn. now rewrite app_nil_r.
  - cbn [fold_left filter]. rewrite IH.
    destruct (PyFixed.match_value_token token); [|reflexivity].
    cbn [map]. now rewrite <- app_assoc.
Qed.

Lemma row_tokens_values (line_stripped : str) (values : list str) :
  MarkupCompiler.row_tokens line_stripped values
  = values
    ++ map MarkupCompiler.row_token
         (filter PyFixed.match_value_token (split_ws line_stripped)).
Proof. apply row_tokens_fold. Qed.

Lemma row_values_loop_values (marker : str) (lines : list str) :
  forall in_row values,
    Forall MarkupText.row_value values ->
    Forall MarkupText.row_value
           (MarkupCompiler.row_values_loop marker lines in_row values).
Proof.
  induction lines as [|line lines IH]; intros in_row values Hv; [exact Hv|].
  cbn [MarkupCompiler.row_values_loop].
  destruct (MarkupCompiler.marker_found marker (strip line)); [now apply IH|].
  destruct in_row; [|now apply IH].
  destruct (PyFixed.search_value (strip line)); [|exact Hv].
  apply IH. rewrite row_tokens_values. apply Forall_app. split; [exact Hv|].
  apply Forall_forall. intros v Hin. apply in_map_iff in Hin.
  destruct Hin as (token & <- & _). apply row_token_value.
Qed.

(** X22. No value of a table row keeps a decimal point: each is one of
    the two placeholders or a token whose points have become commas. *)
Theorem row_values_have_no_decimal_point (self : MarkupParser.MarkupParser)
    (marker : str) :
  Forall (fun v => v = u "н.б." \/ v = u "н.б" \/ ~ In 46%N v)
         (MarkupCompiler._find_table_row_values self marker).
Proof.
  unfold MarkupCompiler._find_table_row_values.
  apply (row_values_loop_values marker). constructor.
Qed.

Lemma row_values_loop_before (marker : str) (pre rest : list str)
    (values : list str) :
  Forall (fun line =>
            MarkupCompiler.marker_found marker (strip line) = false) pre ->
  MarkupCompiler.row_values_loop marker (pre ++ rest) false values
  = MarkupCompiler.row_values_loop marker rest false values.
Proof.
  induction 1 as [|line pre Hline _ IH]; [reflexivity|].
  cbn [app MarkupCompiler.row_values_loop]. now rewrite Hline.
Qed.

Lemma row_values_loop_data (marker : str) (data : list str) (stop : str)
    (post : list str) :
  Forall (fun line =>
            MarkupCompiler.marker_found marker (strip line) = false
            /\ PyFixed.search_value (strip line) = true) data ->
  MarkupCompiler.marker_found marker (strip stop) = false ->
  PyFixed.search_value (strip stop) = false ->
  forall values,
    MarkupCompiler.row_values_loop marker (data ++ stop :: post) true values
    = values
      ++ flat_map
           (fun line =>
              map MarkupCompiler.row_token
                  (filter PyFixed.match_value_token (split_ws (strip line))))
           data.
Proof.
  intros Hdata Hstop Hplain.
  induction Hdata as [|line data [Hline Hvalue] _ IH]; intros values.
  - cbn [app MarkupCompiler.row_values_loop flat_map].
    now rewrite Hstop, Hplain, app_nil_r.
  - cbn [app MarkupCompiler.row_values_loop flat_map].
    rewrite Hline, Hvalue, IH, row_tokens_values. now rewrite <- app_assoc.
Qed.

(** X23. The values of a row are read from the lines that follow the
    first marker line, up to the first line without a digit or
    placeholder: of each such line the tokens that are numbers or
    placeholders, in order, with points turned into commas.  What comes
    after the line that ends the run is not looked at. *)
Theorem row_values_follow_the_marker (self : MarkupParser.MarkupParser)
    (marker : str) (pre : list str) (marker_line : str) (data : list str)
    (stop : str) (post : list str) :
  MarkupParser.document_lines self
  = pre ++ marker_line :: data ++ stop :: post ->
  Forall (fun line =>
            MarkupCompiler.marker_found marker (strip line) = false) pre ->
  MarkupCompiler.marker_found marker (strip marker_line) = true ->
  Forall (fun line =>
            MarkupCompiler.marker_found marker (strip line) = false
            /\ PyFixed.search_value (strip line) = true) data ->
  MarkupCompiler.marker_found marker (strip stop) = false ->
  PyFixed.search_value (strip stop) = false ->
  MarkupCompiler._find_table_row_values self marker
  = flat_map
      (fun line =>
         map MarkupCompiler.row_token
             (filter PyFixed.match_value_token (split_ws (strip line))))
      data.
Proof.
  intros Hdoc Hpre Hmarker Hdata Hstop Hplain.
  unfold MarkupCompiler._find_table_row_values.
  rewrite Hdoc, row_values_loop_before by assumption.
  cbn [MarkupCompiler.row_values_loop]. rewrite Hmarker.
  now rewrite row_values_loop_data by assumption.
Qed.

Lemma table_step_rows (self : MarkupParser.MarkupParser)
    (P : str * value -> Prop) (t : MarkupCompiler.table_state) (line : str) :
  (forall row_name marker,
      MarkupCompiler._find_table_row_values self marker <> [] ->
      P (row_name,
         RegexParser.strs
           (MarkupCompiler._find_table_row_values self marker))) ->
  Forall P (MarkupCompiler.rows t) ->
  Forall P (MarkupCompiler.rows (MarkupCompiler.table_step self t line)).
Proof.
  intros HP Ht. unfold MarkupCompiler.table_step.
  destruct (startswith (strip line) (u "@START:")); [exact Ht|].
  destruct (startswith (strip line) (u "@END:")); [exact Ht|].
  destruct (str_eqb (strip line) (u "@COLUMNS:")); [exact Ht|].
  destruct (startswith (strip line) (u "@ROW")).
  - now destruct (PyFixed.match_row (strip line)) as [[? ?]|].
  - destruct (MarkupCompiler.table_mode t) as [| |row_name marker];
      try exact Ht.
    destruct (contains (strip line) (u "{{")
              && contains (strip line) (u "values")); [|exact Ht].
    cbn [MarkupCompiler.rows].
    destruct (MarkupCompiler._find_table_row_values self marker) eqn:E;
      [exact Ht|].
    apply dict_set_forall; [exact Ht|]. rewrite <- E. apply HP.
    now rewrite E.
Qed.

Lemma fold_table_rows (self : MarkupParser.MarkupParser)
    (P : str * value -> Prop) (content : list str) :
  (forall row_name marker,
      MarkupCompiler._find_table_row_values self marker <> [] ->
      P (row_name,
         RegexParser.strs
           (MarkupCompiler._find_table_row_values self marker))) ->
  forall t,
    Forall P (MarkupCompiler.rows t) ->
    Forall P (MarkupCompiler.rows
                (fold_left (MarkupCompiler.table_step self) content t)).
Proof.
  intros HP. induction content as [|line content IH]; intros t Ht;
    [exact Ht|].
  cbn [fold_left]. apply IH. now apply table_step_rows.
Qed.

(** X24. [_parse_table] appends one table, and a row of it is never
    empty: every entry of its rows is the list of values, at least one,
    that [_find_table_row_values] returns for some marker of the
    document. *)
Theorem table_rows_are_found_values (self : MarkupParser.MarkupParser)
    (content : list str) (table_name : str) :
  exists t,
    MarkupParser.tables
      (MarkupParser.result
         (MarkupCompiler._parse_table self content table_name))
    = MarkupParser.tables (MarkupParser.result self)
      ++ [MarkupCompiler.table_dict table_name t]
    /\ Forall (fun row : str * value =>
                 exists marker,
                   MarkupCompiler._find_table_row_values self marker <> []
                   /\ snd row
                      = RegexParser.strs
                          (MarkupCompiler._find_table_row_values self marker))
              (MarkupCompiler.rows t).
Proof.
  eexists. split; [reflexivity|].
  apply fold_table_rows; [|constructor].
  intros row_name marker Hne. now exists marker.
Qed.

End TableRows.

Lemma row_values_follow_the_marker_witness :
  MarkupCompiler._find_table_row_values (R := PyFrag.runtime)
    (F := PyFix.fixed) (Examples.parser_for MoreExamples.row_document)
    (u "Рекоменд:")
  = [u "0,42"; u "0,25"; u "н.б."].
Proof.
  refine (eq_trans
            (row_values_follow_the_marker (R := PyFrag.runtime)
               (F := PyFix.fixed)
               (Examples.parser_for MoreExamples.row_document)
               (u "Рекоменд:") [u "Таблица 1"] (u "Рекоменд:")
               [u "0.42 0.25 н.б."] (u "конец") [u "1 2"] _ _ _ _ _ _)
            _);
    try reflexivity; repeat constructor.
Defined.

(** ** The parts of the result *)

Ltac step_bind :=
  match goal with
  | |- bind ?c _ = Ok _ -> _ =>
    let E := fresh "E" in
    destruct c eqn:E; cbn [bind]; [|discriminate]
  end.

Section Parts.
Context {R : Runtime} {F : PyFixed.FixedPatterns}.

Lemma store_meta_parts (self : MarkupParser.MarkupParser) (label : str)
    (value : option str) :
  let self' := MarkupCompiler.store_meta self label value in
  MarkupParser.document_text self' = MarkupParser.document_text self
  /\ MarkupParser.technical_params (MarkupParser.result self')
     = MarkupParser.technical_params (MarkupParser.result self)
  /\ MarkupParser.sections (MarkupParser.result self')
     = MarkupParser.sections (MarkupParser.result self)
  /\ MarkupParser.tables (MarkupParser.result self')
     = MarkupParser.tables (MarkupParser.result self).
Proof.
  unfold MarkupCompiler.store_meta.
  destruct value as [[|c value]|]; [now repeat split | | now repeat split].
  destruct (MarkupParser.has_char MarkupParser.COLON label);
    [now repeat split|].
  now destruct (dget (MarkupParser.metadata (MarkupParser.result self)) label)
    as [[]|].
Qed.

Lemma store_meta_fold_parts (label : str) (values : list (option str)) :
  forall self : MarkupParser.MarkupParser,
    let self' :=
      fold_left (fun self value => MarkupCompiler.store_meta self label value)
                values self in
    MarkupParser.document_text self' = MarkupParser.document_text self
    /\ MarkupParser.technical_params (MarkupParser.result self')
       = MarkupParser.technical_params (MarkupParser.result self)
    /\ MarkupParser.sections (MarkupParser.result self')
       = MarkupParser.sections (MarkupParser.result self)
    /\ MarkupParser.tables (MarkupParser.result self')
       = MarkupParser.tables (MarkupParser.result self).
Proof.
  induction values as [|value values IH]; intros self; [now repeat split|].
  cbn [fold_left].
  destruct (IH (MarkupCompiler.store_meta self label value))
    as (-> & -> & -> & ->).
  apply store_meta_parts.
Qed.

Lemma parse_meta_line_parts (self self' : MarkupParser.MarkupParser)
    (line : str) :
  MarkupCompiler.parse_meta_line self line = Ok self' ->
  MarkupParser.document_text self' = MarkupParser.document_text self
  /\ MarkupParser.technical_params (MarkupParser.result self')
     = MarkupParser.technical_params (MarkupParser.result self)
  /\ MarkupParser.sections (MarkupParser.result self')
     = MarkupParser.sections (MarkupParser.result self)
  /\ MarkupParser.tables (MarkupParser.result self')
     = MarkupParser.tables (MarkupParser.result self).
Proof.
  unfold MarkupCompiler.parse_meta_line.
  destruct (negb (MarkupParser.has_char MarkupParser.LBRACE line)
            || negb (MarkupParser.has_char MarkupParser.RBRACE line));
    [now intros [= <-]|].
  cbv zeta. do 3 step_bind. intros [= <-]. apply store_meta_fold_parts.
Qed.

Lemma parse_meta_parts (content : list str) :
  forall self self' : MarkupParser.MarkupParser,
    MarkupCompiler._parse_meta self content = Ok self' ->
    MarkupParser.document_text self' = MarkupParser.document_text self
    /\ MarkupParser.technical_params (MarkupParser.result self')
       = MarkupParser.technical_params (MarkupParser.result self)
    /\ MarkupParser.sections (MarkupParser.result self')
       = MarkupParser.sections (MarkupParser.result self)
    /\ MarkupParser.tables (MarkupParser.result self')
       = MarkupParser.tables (MarkupParser.result self).
Proof.
  induction content as [|line content IH]; intros self self';
    cbn [MarkupCompiler._parse_meta]; [now intros [= <-]|].
  step_bind. intros H. destruct (IH _ _ H) as (-> & -> & -> & ->).
  now apply parse_meta_line_parts with (line := line).
Qed.

Lemma store_param_parts (self : MarkupParser.MarkupParser) (label : str)
    (values : list (option str)) :
  let self' := MarkupParser.store_param self label values in
  MarkupParser.document_text self' = MarkupParser.document_text self
  /\ MarkupParser.metadata (MarkupParser.result self')
     = MarkupParser.metadata (MarkupParser.result self)
  /\ MarkupParser.sections (MarkupParser.result self')
     = MarkupParser.sections (MarkupParser.result self)
  /\ MarkupParser.tables (MarkupParser.result self')
     = MarkupParser.tables (MarkupParser.result self).
Proof.
  unfold MarkupParser.store_param.
  now destruct (firstn 1 values) as [|[[|? ?]|] [|? ?]].
Qed.

Lemma parse_params_line_parts (self self' : MarkupParser.MarkupParser)
    (line : str) :
  MarkupParser.parse_params_line self line = Ok self' ->
  MarkupParser.document_text self' = MarkupParser.document_text self
  /\ MarkupParser.metadata (MarkupParser.result self')
     = MarkupParser.metadata (MarkupParser.result self)
  /\ MarkupParser.sections (MarkupParser.result self')
     = MarkupParser.sections (MarkupParser.result self)
  /\ MarkupParser.tables (MarkupParser.result self')
     = MarkupParser.tables (MarkupParser.result self).
Proof.
  unfold MarkupParser.parse_params_line.
  destruct (negb (MarkupParser.has_char MarkupParser.LBRACE line)
            || negb (MarkupParser.has_char MarkupParser.RBRACE line));
    [now intros [= <-]|].
  cbv zeta. do 3 step_bind. intros [= <-]. apply store_param_parts.
Qed.

Lemma parse_params_parts (content : list str) :
  forall self self' : MarkupParser.MarkupParser,
    MarkupParser._parse_params self content = Ok self' ->
    MarkupParser.document_text self' = MarkupParser.document_text self
    /\ MarkupParser.metadata (MarkupParser.result self')
       = MarkupParser.metadata (MarkupParser.result self)
    /\ MarkupParser.sections (MarkupParser.result self')
       = MarkupParser.sections (MarkupParser.result self)
    /\ MarkupParser.tables (MarkupParser.result self')
       = MarkupParser.tables (MarkupParser.result self).
Proof.
  induction content as [|line content IH]; intros self self';
    cbn [MarkupParser._parse_params]; [now intros [= <-]|].
  step_bind. intros H. destruct (IH _ _ H) as (-> & -> & -> & ->).
  now apply parse_params_line_parts with (line := line).
Qed.

Lemma parse_section_parts (self self' : MarkupParser.MarkupParser)
    (content : list str) (section_name : str) :
  MarkupParser._parse_section self content section_name = Ok self' ->
  MarkupParser.document_text self' = MarkupParser.document_text self
  /\ MarkupParser.metadata (MarkupParser.result self')
     = MarkupParser.metadata (MarkupParser.result self)
  /\ MarkupParser.technical_params (MarkupParser.result self')
     = MarkupParser.technical_params (MarkupParser.result self)
  /\ MarkupParser.tables (MarkupParser.result self')
     = MarkupParser.tables (MarkupParser.result self).
Proof.
  unfold MarkupParser._parse_section.
  destruct (MarkupParser.section_markers content)
    as [[[[|? ?]|] [[|? ?]|]] subsection_pattern];
    try now intros [= <-].
  destruct (MarkupParser._extract_text_between self _ _);
    [now intros [= <-]|].
  step_bind. now intros [= <-].
Qed.

(** X25. The type of a markup section decides which part of the result
    may change: the metadata only for a section [META], the technical
    parameters only for [PARAMS], the tables only for a type that starts
    with [TABLE], the sections only for one that starts with [SECTION];
    the document is never changed. *)
Theorem section_type_selects_the_part_written
    (self self' : MarkupParser.MarkupParser) (section_type : str)
    (content : list str) :
  MarkupCompiler.parse_section self (section_type, content) = Ok self' ->
  MarkupParser.document_text self' = MarkupParser.document_text self
  /\ (section_type <> u "META" ->
      MarkupParser.metadata (MarkupParser.result self')
      = MarkupParser.metadata (MarkupParser.result self))
  /\ (section_type <> u "PARAMS" ->
      MarkupParser.technical_params (MarkupParser.result self')
      = MarkupParser.technical_params (MarkupParser.result self))
  /\ (startswith section_type (u "TABLE") = false ->
      MarkupParser.tables (MarkupParser.result self')
      = MarkupParser.tables (MarkupParser.result self))
  /\ (startswith section_type (u "SECTION") = false ->
      MarkupParser.sections (MarkupParser.result self')
      = MarkupParser.sections (MarkupParser.result self)).
Proof.
  unfold MarkupCompiler.parse_section.
  destruct (str_eqb section_type (u "META")) eqn:Emeta.
  { apply str_eqb_eq in Emeta. subst section_type. intros H.
    destruct (parse_meta_parts _ _ _ H) as (-> & -> & -> & ->).
    repeat split; congruence. }
  destruct (str_eqb section_type (u "PARAMS")) eqn:Eparams.
  { apply str_eqb_eq in Eparams. subst section_type. intros H.
    destruct (parse_params_parts _ _ _ H) as (-> & -> & -> & ->).
    repeat split; congruence. }
  destruct (startswith section_type (u "TABLE")) eqn:Etable.
  { intros [= <-]. repeat split; discriminate. }
  destruct (startswith section_type (u "SECTION")) eqn:Esection.
  { intros H. destruct (parse_section_parts _ _ _ _ H) as (-> & -> & -> & ->).
    repeat split; discriminate. }
  intros [= <-]. now repeat split.
Qed.

End Parts.

Lemma section_type_selects_the_part_written_witness :
  MarkupParser.metadata
    (MarkupParser.result
       (MarkupCompiler._parse_table (R := PyFrag.runtime) (F := PyFix.fixed)
          (Examples.parser_for MoreExamples.row_document)
          MoreExamples.table_content (u "sizes")))
  = [].
Proof.
  refine (proj1 (proj2
            (section_type_selects_the_part_written (R := PyFrag.runtime)
               (F := PyFix.fixed)
               (Examples.parser_for MoreExamples.row_document)
               (MarkupCompiler._parse_table (R := PyFrag.runtime)
                  (F := PyFix.fixed)
                  (Examples.parser_for MoreExamples.row_document)
                  MoreExamples.table_content (u "sizes"))
               (u "TABLE sizes") MoreExamples.table_content _)) _).
  - reflexivity.
  - vm_compute. discriminate.
Defined.

(** ** The tables of a markup text *)

Section ParsedTables.
Context {R : Runtime} {F : PyFixed.FixedPatterns}.

Lemma parse_section_step (self self' : MarkupParser.MarkupParser)
    (section_type : str) (content : list str) :
  MarkupCompiler.parse_section self (section_type, content) = Ok self' ->
  MarkupParser.document_text self' = MarkupParser.document_text self
  /\ MarkupParser.tables (MarkupParser.result self')
     = MarkupParser.tables (MarkupParser.result self)
       ++ (if startswith section_type (u "TABLE")
           then [MarkupCompiler.table_dict
                   (MarkupCompiler.second_word section_type)
                   (fold_left (MarkupCompiler.table_step self) content
                      {| MarkupCompiler.table_number := [];
                         MarkupCompiler.columns := [];
                         MarkupCompiler.rows := [];
                         MarkupCompiler.table_mode := MarkupCompiler.NoMode |})]
           else []).
Proof.
  unfold MarkupCompiler.parse_section.
  destruct (str_eqb section_type (u "META")) eqn:Emeta.
  { apply str_eqb_eq in Emeta. subst section_type. intros H.
    destruct (parse_meta_parts _ _ _ H) as (-> & _ & _ & ->).
    change (startswith (u "META") (u "TABLE")) with false.
    now rewrite app_nil_r. }
  destruct (str_eqb section_type (u "PARAMS")) eqn:Eparams.
  { apply str_eqb_eq in Eparams. subst section_type. intros H.
    destruct (parse_params_parts _ _ _ H) as (-> & _ & _ & ->).
    change (startswith (u "PARAMS") (u "TABLE")) with false.
    now rewrite app_nil_r. }
  destruct (startswith section_type (u "TABLE")) eqn:Etable.
  { now intros [= <-]. }
  rewrite app_nil_r.
  destruct (startswith section_type (u "SECTION")) eqn:Esection.
  { intros H. now destruct (parse_section_parts _ _ _ _ H) as (-> & _ & _ & ->). }
  now intros [= <-].
Qed.

Lemma table_step_document (self other : MarkupParser.MarkupParser)
    (t : MarkupCompiler.table_state) (line : str) :
  MarkupParser.document_text self = MarkupParser.document_text other ->
  MarkupCompiler.table_step self t line
  = MarkupCompiler.table_step other t line.
Proof.
  intros H. unfold MarkupCompiler.table_step, MarkupCompiler.start_number,
    MarkupCompiler._find_table_row_values, MarkupParser.document_lines.
  now rewrite H.
Qed.

Lemma table_fold_document (self other : MarkupParser.MarkupParser)
    (content : list str) :
  MarkupParser.document_text self = MarkupParser.document_text other ->
  forall t,
    fold_left (MarkupCompiler.table_step self) content t
    = fold_left (MarkupCompiler.table_step other) content t.
Proof.
  intros H. induction content as [|line content IH]; intros t;
    [reflexivity|].
  cbn [fold_left]. now rewrite IH, (table_step_document self other).
Qed.

Lemma parse_sections_names (secs : list (str * list str)) :
  forall self self' : MarkupParser.MarkupParser,
    MarkupCompiler.parse_sections self secs = Ok self' ->
    exists new,
      MarkupParser.tables (MarkupParser.result self')
      = MarkupParser.tables (MarkupParser.result self) ++ new
      /\ map (fun table => dget table (u "table_name")) new
         = map (fun section : str * list str =>
                  Some (VStr (MarkupCompiler.second_word (fst section))))
               (filter (fun section : str * list str =>
                          startswith (fst section) (u "TABLE")) secs).
Proof.
  induction secs as [|[section_type content] secs IH]; intros self self';
    cbn [MarkupCompiler.parse_sections].
  - intros [= <-]. exists []. now rewrite app_nil_r.
  - step_bind. intros H. destruct (IH _ _ H) as (new & -> & Hnew).
    destruct (parse_section_step _ _ _ _ E) as (_ & ->).
    cbn [filter fst]. rewrite <- app_assoc. eexists. split; [reflexivity|].
    destruct (startswith section_type (u "TABLE")); [|exact Hnew].
    cbn [app map]. now rewrite Hnew.
Qed.

(** X26. [parse] appends one table for every markup section whose type
    starts with [TABLE], in the order of the sections, and names it by
    the second word of the type ([unknown] without one); the tables the
    result already had stay in front. *)
Theorem one_table_per_table_section (markup_text : str)
    (self self' : MarkupParser.MarkupParser) :
  MarkupCompiler.parse markup_text self = Ok self' ->
  exists new,
    MarkupParser.tables (MarkupParser.result self')
    = MarkupParser.tables (MarkupParser.result self) ++ new
    /\ map (fun table => dget table (u "table_name")) new
       = map (fun section : str * list str =>
                Some (VStr (MarkupCompiler.second_word (fst section))))
             (filter (fun section : str * list str =>
                        startswith (fst section) (u "TABLE"))
                     (MarkupCompiler._split_into_sections markup_text)).
Proof. apply parse_sections_names. Qed.

Lemma parse_sections_again (secs : list (str * list str)) :
  forall self other self' other' : MarkupParser.MarkupParser,
    MarkupParser.document_text self = MarkupParser.document_text other ->
    MarkupCompiler.parse_sections self secs = Ok self' ->
    MarkupCompiler.parse_sections other secs = Ok other' ->
    MarkupParser.document_text self' = MarkupParser.document_text self
    /\ exists new,
        MarkupParser.tables (MarkupParser.result self')
        = MarkupParser.tables (MarkupParser.result self) ++ new
        /\ MarkupParser.tables (MarkupParser.result other')
           = MarkupParser.tables (MarkupParser.result other) ++ new.
Proof.
  induction secs as [|[section_type content] secs IH];
    intros self other self' other' Hdoc;
    cbn [MarkupCompiler.parse_sections].
  - intros [= <-] [= <-]. split; [reflexivity|]. exists [].
    now rewrite !app_nil_r.
  - step_bind. intros Hself. step_bind. intros Hother.
    destruct (parse_section_step _ _ _ _ E) as (Hd & Ht).
    destruct (parse_section_step _ _ _ _ E0) as (Hd0 & Ht0).
    destruct (IH _ _ _ _ (eq_trans Hd (eq_trans Hdoc (eq_sym Hd0)))
                 Hself Hother) as (Hd' & new & Hn & Hn0).
    split; [congruence|].
    rewrite Hn, Hn0, Ht, Ht0, <- !app_assoc.
    rewrite (table_fold_document self other content Hdoc).
    eexists. split; reflexivity.
Qed.

(** X27. [parse] is not idempotent on the tables: a second call with the
    same markup text, on the parser the first call left, appends the
    tables of the first call once more. *)
Theorem second_parse_repeats_the_tables (markup_text : str)
    (self once twice : MarkupParser.MarkupParser) :
  MarkupCompiler.parse markup_text self = Ok once ->
  MarkupCompiler.parse markup_text once = Ok twice ->
  MarkupParser.tables (MarkupParser.result twice)
  = MarkupParser.tables (MarkupParser.result once)
    ++ skipn (List.length (MarkupParser.tables (MarkupParser.result self)))
             (MarkupParser.tables (MarkupParser.result once)).
Proof.
  unfold MarkupCompiler.parse. intros Hfirst Hsecond.
  assert (MarkupParser.document_text once = MarkupParser.document_text self)
    as Hdoc.
  { now destruct (parse_sections_again _ self self once once eq_refl
                    Hfirst Hfirst). }
  destruct (parse_sections_again _ self once once twice (eq_sym Hdoc)
              Hfirst Hsecond) as (_ & new & Hn & ->).
  f_equal. rewrite Hn, skipn_app, skipn_all, Nat.sub_diag. reflexivity.
Qed.

End ParsedTables.

Lemma one_table_per_table_section_witness :
  exists new,
    MarkupParser.tables (MarkupParser.result MoreExamples.parsed_once)
    = [] ++ new
    /\ map (fun table => dget table (u "table_name")) new
       = map (fun section : str * list str =>
                Some (VStr (MarkupCompiler.second_word (R := PyFrag.runtime)
                              (fst section))))
             (filter (fun section : str * list str =>
                        startswith (fst section) (u "TABLE"))
                     (MarkupCompiler._split_into_sections
                        (R := PyFrag.runtime) MoreExamples.table_markup)).
Proof.
  refine (one_table_per_table_section (R := PyFrag.runtime)
            (F := PyFix.fixed) MoreExamples.table_markup
            (Examples.parser_for MoreExamples.row_document)
            MoreExamples.parsed_once _).
  vm_compute. reflexivity.
Defined.

Lemma second_parse_repeats_the_tables_witness :
  MarkupParser.tables (MarkupParser.result MoreExamples.parsed_twice)
  = MarkupParser.tables (MarkupParser.result MoreExamples.parsed_once)
    ++ MarkupParser.tables (MarkupParser.result MoreExamples.parsed_once).
Proof.
  refine (second_parse_repeats_the_tables (R := PyFrag.runtime)
            (F := PyFix.fixed) MoreExamples.table_markup
            (Examples.parser_for MoreExamples.row_document)
            MoreExamples.parsed_once MoreExamples.parsed_twice _ _);
    vm_compute; reflexivity.
Defined.

(** * Properties of the repair of generated specifications *)

Lemma find_char_first (c : char) (a b : str) :
  ~ In c a -> MarkupParser.find_char c (a ++ c :: b) = Some (List.length a).
Proof.
  induction a as [|x a IH]; intros Ha; cbn [app MarkupParser.find_char].
  - now rewrite N.eqb_refl.
  - destruct (x =? c)%N eqn:E.
    + apply N.eqb_eq in E. exfalso. apply Ha. now left.
    + rewrite IH; [reflexivity|]. intros H. apply Ha. now right.
Qed.

Lemma find_char_absent (c : char) (s : str) :
  ~ In c s -> MarkupParser.find_char c s = None.
Proof.
  induction s as [|x s IH]; intros Hs; [reflexivity|].
  cbn [MarkupParser.find_char]. destruct (x =? c)%N eqn:E.
  - apply N.eqb_eq in E. exfalso. apply Hs. now left.
  - rewrite IH; [reflexivity|]. intros H. apply Hs. now right.
Qed.

Lemma find_char_present (c : char) (s : str) :
  In c s -> exists n, MarkupParser.find_char c s = Some n.
Proof.
  induction s as [|x s IH]; intros Hs; [contradiction|].
  cbn [MarkupParser.find_char]. destruct (x =? c)%N eqn:E;
    [now eexists|].
  destruct Hs as [->|Hs]; [now rewrite N.eqb_refl in E|].
  destruct (IH Hs) as [n ->]. now eexists.
Qed.

Lemma rev_around {A : Type} (front back : list A) (x : A) :
  rev (front ++ x :: back) = rev back ++ x :: rev front.
Proof. rewrite rev_app_distr. cbn [rev]. now rewrite <- app_assoc. Qed.

(** X28. A fenced answer is cut down to its JSON object: what stands
    from the first opening brace to the last closing brace, braces
    included; the fences and the text around are dropped. *)
Theorem fenced_object_is_cut_out (before body after : str) :
  contains (before ++ [MarkupParser.LBRACE] ++ body
            ++ [MarkupParser.RBRACE] ++ after) (u "```") = true ->
  ~ In MarkupParser.LBRACE before -> ~ In MarkupParser.RBRACE after ->
  RegexGenerator.strip_fences
    (before ++ [MarkupParser.LBRACE] ++ body ++ [MarkupParser.RBRACE]
     ++ after)
  = [MarkupParser.LBRACE] ++ body ++ [MarkupParser.RBRACE].
Proof.
  intros Hfence Hbefore Hafter. unfold RegexGenerator.strip_fences.
  rewrite Hfence. unfold RegexGenerator.find, RegexGenerator.rfind.
  cbn [app]. rewrite find_char_first by assumption.
  replace (rev (before ++ MarkupParser.LBRACE
                       :: body ++ MarkupParser.RBRACE :: after))
    with (rev after
          ++ MarkupParser.RBRACE
             :: rev (before ++ MarkupParser.LBRACE :: body)).
  2:{ replace (before ++ MarkupParser.LBRACE
                      :: body ++ MarkupParser.RBRACE :: after)
        with ((before ++ MarkupParser.LBRACE :: body)
              ++ MarkupParser.RBRACE :: after)
        by exact (eq_sym (app_assoc before (MarkupParser.LBRACE :: body)
                            (MarkupParser.RBRACE :: after))).
      symmetry. apply rev_around. }
  rewrite find_char_first
    by (intros H; apply Hafter; now apply in_rev).
  rewrite length_rev.
  destruct (Z.eqb_spec (Z.of_nat (List.length before)) (-1)); [lia|].
  destruct (Z.eqb_spec
              (Z.of_nat
                 (List.length
                    (before ++ MarkupParser.LBRACE
                            :: body ++ MarkupParser.RBRACE :: after)
                  - 1 - List.length after) + 1) (-1)); [lia|].
  cbn [negb andb]. unfold slice. rewrite Nat2Z.id.
  rewrite skipn_app, skipn_all, Nat.sub_diag. cbn [skipn app].
  replace (Z.to_nat _ - List.length before) with (S (List.length body + 1)).
  2:{ rewrite !length_app. cbn [List.length]. rewrite !length_app.
      cbn [List.length]. lia. }
  cbn [firstn]. f_equal.
  change (MarkupParser.RBRACE :: after) with ([MarkupParser.RBRACE] ++ after).
  rewrite app_assoc, firstn_app, length_app. cbn [List.length].
  rewrite Nat.sub_diag, firstn_all2 by (rewrite length_app; cbn; lia).
  cbn [firstn]. now rewrite app_nil_r.
Qed.

(** X29. The test on the closing brace never fails: a fenced answer
    with an opening brace and no closing brace, an object cut short,
    becomes the empty text. *)
Theorem fence_without_closing_brace_leaves_nothing (response : str) :
  contains response (u "```") = true ->
  In MarkupParser.LBRACE response -> ~ In MarkupParser.RBRACE response ->
  RegexGenerator.strip_fences response = [].
Proof.
  intros Hfence Hopen Hclose. unfold RegexGenerator.strip_fences.
  rewrite Hfence. unfold RegexGenerator.find, RegexGenerator.rfind.
  destruct (find_char_present _ _ Hopen) as [n ->].
  rewrite find_char_absent
    by (intros H; apply Hclose; now apply in_rev).
  destruct (Z.eqb_spec (Z.of_nat n) (-1)); [lia|].
  cbn [negb andb Z.add Z.eqb Z.to_nat]. unfold slice. reflexivity.
Qed.

Lemma backslashes_app (a b : str) :
  RegexGenerator.backslashes (a ++ b)
  = RegexGenerator.backslashes a + RegexGenerator.backslashes b.
Proof.
  unfold RegexGenerator.backslashes. now rewrite filter_app, length_app.
Qed.

Lemma backslashes_doubled (pattern_value : str) :
  RegexGenerator.backslashes
    (RegexGenerator.double_backslashes pattern_value)
  = 2 * RegexGenerator.backslashes pattern_value.
Proof.
  induction pattern_value as [|c s IH]; [reflexivity|].
  change (RegexGenerator.double_backslashes (c :: s))
    with ((if (c =? RegexGenerator.BACKSLASH)%N
           then [RegexGenerator.BACKSLASH; RegexGenerator.BACKSLASH]
           else [c]) ++ RegexGenerator.double_backslashes s).
  change (c :: s) with ([c] ++ s). rewrite !backslashes_app, IH.
  unfold RegexGenerator.backslashes at 1 3. cbn [filter].
  destruct (c =? RegexGenerator.BACKSLASH)%N eqn:E; cbn; [|rewrite E; cbn];
    lia.
Qed.

Lemma backslashes_fixed (pattern_value : str) :
  RegexGenerator.backslashes (RegexGenerator.fix_pattern pattern_value)
  = 2 * RegexGenerator.backslashes pattern_value.
Proof.
  unfold RegexGenerator.fix_pattern.
  rewrite !backslashes_app, backslashes_doubled.
  change (RegexGenerator.backslashes [RegexGenerator.QUOTE]) with 0.
  change (RegexGenerator.backslashes (u "pattern")) with 0.
  change (RegexGenerator.backslashes (u ": ")) with 0. lia.
Qed.

Lemma sub_entries_backslashes (text : str)
    (entries : list (nat * nat * str)) :
  forall pos,
    RegexGenerator.entries_from text pos entries ->
    RegexGenerator.backslashes (RegexGenerator.sub_entries text pos entries)
    = RegexGenerator.backslashes (skipn pos text)
      + list_sum (map (fun entry : nat * nat * str =>
                         RegexGenerator.backslashes (snd entry)) entries).
Proof.
  induction entries as [|[[start stop] pattern_value] entries IH];
    intros pos Hfrom; cbn [RegexGenerator.sub_entries map snd].
  - unfold list_sum. cbn [fold_right]. lia.
  - destruct Hfrom as (Hpos & _ & (gap & Hgap & Hspan) & Hrest).
    assert (start <= stop) as Horder.
    { assert (List.length (slice text start stop) <= stop - start)
        by apply firstn_le_length.
      rewrite Hspan in H. cbn [app List.length] in H. lia. }
    rewrite !backslashes_app, backslashes_fixed, (IH _ Hrest).
    rewrite <- (slice_skipn text pos start Hpos).
    rewrite <- (slice_skipn text start stop Horder).
    rewrite !backslashes_app, Hspan, !backslashes_app, Hgap.
    change (RegexGenerator.backslashes [RegexGenerator.QUOTE]) with 0.
    change (RegexGenerator.backslashes (u "pattern")) with 0.
    change (RegexGenerator.backslashes (u ":")) with 0.
    unfold list_sum. cbn [fold_right]. lia.
Qed.

(** X30. The repair doubles the backslashes of the pattern values and
    touches no other: when the entries are the matches that [re] reports
    for the pattern of line 204, the text handed to [json.loads] has the
    backslashes of the answer after fence stripping, and those of the
    values once more. *)
Theorem repair_doubles_backslashes_of_values
    (F : PyFixed.FixedPatterns) (response : str) :
  RegexGenerator.entries_from (RegexGenerator.strip_fences response) 0
    (PyFixed.pattern_entries (RegexGenerator.strip_fences response)) ->
  RegexGenerator.backslashes (RegexGenerator.repair response)
  = RegexGenerator.backslashes (RegexGenerator.strip_fences response)
    + list_sum
        (map (fun entry : nat * nat * str =>
                RegexGenerator.backslashes (snd entry))
             (PyFixed.pattern_entries (RegexGenerator.strip_fences response))).
Proof.
  intros Hfrom. unfold RegexGenerator.repair.
  now rewrite sub_entries_backslashes.
Qed.

Lemma fenced_object_is_cut_out_witness :
  RegexGenerator.strip_fences MoreExamples.fenced_answer = u "{a}".
Proof.
  refine (fenced_object_is_cut_out (u "```json" ++ Examples.NL) (u "a")
            (Examples.NL ++ u "```") _ _ _).
  - reflexivity.
  - vm_compute. intuition discriminate.
  - vm_compute. intuition discriminate.
Defined.

Lemma fence_without_closing_brace_leaves_nothing_witness :
  RegexGenerator.strip_fences MoreExamples.cut_answer = [].
Proof.
  refine (fence_without_closing_brace_leaves_nothing
            MoreExamples.cut_answer _ _ _).
  - reflexivity.
  - vm_compute. tauto.
  - vm_compute. intuition discriminate.
Defined.

Lemma repair_doubles_backslashes_of_values_witness :
  RegexGenerator.backslashes
    (RegexGenerator.repair (F := PyFix.fixed) MoreExamples.entry_answer)
  = 4.
Proof.
  refine (eq_trans
            (repair_doubles_backslashes_of_values PyFix.fixed
               MoreExamples.entry_answer _) _).
  - vm_compute. repeat split; try lia.
    exists (u "  "). split; reflexivity.
  - reflexivity.
Defined.
